(** * lvmeteo: query construction, transport, normalisation and error policy

    A shallow embedding of [lvmeteo/meteodata.py] (with the constants of
    [lvmeteo/config.py] and the exception classes of
    [lvmeteo/exceptions.py]).

    Conventions of the embedding.
    - Python values decoded from JSON are the inductive [pyval]; a [dict]
      is an association list in insertion order (keys are unique, lookup
      takes the first binding).  A float is carried by its [repr] text.
    - A raised exception is a value of [exn] (class, [str(e)] text and the
      [__cause__] set by [raise ... from e]); code that may raise returns
      [result].
    - The network is a [world]: what the HTTP endpoint and the [curl]
      process answer to a request.  Code that talks to it runs in the
      monad [IO], which threads the list of requests made so far.
    - [logger] calls are left out, except where evaluating their argument
      can raise ([len(records)]).
    - Operations of pandas whose result the code only passes on (parsing
      of a number or a date-time text, [repr] of containers, the dtype
      inferred for a column, the constructor on data that is not a list
      of dicts, the reshaping chain) are the fields of the class
      [PandasLib], and so is the one point where the versions of pandas
      the package metadata admits ([pandas>=1.0.0]) differ for the code:
      whether [astype('str')] keeps a missing value.
    - [records_to_dataframe_raw_with] is the function for any behaviour
      of [pd.to_numeric] and [pd.to_datetime]; [records_to_dataframe_raw]
      is that function with the two conversions as pandas 1.x and 2.x
      have them, where [errors='coerce'] turns every value that is not
      read into a missing one. *)

From Stdlib Require Import ZArith List String Ascii Bool Lia.
From Stdlib Require Import DecimalString.
Import ListNotations.
Open Scope string_scope.
Open Scope Z_scope.

Set Implicit Arguments.

(** ** Text helpers *)

Module Text.

(** [str(n)] for a Python [int]. *)
Definition of_Z (z : Z) : string := NilEmpty.string_of_int (Z.to_int z).

Fixpoint zeros (n : nat) : string :=
  match n with
  | O => ""
  | S n' => String "0" (zeros n')
  end.

(** ["%0<w>d" % z] for a non-negative [z]. *)
Definition zfill (w : nat) (z : Z) : string :=
  let s := of_Z z in
  zeros (w - String.length s) ++ s.

(** [sep.join(parts)]. *)
Fixpoint join (sep : string) (parts : list string) : string :=
  match parts with
  | [] => ""
  | [p] => p
  | p :: rest => p ++ sep ++ join sep rest
  end.

Definition is_empty (s : string) : bool :=
  match s with
  | EmptyString => true
  | String _ _ => false
  end.

End Text.

(** ** Exceptions and results *)

(** The classes of [lvmeteo/exceptions.py] that the pipeline raises, the
    two [subprocess] classes the transport names in an [except] clause,
    and any other subclass of [Exception] by name. *)
Inductive exn_class : Type :=
| ValidationError
| APIError
| DataNotFoundError
| TimeoutExpired
| CalledProcessError
| Builtin (name : string).

#[warnings="-register-all"]
Inductive exn : Type :=
| Exn (cls : exn_class) (msg : string) (cause : option exn).

Definition exn_cls (e : exn) : exn_class := let 'Exn c _ _ := e in c.
Definition exn_str (e : exn) : string := let 'Exn _ m _ := e in m.
Definition exn_cause (e : exn) : option exn := let 'Exn _ _ c := e in c.

(** [except (ValidationError, APIError, DataNotFoundError)]. *)
Definition is_lvmeteo_error (e : exn) : bool :=
  match exn_cls e with
  | ValidationError | APIError | DataNotFoundError => true
  | _ => false
  end.

Inductive result (A : Type) : Type :=
| Ok (a : A)
| Raise (e : exn).
Arguments Ok {A} a.
Arguments Raise {A} e.

Definition rbind {A B} (r : result A) (k : A -> result B) : result B :=
  match r with
  | Ok a => k a
  | Raise e => Raise e
  end.

Declare Scope result_scope.
Delimit Scope result_scope with result.
Notation "x <- r ;; k" := (rbind r (fun x => k))
  (at level 61, r at next level, right associativity) : result_scope.

Definition raise_new {A} (c : exn_class) (m : string) : result A :=
  Raise (Exn c m None).

(** [raise c(m) from e]. *)
Definition raise_from {A} (c : exn_class) (m : string) (e : exn) : result A :=
  Raise (Exn c m (Some e)).

Definition is_ok {A} (r : result A) : bool :=
  match r with Ok _ => true | Raise _ => false end.

(** ** [datetime.datetime] *)

(** A [tzinfo] object as one datetime sees it: which object it is (two
    datetimes built with the same time zone share it) and the
    [utcoffset()] it gives for that datetime, in microseconds. The offset
    depends on the datetime: one zone gives two offsets on the two sides
    of a daylight-saving change. A [tzinfo] whose [utcoffset()] is
    [None] is not represented; the time zones of the standard library
    always give an offset. *)
Record tzinfo : Type := mk_tzinfo {
  tz_object : N;
  tz_utcoffset : Z
}.

(** A [datetime] object: its seven fields and its [tzinfo], [None] for a
    naive object. *)
Record datetime : Type := mk_datetime {
  year : Z; month : Z; day : Z;
  hour : Z; minute : Z; second : Z; microsecond : Z;
  tzinfo_of : option tzinfo
}.

(** [d.utcoffset()]. *)
Definition utcoffset (d : datetime) : option Z :=
  match tzinfo_of d with
  | Some tz => Some (tz_utcoffset tz)
  | None => None
  end.

Module Datetime.

Definition is_leap (y : Z) : bool :=
  (y mod 4 =? 0) && (negb (y mod 100 =? 0) || (y mod 400 =? 0)).

Definition days_before_year (y : Z) : Z :=
  let p := y - 1 in p * 365 + p / 4 - p / 100 + p / 400.

Definition days_in_month (y m : Z) : Z :=
  if m =? 2 then (if is_leap y then 29 else 28)
  else if (m =? 4) || (m =? 6) || (m =? 9) || (m =? 11) then 30
  else 31.

Fixpoint days_before_month_aux (y : Z) (n : nat) : Z :=
  match n with
  | O => 0
  | S n' => days_before_month_aux y n' + days_in_month y (Z.of_nat n)
  end.

(** Days of the year before the first day of month [m]. *)
Definition days_before_month (y m : Z) : Z :=
  days_before_month_aux y (Z.to_nat (m - 1)).

(** [toordinal()]: 1 for 0001-01-01. *)
Definition toordinal (d : datetime) : Z :=
  days_before_year (year d) + days_before_month (year d) (month d) + day d.

(** Microseconds since the start of day 0, offset not applied. *)
Definition wall_us (d : datetime) : Z :=
  (((toordinal d * 24 + hour d) * 60 + minute d) * 60 + second d) * 1000000
  + microsecond d.

(** Comparison of the field tuples, as [_cmp] does on
    [(year, month, day, hour, minute, second, microsecond)]. *)
Fixpoint cmp_tuple (a b : list Z) : comparison :=
  match a, b with
  | x :: a', y :: b' =>
      match x ?= y with
      | Eq => cmp_tuple a' b'
      | c => c
      end
  | [], [] => Eq
  | [], _ :: _ => Lt
  | _ :: _, [] => Gt
  end.

Definition fields (d : datetime) : list Z :=
  [year d; month d; day d; hour d; minute d; second d; microsecond d].

(** The comparison of two datetimes. Operands with the same [tzinfo]
    object, which two naive ones are, compare by their fields, whatever
    their offsets; so do operands with equal offsets; other aware
    operands compare by instant. [None] stands for the [TypeError] raised
    when one operand is naive and the other aware. *)
Definition cmp (a b : datetime) : option comparison :=
  match tzinfo_of a, tzinfo_of b with
  | None, None => Some (cmp_tuple (fields a) (fields b))
  | Some ta, Some tb =>
      if (tz_object ta =? tz_object tb)%N then
        Some (cmp_tuple (fields a) (fields b))
      else if tz_utcoffset ta =? tz_utcoffset tb then
        Some (cmp_tuple (fields a) (fields b))
      else
        Some ((wall_us a - tz_utcoffset ta) ?= (wall_us b - tz_utcoffset tb))
  | _, _ => None
  end.

(** [a >= b]. *)
Definition ge (a b : datetime) : option bool :=
  match cmp a b with
  | Some Lt => Some false
  | Some _ => Some true
  | None => None
  end.

(** [a < b]. *)
Definition lt (a b : datetime) : option bool :=
  match cmp a b with
  | Some Lt => Some true
  | Some _ => Some false
  | None => None
  end.

(** [_format_offset]. *)
Definition format_offset (off : option Z) : string :=
  match off with
  | None => ""
  | Some o =>
      let sign := if o <? 0 then "-" else "+" in
      let a := Z.abs o in
      let hh := a / 3600000000 in
      let r := a mod 3600000000 in
      let mm := r / 60000000 in
      let ss := r mod 60000000 in
      sign ++ Text.zfill 2 hh ++ ":" ++ Text.zfill 2 mm
      ++ (if ss =? 0 then ""
          else ":" ++ Text.zfill 2 (ss / 1000000)
               ++ (if ss mod 1000000 =? 0 then ""
                   else "." ++ Text.zfill 6 (ss mod 1000000)))
  end.

(** [isoformat(sep)]: [YYYY-MM-DD<sep>HH:MM:SS[.ffffff][+HH:MM[:SS[.ffffff]]]]. *)
Definition isoformat_sep (sep : string) (d : datetime) : string :=
  Text.zfill 4 (year d) ++ "-" ++ Text.zfill 2 (month d) ++ "-"
  ++ Text.zfill 2 (day d) ++ sep
  ++ Text.zfill 2 (hour d) ++ ":" ++ Text.zfill 2 (minute d) ++ ":"
  ++ Text.zfill 2 (second d)
  ++ (if microsecond d =? 0 then "" else "." ++ Text.zfill 6 (microsecond d))
  ++ format_offset (utcoffset d).

Definition isoformat (d : datetime) : string := isoformat_sep "T" d.

End Datetime.

(** ** Python values *)

(** What [json.loads] / [response.json()] can return, which is also what a
    record cell holds before coercion. *)
#[warnings="-register-all"]
Inductive pyval : Type :=
| PNone
| PBool (b : bool)
| PInt (z : Z)
| PFloat (repr : string)
| PStr (s : string)
| PList (items : list pyval)
| PDict (entries : list (string * pyval)).

Definition pydict : Type := list (string * pyval).

(** The float [nan], pandas' missing value in a column of objects. *)
Definition NaN : pyval := PFloat "nan".

Module Py.

(** [bool(v)]. *)
Definition truthy (v : pyval) : bool :=
  match v with
  | PNone => false
  | PBool b => b
  | PInt z => negb (z =? 0)
  | PFloat r => negb ((r =? "0.0")%string || (r =? "-0.0")%string)
  | PStr s => negb (Text.is_empty s)
  | PList l => match l with [] => false | _ => true end
  | PDict d => match d with [] => false | _ => true end
  end.

(** [type(v).__name__]. *)
Definition type_name (v : pyval) : string :=
  match v with
  | PNone => "NoneType"
  | PBool _ => "bool"
  | PInt _ => "int"
  | PFloat _ => "float"
  | PStr _ => "str"
  | PList _ => "list"
  | PDict _ => "dict"
  end.

Fixpoint lookup {A} (k : string) (d : list (string * A)) : option A :=
  match d with
  | [] => None
  | (k', v) :: rest => if (k =? k')%string then Some v else lookup k rest
  end.

Definition has_key {A} (k : string) (d : list (string * A)) : bool :=
  match lookup k d with Some _ => true | None => false end.

(** [d[k] = v] on a dict: an existing key keeps its position. *)
Fixpoint store {A} (k : string) (v : A) (d : list (string * A))
  : list (string * A) :=
  match d with
  | [] => [(k, v)]
  | (k', v') :: rest =>
      if (k =? k')%string then (k, v) :: rest else (k', v') :: store k v rest
  end.

Definition attribute_error {A} (v : pyval) (attr : string) : result A :=
  raise_new (Builtin "AttributeError")
    ("'" ++ type_name v ++ "' object has no attribute '" ++ attr ++ "'").

(** [v.get(k, default)]; only a dict has [get]. *)
Definition get (v : pyval) (k : string) (default : pyval) : result pyval :=
  match v with
  | PDict d => Ok (match lookup k d with Some x => x | None => default end)
  | _ => attribute_error v "get"
  end.

(** [v[k]] for a string [k]. The text of the [TypeError] for a string
    [v] is that of Python 3.7 to 3.10; Python 3.11 adds [, not 'str']
    to it. *)
Definition getitem (v : pyval) (k : string) : result pyval :=
  match v with
  | PDict d =>
      match lookup k d with
      | Some x => Ok x
      | None => raise_new (Builtin "KeyError") ("'" ++ k ++ "'")
      end
  | PStr _ => raise_new (Builtin "TypeError") "string indices must be integers"
  | PList _ =>
      raise_new (Builtin "TypeError")
        "list indices must be integers or slices, not str"
  | _ =>
      raise_new (Builtin "TypeError")
        ("'" ++ type_name v ++ "' object is not subscriptable")
  end.

Fixpoint chars (s : string) : list pyval :=
  match s with
  | EmptyString => []
  | String c rest => PStr (String c EmptyString) :: chars rest
  end.

(** The items [for x in v] visits. *)
Definition iter (v : pyval) : result (list pyval) :=
  match v with
  | PList l => Ok l
  | PDict d => Ok (map (fun kv => PStr (fst kv)) d)
  | PStr s => Ok (chars s)
  | _ =>
      raise_new (Builtin "TypeError")
        ("'" ++ type_name v ++ "' object is not iterable")
  end.

(** [len(v)]. *)
Definition len (v : pyval) : result Z :=
  match v with
  | PList l => Ok (Z.of_nat (List.length l))
  | PDict d => Ok (Z.of_nat (List.length d))
  | PStr s => Ok (Z.of_nat (String.length s))
  | _ =>
      raise_new (Builtin "TypeError")
        ("object of type '" ++ type_name v ++ "' has no len()")
  end.

(** Whether [v] can be a dict key. *)
Definition hashable (v : pyval) : bool :=
  match v with
  | PList _ | PDict _ => false
  | _ => true
  end.

End Py.

(** ** Configuration ([lvmeteo/config.py]) *)

Definition API_BASE_URL : string :=
  "https://data.gov.lv/dati/api/3/action/datastore_search_sql".
Definition DEFAULT_TIMEOUT : Z := 30.

(** [RESOURCE_URLS]: the resources the table operations read. *)
Module RESOURCE_URLS.
Definition meteo_stations : string := "c32c7afd-0d05-44fd-8b24-1de85b4bf11d".
Definition hydro_stations : string := "93fd5e2c-20c4-496e-a920-ff29bda20383".
Definition meteo_params : string := "38b462ac-08b9-4168-9d6e-cbaedc2e775d".
Definition hydro_params : string := "714ab60d-d93e-4403-b76d-2fb865d15d63".
Definition meteo_operational : string := "17460efb-ae99-4d1d-8144-1068f184b05f".
Definition meteo_archive : string := "339f73e4-20cf-4cea-be65-dcfd4b3b742c".
Definition meteo_archive_avg : string := "ecc62e27-2071-483c-bca9-5e53d979faa8".
Definition hydro_operational : string := "de5f06e9-6f44-497d-8ec2-72a2483608e8".
Definition hydro_archive : string := "a90de53b-e8b6-4cda-97c4-ecb86fbafc2d".
Definition weather_phenomena_operational : string :=
  "77da5b2b-ebe2-4b94-963d-8a92364a3937".
Definition weather_phenomena_archive : string :=
  "05b4dc26-016c-478a-a5e1-afa74bd83c06".
End RESOURCE_URLS.

(** Column maps: friendly name to API field name, in declaration order. *)
Definition STATION_COLUMNS : list (string * string) :=
  [("station_id", "STATION_ID"); ("name", "NAME"); ("WMO_id", "WMO_ID");
   ("begin_date", "BEGIN_DATE"); ("end_date", "END_DATE");
   ("longitude", "GEOGR1"); ("latitude", "GEOGR2");
   ("elevation", "ELEVATION"); ("elevation_pressure", "ELEVATION_PRESSURE")].

Definition DATA_COLUMNS : list (string * string) :=
  [("station_id", "STATION_ID"); ("param", "ABBREVIATION");
   ("date", "DATETIME"); ("value", "VALUE")].

Definition PARAM_COLUMNS : list (string * string) :=
  [("param_id", "ABBREVIATION"); ("description_EN", "EN_DESCRIPTION");
   ("description_LV", "LV_DESCRIPTION"); ("scale", "SCALE");
   ("lower_limit", "LOWER_LIMIT"); ("upper_limit", "UPPER_LIMIT");
   ("unit", "MEASUREMENT_UNIT")].

(** ** Query builder *)

(** [Union[str, List[str]]]: the stations and the parameters of a query. *)
Inductive str_or_list : Type :=
| Scalar (s : string)
| Seq (items : list string).

(** The start or the end of the interval: a [datetime.datetime] instance
    or any other object. *)
Inductive date_arg : Type :=
| ADatetime (d : datetime)
| ANotDatetime (v : pyval).

(** [bool(x)] for a station or parameter argument. *)
Definition arg_truthy (x : str_or_list) : bool :=
  match x with
  | Scalar s => negb (Text.is_empty s)
  | Seq l => match l with [] => false | _ => true end
  end.

(** [if not hasattr(x, '__iter__') or isinstance(x, (str, bytes)): x = [x]]. *)
Definition normalize_arg (x : str_or_list) : list string :=
  match x with
  | Scalar s => [s]
  | Seq l => l
  end.

(** The double quote character. *)
Definition dq : string := String "034"%char EmptyString.

(** [lambda x: f"'{x}'"]. *)
Definition quote_item (x : string) : string := "'" ++ x ++ "'".

Definition quoted_list (items : list string) : string :=
  Text.join "," (map quote_item items).

(** [base_sql.format(...)]. *)
Definition base_sql (table station_list parameter_list startdate enddate : string)
  : string :=
  "SELECT * from " ++ dq ++ table ++ dq
  ++ " WHERE " ++ dq ++ "STATION_ID" ++ dq ++ " in (" ++ station_list ++ ")"
  ++ " and " ++ dq ++ "ABBREVIATION" ++ dq ++ " in (" ++ parameter_list ++ ")"
  ++ " and " ++ dq ++ "DATETIME" ++ dq
  ++ " BETWEEN '" ++ startdate ++ "' and '" ++ enddate ++ "'".

Definition create_lv_meteo_data_sql
    (table : string) (stations parameters : str_or_list)
    (startdate enddate : date_arg) : result string :=
  if Text.is_empty table then
    raise_new ValidationError "Table name cannot be empty"
  else if negb (arg_truthy stations) then
    raise_new ValidationError "Stations list cannot be empty"
  else if negb (arg_truthy parameters) then
    raise_new ValidationError "Parameters list cannot be empty"
  else
    match startdate with
    | ANotDatetime _ =>
        raise_new ValidationError "Start date must be a datetime object"
    | ADatetime sd =>
        match enddate with
        | ANotDatetime _ =>
            raise_new ValidationError "End date must be a datetime object"
        | ADatetime ed =>
            match Datetime.ge sd ed with
            | None =>
                raise_new (Builtin "TypeError")
                  "can't compare offset-naive and offset-aware datetimes"
            | Some true =>
                raise_new ValidationError "Start date must be before end date"
            | Some false =>
                let parameter_list := quoted_list (normalize_arg parameters) in
                let station_list := quoted_list (normalize_arg stations) in
                Ok (base_sql table station_list parameter_list
                      (Datetime.isoformat sd) (Datetime.isoformat ed))
            end
        end
    end.

(** ** The network and the monad of the pipeline *)

(** What [requests.get] does: it raises, or it returns a response with a
    status code, a body text and the outcome of [response.json()]. *)
Inductive http_reply : Type :=
| HttpResponse (status_code : Z) (text : string) (json : result pyval)
| HttpRaises (e : exn).

(** What [subprocess.check_output] does: it raises ([TimeoutExpired],
    [CalledProcessError], [FileNotFoundError], ...), or it returns the
    standard output, given with the outcome of [json.loads] on it. *)
Inductive curl_reply : Type :=
| CurlOutput (stdout : string) (decoded : result pyval)
| CurlRaises (e : exn).

Record world : Type := mk_world {
  http_get : string -> string -> Z -> http_reply;
  curl_run : list string -> Z -> curl_reply
}.

(** A request that left the process. *)
Inductive request : Type :=
| HttpGet (url sql : string) (timeout : Z)
| CurlExec (argv : list string) (timeout : Z).

Definition IO (A : Type) : Type :=
  world -> list request -> result A * list request.

Module Io.

Definition ret {A} (a : A) : IO A := fun _ tr => (Ok a, tr).
Definition raise {A} (e : exn) : IO A := fun _ tr => (Raise e, tr).
Definition lift {A} (r : result A) : IO A := fun _ tr => (r, tr).

Definition bind {A B} (m : IO A) (k : A -> IO B) : IO B :=
  fun w tr =>
    match m w tr with
    | (Ok a, tr') => k a w tr'
    | (Raise e, tr') => (Raise e, tr')
    end.

(** [try: m  except Exception as e: h e]. *)
Definition try_except {A} (m : IO A) (h : exn -> IO A) : IO A :=
  fun w tr =>
    match m w tr with
    | (Ok a, tr') => (Ok a, tr')
    | (Raise e, tr') => h e w tr'
    end.

Definition requests_get (url sql : string) (timeout : Z) : IO http_reply :=
  fun w tr => (Ok (http_get w url sql timeout), (tr ++ [HttpGet url sql timeout])%list).

Definition check_output (argv : list string) (timeout : Z) : IO curl_reply :=
  fun w tr => (Ok (curl_run w argv timeout), (tr ++ [CurlExec argv timeout])%list).

(** Run from an empty request log. *)
Definition run {A} (m : IO A) (w : world) : result A * list request :=
  m w [].

End Io.

Declare Scope io_scope.
Delimit Scope io_scope with io.
Notation "x <- m ;; k" := (Io.bind m (fun x => k))
  (at level 61, m at next level, right associativity) : io_scope.

(** ** Transport *)

(** [response.ok]: the status is not a 4xx or 5xx one. *)
Definition response_ok (status_code : Z) : bool :=
  negb ((400 <=? status_code) && (status_code <? 600)).

(** The three [except] clauses that close the [try] of
    [get_response_from_lv_data]. *)
Definition transport_except {A} (e : exn) : IO A :=
  match exn_cls e with
  | TimeoutExpired =>
      Io.raise (Exn APIError ("Request timed out: " ++ exn_str e) (Some e))
  | CalledProcessError =>
      Io.raise (Exn APIError ("Curl command failed: " ++ exn_str e) (Some e))
  | _ =>
      Io.raise (Exn APIError
                  ("Unexpected error during API request: " ++ exn_str e) (Some e))
  end.

Definition get_response_from_lv_data
    (sql : string) (use_curl : bool) (curlExePath : string) : IO pyval :=
  if Text.is_empty sql then
    Io.raise (Exn ValidationError "SQL query cannot be empty" None)
  else
    Io.try_except
      (if use_curl then
         let options :=
           [curlExePath; "-G"; "--data-urlencode"; "sql=" ++ sql; API_BASE_URL] in
         (rOutput <- Io.check_output options 400 ;;
          match rOutput with
          | CurlOutput _ decoded => Io.lift decoded
          | CurlRaises e => Io.raise e
          end)%io
       else
         (response <- Io.requests_get API_BASE_URL sql DEFAULT_TIMEOUT ;;
          match response with
          | HttpRaises e => Io.raise e
          | HttpResponse status_code text json =>
              if response_ok status_code then Io.lift json
              else
                Io.raise (Exn APIError
                            ("API request failed with status "
                             ++ Text.of_Z status_code ++ ": " ++ text) None)
          end)%io)
      transport_except.

(** ** pandas: frames and coercions *)

(** A value held in a column: a Python object, or one of the two pandas
    scalars the coercions produce. *)
Inductive cell : Type :=
| CVal (v : pyval)
| CNaT
| CTimestamp (d : datetime).

(** A [DataFrame]: the columns in order, each a label and its values; the
    number of rows; and the index, [None] for the default [RangeIndex] or
    the column that [set_index] moved there. *)
Record DataFrame : Type := mk_frame {
  data : list (string * list cell);
  nrows : nat;
  index : option (string * list cell)
}.

(** What a pandas call that is kept abstract returns: a value, or an
    exception of pandas or of the interpreter, given by class name and
    text. *)
Inductive lib_result (A : Type) : Type :=
| LibOk (a : A)
| LibRaise (name msg : string).
Arguments LibOk {A} a.
Arguments LibRaise {A} name msg.

Definition of_lib {A} (r : lib_result A) : result A :=
  match r with
  | LibOk a => Ok a
  | LibRaise name msg => raise_new (Builtin name) msg
  end.

(** The library operations the embedding does not look into. *)
Class PandasLib : Type := {
  (** [repr(v)] of a list or a dict. *)
  py_repr : pyval -> string;
  (** The number [pd.to_numeric] reads from a text, if it reads one. *)
  parse_numeric : string -> option pyval;
  (** The instant [pd.to_datetime] reads from a value that is not
      missing, if it reads one. The reading may depend on the column the
      value stands in: pandas 2 and later read every text of a column in
      the format of its first one. *)
  parse_datetime : list cell -> pyval -> option datetime;
  (** The values of a column as the dtype holds them that [pd.DataFrame]
      infers for it: in a [float64] column [5] is held as [5.0] and
      [None] as [nan]; an [object] column holds the values as given. *)
  infer_column : list cell -> list cell;
  infer_column_length :
    forall col, List.length (infer_column col) = List.length col;
  (** The numbers of the result of [pd.to_numeric] as its dtype holds
      them: as floats once one of them is missing or a float. *)
  numeric_column : list cell -> list cell;
  numeric_column_length :
    forall col, List.length (numeric_column col) = List.length col;
  (** Whether [astype('str')] leaves a missing value missing (pandas 3)
      or writes its [str] (pandas 1.x and 2.x). *)
  astype_str_keeps_missing : bool;
  (** [pd.DataFrame(x)] for an [x] that is not a list of dicts. *)
  frame_of_irregular : pyval -> lib_result DataFrame;
  (** Lines 283 to 286 of [get_lv_meteo_data]:
      [tz_localize('UTC')] of the [date] column, [drop_duplicates],
      [set_index], [sort_index] and [unstack(...)['value']]. *)
  unstack_by_station_param : DataFrame -> lib_result DataFrame
}.

Inductive errors_mode : Type := ErrorsRaise | ErrorsCoerce.

Module Pd.

(** [df.columns]. *)
Definition columns (df : DataFrame) : list string := map fst (data df).

(** [df.empty]: an axis of length 0. *)
Definition empty (df : DataFrame) : bool :=
  match data df with
  | [] => true
  | _ => (nrows df =? 0)%nat
  end.

(** [c in df.columns]. *)
Definition has_column (c : string) (df : DataFrame) : bool :=
  existsb (String.eqb c) (columns df).

(** [df[c]]. *)
Definition column (c : string) (df : DataFrame) : option (list cell) :=
  Py.lookup c (data df).

(** The cell of column [c] in row [i]. *)
Definition at_ (df : DataFrame) (c : string) (i : nat) : option cell :=
  match column c df with
  | Some col => nth_error col i
  | None => None
  end.

(** [pd.DataFrame()]. *)
Definition empty_frame : DataFrame := mk_frame [] 0 None.

(** Labels of a frame built from dicts: every key, in the order of its
    first appearance. *)
Definition union_keys (rows : list pydict) : list string :=
  fold_left
    (fun seen row =>
       fold_left
         (fun seen' kv =>
            if existsb (String.eqb (fst kv)) seen' then seen'
            else (seen' ++ [fst kv])%list)
         row seen)
    rows [].

(** [pd.isna] on a Python object. *)
Definition is_missing (v : pyval) : bool :=
  match v with
  | PNone => true
  | PFloat r => (r =? "nan")%string
  | _ => false
  end.

Definition isna (c : cell) : bool :=
  match c with
  | CVal v => is_missing v
  | CNaT => true
  | CTimestamp _ => false
  end.

Section WithLib.
Context {lib : PandasLib}.

(** [pd.DataFrame(rows)] for a list of dicts: one column for each key, a
    key a row lacks gives [nan], and each column holds its values as the
    dtype inferred for it does. *)
Definition frame_of_dicts (rows : list pydict) : DataFrame :=
  mk_frame
    (map (fun c =>
            (c, infer_column
                  (map (fun row =>
                          match Py.lookup c row with
                          | Some v => CVal v
                          | None => CVal NaN
                          end) rows)))
         (union_keys rows))
    (List.length rows)
    None.

(** [str(v)]. *)
Definition py_str (v : pyval) : string :=
  match v with
  | PNone => "None"
  | PBool true => "True"
  | PBool false => "False"
  | PInt z => Text.of_Z z
  | PFloat r => r
  | PStr s => s
  | PList _ | PDict _ => py_repr v
  end.

Definition cell_str (c : cell) : string :=
  match c with
  | CVal v => py_str v
  | CNaT => "NaT"
  | CTimestamp d => Datetime.isoformat_sep " " d
  end.

(** [series.astype('str')]: [str] of every element. In pandas 1.x and
    2.x that is so for a missing element too, which becomes the text
    [None], [nan] or [NaT]; in pandas 3 a missing element stays
    missing. *)
Definition astype_str_cell (c : cell) : cell :=
  if astype_str_keeps_missing && isna c then CVal NaN
  else CVal (PStr (cell_str c)).

Definition astype_str (col : list cell) : list cell :=
  map astype_str_cell col.

(** The number a cell stands for, when it stands for one: a missing
    value and an empty container give [nan], a text is parsed. *)
Definition numeric_value (c : cell) : option cell :=
  match c with
  | CNaT => Some (CVal NaN)
  | CTimestamp _ => None
  | CVal v =>
      if is_missing v then Some (CVal NaN)
      else
        match v with
        | PBool _ | PInt _ | PFloat _ => Some c
        | PStr s =>
            match parse_numeric s with
            | Some n => Some (CVal n)
            | None => None
            end
        | PList [] | PDict [] => Some (CVal NaN)
        | _ => None
        end
  end.

Fixpoint to_numeric_cells (errors : errors_mode) (col : list cell)
  : result (list cell) :=
  match col with
  | [] => Ok []
  | c :: rest =>
      (x <- match numeric_value c, errors with
            | Some n, _ => Ok n
            | None, ErrorsCoerce => Ok (CVal NaN)
            | None, ErrorsRaise =>
                match c with
                | CVal (PStr s) =>
                    raise_new (Builtin "ValueError")
                      ("Unable to parse string " ++ dq ++ s ++ dq)
                | _ => raise_new (Builtin "TypeError") "Invalid object type"
                end
            end ;;
       xs <- to_numeric_cells errors rest ;;
       Ok (x :: xs))%result
  end.

(** [pd.to_numeric(series, errors=...)], as pandas 1.x and 2.x have it:
    each element is read on its own, and the result holds the numbers
    in one dtype. *)
Definition to_numeric (errors : errors_mode) (col : list cell)
  : result (list cell) :=
  (cells <- to_numeric_cells errors col ;;
   Ok (numeric_column cells))%result.

(** The instant a cell of [column] stands for, when it stands for
    one. *)
Definition datetime_value (column : list cell) (c : cell) : option cell :=
  match c with
  | CNaT => Some CNaT
  | CTimestamp _ => Some c
  | CVal v =>
      if is_missing v then Some CNaT
      else
        match parse_datetime column v with
        | Some d => Some (CTimestamp d)
        | None => None
        end
  end.

Fixpoint to_datetime_cells (errors : errors_mode) (column col : list cell)
  : result (list cell) :=
  match col with
  | [] => Ok []
  | c :: rest =>
      (x <- match datetime_value column c, errors with
            | Some t, _ => Ok t
            | None, ErrorsCoerce => Ok CNaT
            | None, ErrorsRaise =>
                match c with
                | CVal (PStr s) =>
                    raise_new (Builtin "ValueError")
                      ("Unknown datetime string format, unable to parse: " ++ s)
                | _ =>
                    raise_new (Builtin "TypeError")
                      "value is not convertible to datetime"
                end
            end ;;
       xs <- to_datetime_cells errors column rest ;;
       Ok (x :: xs))%result
  end.

(** [pd.to_datetime(series, errors=...)], as pandas 1.x and 2.x have it:
    with [errors='coerce'] an element that is not read becomes [NaT].
    (pandas 3 raises [ValueError] for a column of texts with different
    UTC offsets whatever [errors] is; that is outside this
    definition.) *)
Definition to_datetime (errors : errors_mode) (col : list cell)
  : result (list cell) :=
  to_datetime_cells errors col col.

(** The dict that [v] is, and the dicts that the items of a list are, when
    every one of them is a dict. *)
Definition as_dict (v : pyval) : option pydict :=
  match v with
  | PDict d => Some d
  | _ => None
  end.

Fixpoint as_dicts (items : list pyval) : option (list pydict) :=
  match items with
  | [] => Some []
  | v :: rest =>
      match as_dict v, as_dicts rest with
      | Some d, Some ds => Some (d :: ds)
      | _, _ => None
      end
  end.

(** [pd.DataFrame(records)]. *)
Definition DataFrame_of (records : pyval) : result DataFrame :=
  match records with
  | PList items =>
      match as_dicts items with
      | Some rows => Ok (frame_of_dicts rows)
      | None => of_lib (frame_of_irregular records)
      end
  | _ => of_lib (frame_of_irregular records)
  end.

(** [df.rename(mapping, axis=1)]. *)
Definition rename (mapping : list (string * string)) (df : DataFrame)
  : DataFrame :=
  mk_frame
    (map (fun col =>
            (match Py.lookup (fst col) mapping with
             | Some new => new
             | None => fst col
             end, snd col))
         (data df))
    (nrows df) (index df).

(** [df.set_index(c)] for a label [c] of the frame. *)
Definition set_index (c : string) (df : DataFrame) : DataFrame :=
  match column c df with
  | Some col =>
      mk_frame
        (filter (fun kv => negb (fst kv =? c)%string) (data df))
        (nrows df) (Some (c, col))
  | None => df
  end.

End WithLib.

End Pd.

(** The two conversions that [records_to_dataframe_raw] calls, as
    functions of the [errors] argument and of the column: what the names
    [pd.to_numeric] and [pd.to_datetime] are bound to when the loop
    runs. *)
Record conversions : Type := mk_conversions {
  pd_to_numeric : errors_mode -> list cell -> result (list cell);
  pd_to_datetime : errors_mode -> list cell -> result (list cell)
}.

(** ** Response normaliser *)

Section Normaliser.
Context {lib : PandasLib}.

(** [{v['id']: v['type'] for v in fields}], as the list of its
    insertions: the key, then the value, then the store, which needs a
    hashable key. *)
Fixpoint field_entries (items : list pyval) : result (list (pyval * pyval)) :=
  match items with
  | [] => Ok []
  | v :: rest =>
      (id <- Py.getitem v "id" ;;
       ty <- Py.getitem v "type" ;;
       _ <- (if Py.hashable id then Ok tt
             else raise_new (Builtin "TypeError")
                    ("unhashable type: '" ++ Py.type_name id ++ "'")) ;;
       more <- field_entries rest ;;
       Ok ((id, ty) :: more))%result
  end.

(** [field_dict.get(c, 'text')] for a column label [c]: the last
    insertion under the key [c] wins; a key that is not a string is
    never equal to a label. *)
Definition field_type (field_dict : list (pyval * pyval)) (c : string) : pyval :=
  fold_left
    (fun found entry =>
       match fst entry with
       | PStr k => if (k =? c)%string then snd entry else found
       | _ => found
       end)
    field_dict (PStr "text").

(** The body of the loop over [df.columns], on the values of one
    column, for the conversions [pd] the names [pd.to_numeric] and
    [pd.to_datetime] stand for. The code passes [errors='coerce'] to both
    and has no handler around either. *)
Definition coerce_series_with (pd : conversions)
    (vtype : pyval) (col : list cell) : result (list cell) :=
  match vtype with
  | PStr t =>
      if (t =? "text")%string then Ok (Pd.astype_str col)
      else if (t =? "numeric")%string then pd_to_numeric pd ErrorsCoerce col
      else if (t =? "timestamp")%string then pd_to_datetime pd ErrorsCoerce col
      else Ok col
  | _ => Ok col
  end.

(** [for c in df.columns: df[c] = ...]: the labels of a frame are
    distinct, so each assignment replaces the column it read. *)
Fixpoint coerce_columns_with (pd : conversions)
    (field_dict : list (pyval * pyval))
    (cols : list (string * list cell)) : result (list (string * list cell)) :=
  match cols with
  | [] => Ok []
  | (c, col) :: rest =>
      (col' <- coerce_series_with pd (field_type field_dict c) col ;;
       rest' <- coerce_columns_with pd field_dict rest ;;
       Ok ((c, col') :: rest'))%result
  end.

(** [{k: v.get(k) for k in columns}]. *)
Fixpoint select_keys (columns : list string) (v : pyval) (acc : pydict)
  : result pydict :=
  match columns with
  | [] => Ok acc
  | k :: rest =>
      (x <- Py.get v k PNone ;;
       select_keys rest v (Py.store k x acc))%result
  end.

Fixpoint select_rows (columns : list string) (items : list pyval)
  : result (list pydict) :=
  match items with
  | [] => Ok []
  | v :: rest =>
      (row <- select_keys columns v [] ;;
       rows <- select_rows columns rest ;;
       Ok (row :: rows))%result
  end.

(** The frame before coercion. *)
Definition raw_frame (records : pyval) (columns : option (list string))
  : result DataFrame :=
  match columns with
  | Some cols =>
      (items <- Py.iter records ;;
       rows <- select_rows cols items ;;
       Ok (Pd.frame_of_dicts rows))%result
  | None => Pd.DataFrame_of records
  end.

(** [field_dict]. *)
Definition field_dict_of (fields : pyval) : result (list (pyval * pyval)) :=
  (items <- Py.iter fields ;;
   field_entries items)%result.

(** [records_to_dataframe_raw], for the conversions [pd]. *)
Definition records_to_dataframe_raw_with (pd : conversions)
    (fields records : pyval) (columns : option (list string))
  : result DataFrame :=
  (field_dict <- field_dict_of fields ;;
   df <- raw_frame records columns ;;
   cols <- coerce_columns_with pd field_dict (data df) ;;
   Ok (mk_frame cols (nrows df) (index df)))%result.

(** The conversions of pandas 1.x and 2.x, the versions the package
    metadata starts from ([pandas>=1.0.0]). *)
Definition pandas : conversions :=
  mk_conversions Pd.to_numeric Pd.to_datetime.

Definition records_to_dataframe_raw
    (fields records : pyval) (columns : option (list string))
  : result DataFrame :=
  records_to_dataframe_raw_with pandas fields records columns.

(** [dict(zip(column_dict.values(), column_dict.keys()))]. *)
Definition inv_dict (column_dict : list (string * string))
  : list (string * string) :=
  fold_left (fun d kv => Py.store (snd kv) (fst kv) d) column_dict [].

(** [column_dict.values()], as the keys of the dict comprehension. *)
Definition dict_values (column_dict : list (string * string)) : list string :=
  map snd column_dict.

Definition records_to_dataframe
    (column_dict : list (string * string)) (fields records : pyval)
  : result DataFrame :=
  (df <- records_to_dataframe_raw fields records
           (Some (dict_values column_dict)) ;;
   Ok (Pd.rename (inv_dict column_dict) df))%result.

End Normaliser.

(** The loop with the conversions of pandas 1.x and 2.x. *)
#[warnings="-notation-for-abbreviation"]
Notation coerce_series := (coerce_series_with pandas).
#[warnings="-notation-for-abbreviation"]
Notation coerce_columns := (coerce_columns_with pandas).

(** ** Public operations *)

Section Operations.
Context {lib : PandasLib}.

(** The two [except] clauses that close the [try] of a public
    operation: the three library classes are re-raised as they are,
    anything else becomes an [APIError] raised [from] it. *)
Definition public_except {A} (prefix : string) (e : exn) : IO A :=
  if is_lvmeteo_error e then Io.raise e
  else Io.raise (Exn APIError (prefix ++ exn_str e) (Some e)).

(** Lines 282 to 287 of [get_lv_meteo_data]. *)
Definition reshape (df : DataFrame) : result DataFrame :=
  if Pd.has_column "date" df && negb (Pd.empty df) then
    of_lib (unstack_by_station_param df)
  else Ok df.

(** Lines 264 to 289: from the decoded envelope to the returned frame. *)
Definition meteo_frame_of_envelope (envelope : pyval) : result DataFrame :=
  (success <- Py.get envelope "success" (PBool false) ;;
   if negb (Py.truthy success) then
     (err <- Py.get envelope "error" (PStr "Unknown error") ;;
      raise_new APIError
        ("API returned unsuccessful response: " ++ Pd.py_str err))
   else
     (res <- Py.get envelope "result" PNone ;;
      if negb (Py.truthy res) then
        raise_new DataNotFoundError "No result data returned from API"
      else
        (records <- Py.get res "records" (PList []) ;;
         if negb (Py.truthy records) then Ok Pd.empty_frame
         else
           (_ <- Py.len records ;;
            fields <- Py.getitem res "fields" ;;
            df <- records_to_dataframe DATA_COLUMNS fields records ;;
            reshape df))))%result.

Definition get_lv_meteo_data
    (table : string) (stations parameters : str_or_list)
    (startdate enddate : date_arg)
    (use_curl : bool) (curl_exe_path : string) : IO DataFrame :=
  Io.try_except
    (sql <- Io.lift (create_lv_meteo_data_sql
                       table stations parameters startdate enddate) ;;
     envelope <- get_response_from_lv_data sql use_curl curl_exe_path ;;
     Io.lift (meteo_frame_of_envelope envelope))%io
    (public_except "Unexpected error processing meteorological data: ").

(** Lines 375 to 402 of [get_fromsql]. *)
Definition sql_frame_of_envelope
    (fieldmap : option (list (string * string))) (index_col : option string)
    (envelope : pyval) : result DataFrame :=
  (success <- Py.get envelope "success" (PBool false) ;;
   if negb (Py.truthy success) then
     (err <- Py.get envelope "error" (PStr "Unknown error") ;;
      raise_new APIError ("SQL query failed: " ++ Pd.py_str err))
   else
     (res <- Py.get envelope "result" PNone ;;
      if negb (Py.truthy res) then
        raise_new DataNotFoundError "No result data returned from SQL query"
      else
        (records <- Py.get res "records" (PList []) ;;
         if negb (Py.truthy records) then Ok Pd.empty_frame
         else
           (_ <- Py.len records ;;
            fields <- Py.getitem res "fields" ;;
            df <- match fieldmap with
                  | Some fm => records_to_dataframe fm fields records
                  | None => records_to_dataframe_raw fields records None
                  end ;;
            match index_col with
            | Some ic =>
                if negb (Pd.empty df) && Pd.has_column ic df
                then Ok (Pd.set_index ic df)
                else Ok df
            | None => Ok df
            end))))%result.

Definition get_fromsql
    (sql : string) (fieldmap : option (list (string * string)))
    (index_col : option string)
    (use_curl : bool) (curlExePath : string) : IO DataFrame :=
  Io.try_except
    (envelope <- get_response_from_lv_data sql use_curl curlExePath ;;
     Io.lift (sql_frame_of_envelope fieldmap index_col envelope))%io
    (public_except "Unexpected error executing SQL query: ").

(** The f-string of [get_table]: the table between double quotes after
    [SELECT * from], and a trailing space. *)
Definition table_sql (table : string) : string :=
  "SELECT * from " ++ dq ++ table ++ dq ++ " ".

Definition get_table
    (table : string) (fieldmap : list (string * string))
    (index_col : option string)
    (use_curl : bool) (curlExePath : string) : IO DataFrame :=
  get_fromsql (table_sql table) (Some fieldmap) index_col use_curl curlExePath.

Definition get_lv_meteo_stations (use_curl : bool) (curlExePath : string)
  : IO DataFrame :=
  get_table RESOURCE_URLS.meteo_stations STATION_COLUMNS (Some "station_id")
    use_curl curlExePath.

Definition get_lv_hidro_stations (use_curl : bool) (curlExePath : string)
  : IO DataFrame :=
  get_table RESOURCE_URLS.hydro_stations STATION_COLUMNS (Some "station_id")
    use_curl curlExePath.

Definition get_lv_meteo_params (use_curl : bool) (curlExePath : string)
  : IO DataFrame :=
  get_table RESOURCE_URLS.meteo_params PARAM_COLUMNS (Some "param_id")
    use_curl curlExePath.

Definition get_lv_hidro_params (use_curl : bool) (curlExePath : string)
  : IO DataFrame :=
  get_table RESOURCE_URLS.hydro_params PARAM_COLUMNS (Some "param_id")
    use_curl curlExePath.

End Operations.

(** ** An instance for evaluation *)

(** Two small instances of [PandasLib] on which the model runs, one for
    pandas 1.x and 2.x and one for pandas 3: numbers are read from
    unsigned decimal numerals only, no text is read as a date-time, a
    container prints as an ellipsis, and the two frame operations refuse
    their argument. *)
Module Sample.

Definition read_decimal (s : string) : option pyval :=
  match NilEmpty.uint_of_string s with
  | Some u => if Text.is_empty s then None else Some (PInt (Z.of_uint u))
  | None => None
  end.

(** Dtype inference of pandas 1.x and 2.x on a column of small
    integers, floats and missing values: with a number in it that is
    not an integer, or with a number and a missing value, the column is
    [float64]; any other column holds its values as given. *)
Definition is_number (c : cell) : bool :=
  match c with
  | CVal (PInt _) | CVal (PFloat _) => true
  | _ => false
  end.

Definition is_int (c : cell) : bool :=
  match c with
  | CVal (PInt _) => true
  | _ => false
  end.

Definition is_none (c : cell) : bool :=
  match c with
  | CVal PNone => true
  | _ => false
  end.

Definition as_float (c : cell) : cell :=
  match c with
  | CVal (PInt z) => CVal (PFloat (Text.of_Z z ++ ".0"))
  | CVal (PBool true) => CVal (PFloat "1.0")
  | CVal (PBool false) => CVal (PFloat "0.0")
  | CVal PNone => CVal NaN
  | _ => c
  end.

Definition infer_numbers (col : list cell) : list cell :=
  if forallb (fun c => is_number c || is_none c) col
     && existsb is_number col && negb (forallb is_int col)
  then map as_float col
  else col.

(** Dtype inference of pandas 3: as before, and a column of texts and
    missing values is a [str] column, whose missing value is [nan]. *)
Definition is_text (c : cell) : bool :=
  match c with
  | CVal (PStr _) => true
  | _ => false
  end.

Definition infer_texts (col : list cell) : list cell :=
  if forallb (fun c => is_text c || Pd.isna c) col && existsb is_text col
  then map (fun c => if Pd.isna c then CVal NaN else c) col
  else col.

(** The dtype of the result of [pd.to_numeric]: booleans stay as they
    are when there is nothing else, integers and booleans give
    integers, anything else floats. *)
Definition is_bool (c : cell) : bool :=
  match c with
  | CVal (PBool _) => true
  | _ => false
  end.

Definition as_int (c : cell) : cell :=
  match c with
  | CVal (PBool true) => CVal (PInt 1)
  | CVal (PBool false) => CVal (PInt 0)
  | _ => c
  end.

Definition numbers_in_one_dtype (col : list cell) : list cell :=
  if forallb is_bool col then col
  else if forallb (fun c => is_int c || is_bool c) col then map as_int col
  else map as_float col.

Definition infer_numbers_length (col : list cell)
  : List.length (infer_numbers col) = List.length col :=
  match forallb (fun c => is_number c || is_none c) col
        && existsb is_number col && negb (forallb is_int col) as b
  return List.length (if b then map as_float col else col) = List.length col
  with
  | true => length_map as_float col
  | false => eq_refl
  end.

Definition infer_texts_length (col : list cell)
  : List.length (infer_texts col) = List.length col :=
  match forallb (fun c => is_text c || Pd.isna c) col && existsb is_text col
        as b
  return List.length
           (if b then map (fun c => if Pd.isna c then CVal NaN else c) col
            else col) = List.length col
  with
  | true => length_map _ col
  | false => eq_refl
  end.

Definition numbers_in_one_dtype_length (col : list cell)
  : List.length (numbers_in_one_dtype col) = List.length col :=
  match forallb is_bool col as b
  return List.length
           (if b then col
            else if forallb (fun c => is_int c || is_bool c) col
                 then map as_int col else map as_float col)
         = List.length col
  with
  | true => eq_refl
  | false =>
      match forallb (fun c => is_int c || is_bool c) col as b'
      return List.length (if b' then map as_int col else map as_float col)
             = List.length col
      with
      | true => length_map as_int col
      | false => length_map as_float col
      end
  end.

(** pandas 1.x and 2.x. *)
#[export] Instance lib : PandasLib := {|
  py_repr := fun _ => "...";
  parse_numeric := read_decimal;
  parse_datetime := fun _ _ => None;
  infer_column := infer_numbers;
  infer_column_length := infer_numbers_length;
  numeric_column := numbers_in_one_dtype;
  numeric_column_length := numbers_in_one_dtype_length;
  astype_str_keeps_missing := false;
  frame_of_irregular := fun _ =>
    LibRaise "ValueError" "DataFrame constructor not properly called!";
  unstack_by_station_param := fun _ =>
    LibRaise "NotImplementedError" "reshaping is outside this instance"
|}.

(** pandas 3. *)
Definition lib3 : PandasLib := {|
  py_repr := fun _ => "...";
  parse_numeric := read_decimal;
  parse_datetime := fun _ _ => None;
  infer_column := fun col => infer_texts (infer_numbers col);
  infer_column_length := fun col =>
    eq_trans (infer_texts_length (infer_numbers col))
             (infer_numbers_length col);
  numeric_column := numbers_in_one_dtype;
  numeric_column_length := numbers_in_one_dtype_length;
  astype_str_keeps_missing := true;
  frame_of_irregular := fun _ =>
    LibRaise "ValueError" "DataFrame constructor not properly called!";
  unstack_by_station_param := fun _ =>
    LibRaise "NotImplementedError" "reshaping is outside this instance"
|}.

Definition d1 : datetime := mk_datetime 2024 1 1 0 0 0 0 None.
Definition d2 : datetime := mk_datetime 2024 1 2 0 0 0 0 None.

(** A world in which every request is answered with [envelope]. *)
Definition answering (envelope : pyval) : world :=
  mk_world (fun _ _ _ => HttpResponse 200 "" (Ok envelope))
           (fun _ _ => CurlOutput "" (Ok envelope)).

(** [{"success": true, "result": {"fields": [], "records": []}}]. *)
Definition envelope_without_records : pyval :=
  PDict [("success", PBool true);
         ("result", PDict [("fields", PList []); ("records", PList [])])].

(** [{"success": true}]. *)
Definition envelope_without_result : pyval :=
  PDict [("success", PBool true)].

(** The SQL string of scenario 1. *)
Definition scenario_sql : string :=
  base_sql "T1" "'A'" "'P1'" "2024-01-01T00:00:00" "2024-01-02T00:00:00".

(** [[{"id": "NAME", "type": "text"}]] and [[{"NAME": null}]]. *)
Definition name_fields : pyval :=
  PList [PDict [("id", PStr "NAME"); ("type", PStr "text")]].
Definition null_name_records : pyval :=
  PList [PDict [("NAME", PNone)]].

(** [[{"NAME": 5}, {"NAME": null}]]. *)
Definition number_and_null_records : pyval :=
  PList [PDict [("NAME", PInt 5)]; PDict [("NAME", PNone)]].

(** [[{"id": "N", "type": "int4"}]] and [[{"N": 5, "M": 6}]]. *)
Definition int4_fields : pyval :=
  PList [PDict [("id", PStr "N"); ("type", PStr "int4")]].
Definition int_records : pyval :=
  PList [PDict [("N", PInt 5); ("M", PInt 6)]].

(** [[{"id": "VALUE", "type": "numeric"}, {"id": "DATETIME", "type":
    "timestamp"}]] and [[{"VALUE": "n/a", "DATETIME": "soon"}]]. *)
Definition typed_fields : pyval :=
  PList [PDict [("id", PStr "VALUE"); ("type", PStr "numeric")];
         PDict [("id", PStr "DATETIME"); ("type", PStr "timestamp")]].
Definition unparseable_records : pyval :=
  PList [PDict [("VALUE", PStr "n/a"); ("DATETIME", PStr "soon")]].

End Sample.

(** ** Definitions used by the statements *)

(** The inputs the builder refuses: any one of these conditions, whatever
    the other arguments are.  An argument that is empty is one whose
    truth value is false (an empty list, and also an empty string). *)
Inductive invalid_input
  : string -> str_or_list -> str_or_list -> date_arg -> date_arg -> Prop :=
| empty_table s p a b :
    invalid_input "" s p a b
| empty_stations t s p a b :
    arg_truthy s = false -> invalid_input t s p a b
| empty_parameters t s p a b :
    arg_truthy p = false -> invalid_input t s p a b
| start_not_datetime t s p v b :
    invalid_input t s p (ANotDatetime v) b
| end_not_datetime t s p a v :
    invalid_input t s p a (ANotDatetime v)
| start_not_before_end t s p sd ed :
    Datetime.ge sd ed = Some true ->
    invalid_input t s p (ADatetime sd) (ADatetime ed).

(** The inputs the builder accepts. *)
Definition valid_input (table : string) (stations parameters : str_or_list)
    (sd ed : datetime) : Prop :=
  table <> "" /\ arg_truthy stations = true /\ arg_truthy parameters = true
  /\ Datetime.lt sd ed = Some true.

(** The shape as the specification writes it, keywords in capitals. *)
Definition spec_sql_shape
    (table entity_list code_list start_iso end_iso : string) : string :=
  "SELECT * FROM " ++ dq ++ table ++ dq
  ++ " WHERE " ++ dq ++ "STATION_ID" ++ dq ++ " IN (" ++ entity_list ++ ")"
  ++ " AND " ++ dq ++ "ABBREVIATION" ++ dq ++ " IN (" ++ code_list ++ ")"
  ++ " AND " ++ dq ++ "DATETIME" ++ dq
  ++ " BETWEEN '" ++ start_iso ++ "' AND '" ++ end_iso ++ "'".

(** Letter case folded to capitals, character by character. *)
Definition upper_char (c : ascii) : ascii :=
  let n := nat_of_ascii c in
  if ((97 <=? n) && (n <=? 122))%nat then ascii_of_nat (n - 32) else c.

Fixpoint upper (s : string) : string :=
  match s with
  | EmptyString => EmptyString
  | String c rest => String (upper_char c) (upper rest)
  end.

(** [r] raises no [ValidationError]. *)
Definition no_validation {A} (r : result A) : Prop :=
  forall e, r = Raise e -> exn_cls e <> ValidationError.

(** The request [get_response_from_lv_data] sends for a SQL string. *)
Definition request_for (sql : string) (use_curl : bool) (curlExePath : string)
  : request :=
  if use_curl then
    CurlExec [curlExePath; "-G"; "--data-urlencode"; "sql=" ++ sql; API_BASE_URL]
      400
  else HttpGet API_BASE_URL sql DEFAULT_TIMEOUT.

(** [success] is [true]. *)
Definition envelope_success (envelope : pyval) : bool :=
  match envelope with
  | PDict d =>
      match Py.lookup "success" d with
      | Some (PBool true) => true
      | _ => false
      end
  | _ => false
  end.

(** The [result] member, [None] when the key is absent. *)
Definition envelope_result (envelope : pyval) : option pyval :=
  match envelope with
  | PDict d => Py.lookup "result" d
  | _ => None
  end.

(** A result object whose [records] member is the empty list. *)
Definition has_empty_records (res : pyval) : bool :=
  match res with
  | PDict r =>
      match Py.lookup "records" r with
      | Some (PList []) => true
      | _ => false
      end
  | _ => false
  end.

(** A field entry that the dict comprehension accepts: a dict with a
    hashable [id] and a [type]. *)
Definition field_ok (v : pyval) : bool :=
  match v with
  | PDict d =>
      match Py.lookup "id" d, Py.lookup "type" d with
      | Some id, Some _ => Py.hashable id
      | _, _ => false
      end
  | _ => false
  end.

(** [fields] as annotated and as the endpoint sends it: a list of such
    entries. *)
Definition fields_well_formed (fields : pyval) : bool :=
  match fields with
  | PList items => forallb field_ok items
  | _ => false
  end.


Definition is_dict (v : pyval) : bool :=
  match v with
  | PDict _ => true
  | _ => false
  end.

(** [records] as annotated: a list of dicts. *)
Definition is_list_of_dicts (records : pyval) : bool :=
  match records with
  | PList items => forallb is_dict items
  | _ => false
  end.

Section CoercedCells.
Context {lib : PandasLib}.

(** What [errors='coerce'] puts in a numeric column. *)
Definition numeric_or_nan (c : cell) : cell :=
  match Pd.numeric_value c with
  | Some n => n
  | None => CVal NaN
  end.

(** What [errors='coerce'] puts in a timestamp column. *)
Definition datetime_or_nat (column : list cell) (c : cell) : cell :=
  match Pd.datetime_value column c with
  | Some t => t
  | None => CNaT
  end.

End CoercedCells.

(** A row selected by the values of [DATA_COLUMNS]. *)
Definition data_row (row : pydict) : Prop :=
  exists a b c d,
    row = [("STATION_ID", a); ("ABBREVIATION", b); ("DATETIME", c); ("VALUE", d)].

(** The [fields] and the [records] of an envelope that the operations
    normalise: [success] is [true] and [result] is an object with a
    [fields] member and a non-empty list under [records]. *)
Definition records_of_envelope (envelope : pyval) : option (pyval * pyval) :=
  if envelope_success envelope then
    match envelope_result envelope with
    | Some (PDict r) =>
        match Py.lookup "fields" r, Py.lookup "records" r with
        | Some fields, Some (PList (x :: l)) => Some (fields, PList (x :: l))
        | _, _ => None
        end
    | _ => None
    end
  else None.

(** The text that an [except] clause of the transport puts before
    [str(e)]. *)
Definition transport_prefix (c : exn_class) : string :=
  match c with
  | TimeoutExpired => "Request timed out: "
  | CalledProcessError => "Curl command failed: "
  | _ => "Unexpected error during API request: "
  end.

(** The arguments [subprocess.check_output] receives. *)
Definition curl_argv (sql curlExePath : string) : list string :=
  [curlExePath; "-G"; "--data-urlencode"; "sql=" ++ sql; API_BASE_URL].

(** A column map turned round, pair by pair. *)
Definition swap_pairs (column_dict : list (string * string))
  : list (string * string) :=
  map (fun kv => (snd kv, fst kv)) column_dict.

(** What [v.get(k)] gives on a record. *)
Definition get_or_None (d : pydict) (k : string) : pyval :=
  match Py.lookup k d with
  | Some v => v
  | None => PNone
  end.

(** An exception raised inside the [try] block of
    [get_response_from_lv_data]: by the process or by [json.loads] on its
    output, by [requests.get] or by [response.json()], or the [APIError]
    of a status that is not a success one. *)
Inductive raised_in_transport (w : world) (sql path : string)
  : bool -> exn -> Prop :=
| process_raises e :
    curl_run w (curl_argv sql path) 400 = CurlRaises e ->
    raised_in_transport w sql path true e
| output_not_json out e :
    curl_run w (curl_argv sql path) 400 = CurlOutput out (Raise e) ->
    raised_in_transport w sql path true e
| request_raises e :
    http_get w API_BASE_URL sql DEFAULT_TIMEOUT = HttpRaises e ->
    raised_in_transport w sql path false e
| body_not_json status text e :
    http_get w API_BASE_URL sql DEFAULT_TIMEOUT
    = HttpResponse status text (Raise e) ->
    response_ok status = true ->
    raised_in_transport w sql path false e
| status_not_ok status text json :
    http_get w API_BASE_URL sql DEFAULT_TIMEOUT
    = HttpResponse status text json ->
    response_ok status = false ->
    raised_in_transport w sql path false
      (Exn APIError
         ("API request failed with status " ++ Text.of_Z status ++ ": " ++ text)
         None).

(** * Properties *)

(** ** Text *)

Lemma is_empty_true (s : string) : Text.is_empty s = true <-> s = "".
Proof. destruct s; simpl; split; congruence. Qed.

Lemma is_empty_false (s : string) : Text.is_empty s = false <-> s <> "".
Proof. destruct s; simpl; split; congruence. Qed.

(** ** Query builder *)

Lemma lt_true_ge_false (a b : datetime) :
  Datetime.lt a b = Some true <-> Datetime.ge a b = Some false.
Proof.
  unfold Datetime.lt, Datetime.ge.
  destruct (Datetime.cmp a b) as [[ | | ]|]; split; congruence.
Qed.

(** Two datetimes of one time zone compare by their fields, whatever
    their offsets. In the hour in which the clocks of Europe/Riga are set
    back, 03:10 after the change (offset +02:00) is before 03:40 from
    before the change (offset +03:00), though it is the later instant,
    and the builder accepts the pair. *)
Example same_zone_compares_by_fields :
  let startdate :=
    mk_datetime 2024 10 27 3 10 0 0 (Some (mk_tzinfo 1 7200000000)) in
  let enddate :=
    mk_datetime 2024 10 27 3 40 0 0 (Some (mk_tzinfo 1 10800000000)) in
  Datetime.lt startdate enddate = Some true
  /\ Datetime.wall_us enddate - 10800000000
     < Datetime.wall_us startdate - 7200000000
  /\ create_lv_meteo_data_sql "T1" (Seq ["A"]) (Seq ["P1"])
       (ADatetime startdate) (ADatetime enddate)
     = Ok (base_sql "T1" "'A'" "'P1'"
             "2024-10-27T03:10:00+02:00" "2024-10-27T03:40:00+03:00").
Proof. repeat split. Qed.

Lemma invalid_input_raises table stations parameters startdate enddate :
  invalid_input table stations parameters startdate enddate ->
  exists msg,
    create_lv_meteo_data_sql table stations parameters startdate enddate
    = Raise (Exn ValidationError msg None).
Proof.
  intros H. unfold create_lv_meteo_data_sql, raise_new.
  destruct (Text.is_empty table) eqn:Et; [eauto|].
  destruct (arg_truthy stations) eqn:Es; simpl; [|eauto].
  destruct (arg_truthy parameters) eqn:Ep; simpl; [|eauto].
  destruct startdate as [sd|v]; [|eauto].
  destruct enddate as [ed|v]; [|eauto].
  inversion H; subst; try discriminate; try congruence.
  match goal with Hge : Datetime.ge _ _ = _ |- _ => rewrite Hge end.
  eauto.
Qed.

Lemma valid_input_sql table stations parameters sd ed :
  valid_input table stations parameters sd ed ->
  create_lv_meteo_data_sql table stations parameters
    (ADatetime sd) (ADatetime ed)
  = Ok (base_sql table
          (quoted_list (normalize_arg stations))
          (quoted_list (normalize_arg parameters))
          (Datetime.isoformat sd) (Datetime.isoformat ed)).
Proof.
  intros (Ht & Hs & Hp & Hlt).
  unfold create_lv_meteo_data_sql.
  apply is_empty_false in Ht. rewrite Ht, Hs, Hp. simpl.
  apply lt_true_ge_false in Hlt. now rewrite Hlt.
Qed.

Lemma upper_append (a b : string) : upper (a ++ b) = upper a ++ upper b.
Proof. induction a as [|c a IH]; simpl; [reflexivity | now rewrite IH]. Qed.

(** The string the code builds and the shape of the specification are
    the same text once letter case is ignored. *)
Lemma base_sql_matches_spec_up_to_case (t sl pl s e : string) :
  upper (base_sql t sl pl s e) = upper (spec_sql_shape t sl pl s e).
Proof.
  unfold base_sql, spec_sql_shape. now rewrite !upper_append.
Qed.

Lemma quoted_list_singleton (x : string) : quoted_list [x] = "'" ++ x ++ "'".
Proof. reflexivity. Qed.

Lemma quoted_list_cons (x y : string) (rest : list string) :
  quoted_list (x :: y :: rest) = quote_item x ++ "," ++ quoted_list (y :: rest).
Proof. reflexivity. Qed.

(** A quote inside an element is written as it is. *)
Example quoted_list_does_not_escape :
  quoted_list ["O'Neil"; "B"] = "'O'Neil','B'".
Proof. reflexivity. Qed.

Ltac io_unfold :=
  unfold Io.run, Io.try_except, Io.bind, Io.lift, Io.raise, Io.ret,
    Io.requests_get, Io.check_output in *.

(** C1. Each invalid input of [create_lv_meteo_data_sql] (empty table,
    empty stations, empty parameters, a start or an end that is not a
    datetime, a start that is not before the end) raises
    [ValidationError], whatever the other arguments are: no SQL string is
    returned, and [get_lv_meteo_data] on the same arguments raises the
    same exception with no request sent. *)
Theorem invalid_input_rejected_before_network
    {lib : PandasLib} (table : string) (stations parameters : str_or_list)
    (startdate enddate : date_arg) :
  invalid_input table stations parameters startdate enddate ->
  exists msg,
    create_lv_meteo_data_sql table stations parameters startdate enddate
    = Raise (Exn ValidationError msg None)
    /\ forall (w : world) (use_curl : bool) (curl_exe_path : string),
         Io.run (get_lv_meteo_data table stations parameters startdate enddate
                   use_curl curl_exe_path) w
         = (Raise (Exn ValidationError msg None), []).
Proof.
  intros H. destruct (invalid_input_raises H) as [msg Hmsg].
  exists msg. split; [exact Hmsg|].
  intros w use_curl path. unfold get_lv_meteo_data. io_unfold.
  rewrite Hmsg. reflexivity.
Qed.

Lemma invalid_input_rejected_before_network_witness :
  exists msg,
    create_lv_meteo_data_sql "T1" (Seq ["A"]) (Seq ["P1"])
      (ADatetime Sample.d1) (ADatetime Sample.d1)
    = Raise (Exn ValidationError msg None)
    /\ forall (w : world) (use_curl : bool) (curl_exe_path : string),
         Io.run (get_lv_meteo_data (lib := Sample.lib)
                   "T1" (Seq ["A"]) (Seq ["P1"])
                   (ADatetime Sample.d1) (ADatetime Sample.d1)
                   use_curl curl_exe_path) w
         = (Raise (Exn ValidationError msg None), []).
Proof.
  apply (@invalid_input_rejected_before_network Sample.lib).
  apply start_not_before_end. reflexivity.
Defined.

(** C7. For every valid input (non-empty table, non-empty stations,
    non-empty parameters, datetime start before end)
    [create_lv_meteo_data_sql] returns one string: the text
    [SELECT * from "<table>" WHERE "STATION_ID" in (<entities>) and
    "ABBREVIATION" in (<codes>) and "DATETIME" BETWEEN '<start>' and
    '<end>'], which is the statement of the specification with the
    keywords [from], [in] and [and] written in lower case; start and end
    are in ISO 8601 form, and each list is its elements wrapped in single
    quotes, nothing escaped, separated by commas. *)
Theorem valid_input_gives_select_statement
    (table : string) (stations parameters : str_or_list) (sd ed : datetime) :
  valid_input table stations parameters sd ed ->
  let entity_list :=
    Text.join "," (map (fun x => "'" ++ x ++ "'") (normalize_arg stations)) in
  let code_list :=
    Text.join "," (map (fun x => "'" ++ x ++ "'") (normalize_arg parameters)) in
  exists sql,
    create_lv_meteo_data_sql table stations parameters
      (ADatetime sd) (ADatetime ed) = Ok sql
    /\ sql = "SELECT * from " ++ dq ++ table ++ dq
             ++ " WHERE " ++ dq ++ "STATION_ID" ++ dq
             ++ " in (" ++ entity_list ++ ")"
             ++ " and " ++ dq ++ "ABBREVIATION" ++ dq
             ++ " in (" ++ code_list ++ ")"
             ++ " and " ++ dq ++ "DATETIME" ++ dq
             ++ " BETWEEN '" ++ Datetime.isoformat sd
             ++ "' and '" ++ Datetime.isoformat ed ++ "'"
    /\ upper sql
       = upper (spec_sql_shape table entity_list code_list
                  (Datetime.isoformat sd) (Datetime.isoformat ed)).
Proof.
  intros H entity_list code_list.
  exists (base_sql table entity_list code_list
            (Datetime.isoformat sd) (Datetime.isoformat ed)).
  split; [| split].
  - rewrite (valid_input_sql H). reflexivity.
  - reflexivity.
  - apply base_sql_matches_spec_up_to_case.
Qed.

Lemma valid_input_gives_select_statement_witness :
  exists sql,
    create_lv_meteo_data_sql "T1" (Seq ["A"; "B"]) (Scalar "P1")
      (ADatetime Sample.d1) (ADatetime Sample.d2) = Ok sql
    /\ sql = "SELECT * from " ++ dq ++ "T1" ++ dq
             ++ " WHERE " ++ dq ++ "STATION_ID" ++ dq
             ++ " in ('A','B')"
             ++ " and " ++ dq ++ "ABBREVIATION" ++ dq
             ++ " in ('P1')"
             ++ " and " ++ dq ++ "DATETIME" ++ dq
             ++ " BETWEEN '2024-01-01T00:00:00' and '2024-01-02T00:00:00'"
    /\ upper sql
       = upper (spec_sql_shape "T1" "'A','B'" "'P1'"
                  "2024-01-01T00:00:00" "2024-01-02T00:00:00").
Proof.
  assert (Hv : valid_input "T1" (Seq ["A"; "B"]) (Scalar "P1")
                 Sample.d1 Sample.d2).
  { split; [discriminate | split; [reflexivity | split; reflexivity]]. }
  destruct (valid_input_gives_select_statement Hv) as (sql & Hsql & Htext & Hup).
  exists sql. split; [exact Hsql | split; [exact Htext | exact Hup]].
Defined.

(** C8, as the code has it. [create_lv_meteo_data_sql] is a function of
    its five arguments alone (equal inputs give equal results), and a
    scalar station or parameter that is not the empty string gives the
    very result of the one-element sequence holding it: the string is
    quoted whole, not character by character. *)
Theorem nonempty_scalar_same_as_singleton
    (table x : string) (other : str_or_list) (a b : date_arg) :
  x <> "" ->
  create_lv_meteo_data_sql table (Scalar x) other a b
  = create_lv_meteo_data_sql table (Seq [x]) other a b
  /\ create_lv_meteo_data_sql table other (Scalar x) a b
     = create_lv_meteo_data_sql table other (Seq [x]) a b
  /\ quoted_list (normalize_arg (Scalar x)) = "'" ++ x ++ "'"
  /\ forall table' s s' p p' a' b',
       (table, s, p, a, b) = (table', s', p', a', b') ->
       create_lv_meteo_data_sql table s p a b
       = create_lv_meteo_data_sql table' s' p' a' b'.
Proof.
  intros Hx. apply is_empty_false in Hx.
  repeat split.
  - unfold create_lv_meteo_data_sql. simpl. rewrite Hx. reflexivity.
  - unfold create_lv_meteo_data_sql. simpl. rewrite Hx. reflexivity.
  - intros table' s s' p p' a' b' E. injection E as -> -> -> -> ->. reflexivity.
Qed.

Lemma nonempty_scalar_same_as_singleton_witness :
  create_lv_meteo_data_sql "T1" (Scalar "RIGASLU") (Seq ["P1"])
    (ADatetime Sample.d1) (ADatetime Sample.d2)
  = create_lv_meteo_data_sql "T1" (Seq ["RIGASLU"]) (Seq ["P1"])
      (ADatetime Sample.d1) (ADatetime Sample.d2)
  /\ create_lv_meteo_data_sql "T1" (Seq ["P1"]) (Scalar "RIGASLU")
       (ADatetime Sample.d1) (ADatetime Sample.d2)
     = create_lv_meteo_data_sql "T1" (Seq ["P1"]) (Seq ["RIGASLU"])
         (ADatetime Sample.d1) (ADatetime Sample.d2)
  /\ quoted_list (normalize_arg (Scalar "RIGASLU")) = "'" ++ "RIGASLU" ++ "'"
  /\ forall table' s s' p p' a' b',
       ("T1", s, p, ADatetime Sample.d1, ADatetime Sample.d2)
       = (table', s', p', a', b') ->
       create_lv_meteo_data_sql "T1" s p
         (ADatetime Sample.d1) (ADatetime Sample.d2)
       = create_lv_meteo_data_sql table' s' p' a' b'.
Proof.
  apply (@nonempty_scalar_same_as_singleton "T1" "RIGASLU" (Seq ["P1"])).
  discriminate.
Defined.

(** C8, counterexample: the empty string passed as a scalar station is
    refused, while the one-element sequence holding it is a valid input
    and gives a SQL string. *)
Lemma empty_scalar_differs_from_singleton :
  valid_input "T1" (Seq [""]) (Seq ["P1"]) Sample.d1 Sample.d2
  /\ create_lv_meteo_data_sql "T1" (Scalar "") (Seq ["P1"])
       (ADatetime Sample.d1) (ADatetime Sample.d2)
     = Raise (Exn ValidationError "Stations list cannot be empty" None)
  /\ create_lv_meteo_data_sql "T1" (Scalar "") (Seq ["P1"])
       (ADatetime Sample.d1) (ADatetime Sample.d2)
     <> create_lv_meteo_data_sql "T1" (Seq [""]) (Seq ["P1"])
          (ADatetime Sample.d1) (ADatetime Sample.d2).
Proof.
  split; [|split].
  - split; [discriminate | repeat split].
  - reflexivity.
  - intros H. vm_compute in H. discriminate H.
Qed.

(** ** Which exceptions a stage can raise *)

Create HintDb raises.

Lemma no_validation_ok {A} (a : A) : no_validation (Ok a).
Proof. intros e H. discriminate H. Qed.

Lemma no_validation_raise_new {A} (c : exn_class) (m : string) :
  c <> ValidationError -> no_validation (@raise_new A c m).
Proof. intros Hc e H. injection H as <-. exact Hc. Qed.

Lemma no_validation_bind {A B} (r : result A) (k : A -> result B) :
  no_validation r -> (forall a, no_validation (k a)) ->
  no_validation (rbind r k).
Proof.
  intros Hr Hk e. destruct r as [a|e']; simpl.
  - exact (Hk a e).
  - intros H. injection H as <-. exact (Hr e' eq_refl).
Qed.

Lemma no_validation_of_lib {A} (r : lib_result A) : no_validation (of_lib r).
Proof.
  destruct r; simpl.
  - apply no_validation_ok.
  - apply no_validation_raise_new. discriminate.
Qed.

#[local] Hint Resolve no_validation_ok no_validation_of_lib : raises.
#[local] Hint Extern 1 (no_validation (raise_new _ _)) =>
  apply no_validation_raise_new; discriminate : raises.
#[local] Hint Extern 2 (no_validation (rbind _ _)) =>
  apply no_validation_bind; [|intros] : raises.
#[local] Hint Extern 3 (no_validation (if ?b then _ else _)) =>
  destruct b : raises.

Lemma no_validation_get v k d : no_validation (Py.get v k d).
Proof. destruct v; simpl; unfold Py.attribute_error; auto with raises. Qed.

Lemma no_validation_getitem v k : no_validation (Py.getitem v k).
Proof.
  destruct v; simpl; auto with raises.
  destruct (Py.lookup k entries); auto with raises.
Qed.

Lemma no_validation_iter v : no_validation (Py.iter v).
Proof. destruct v; simpl; auto with raises. Qed.

Lemma no_validation_len v : no_validation (Py.len v).
Proof. destruct v; simpl; auto with raises. Qed.

#[local] Hint Resolve no_validation_get no_validation_getitem
  no_validation_iter no_validation_len : raises.

Section RaisesOfNormaliser.
Context {lib : PandasLib}.

Lemma no_validation_to_numeric_cells errors col :
  no_validation (Pd.to_numeric_cells errors col).
Proof.
  induction col as [|c col IH]; simpl; auto with raises.
  apply no_validation_bind; [|intros; auto with raises].
  destruct (Pd.numeric_value c), errors; auto with raises.
  destruct c as [[ | | | | | | ]| |]; auto with raises.
Qed.

Lemma no_validation_to_numeric errors col :
  no_validation (Pd.to_numeric errors col).
Proof.
  unfold Pd.to_numeric.
  apply no_validation_bind;
    [apply no_validation_to_numeric_cells | intros; auto with raises].
Qed.

Lemma no_validation_to_datetime_cells errors column col :
  no_validation (Pd.to_datetime_cells errors column col).
Proof.
  induction col as [|c col IH]; simpl; auto with raises.
  apply no_validation_bind; [|intros; auto with raises].
  destruct (Pd.datetime_value column c), errors; auto with raises.
  destruct c as [[ | | | | | | ]| |]; auto with raises.
Qed.

Lemma no_validation_to_datetime errors col :
  no_validation (Pd.to_datetime errors col).
Proof. apply no_validation_to_datetime_cells. Qed.

Lemma no_validation_coerce_series vtype col :
  no_validation (coerce_series vtype col).
Proof.
  unfold coerce_series_with. cbn [pandas pd_to_numeric pd_to_datetime].
  destruct vtype; auto with raises.
  repeat match goal with |- context [if ?b then _ else _] => destruct b end;
    auto using no_validation_to_numeric, no_validation_to_datetime with raises.
Qed.

Lemma no_validation_coerce_columns fd cols :
  no_validation (coerce_columns fd cols).
Proof.
  induction cols as [|[c col] cols IH]; simpl;
    auto 6 using no_validation_coerce_series with raises.
Qed.

Lemma no_validation_field_entries items :
  no_validation (field_entries items).
Proof. induction items as [|v items IH]; simpl; auto 10 with raises. Qed.

Lemma no_validation_select_keys cols v acc :
  no_validation (select_keys cols v acc).
Proof.
  revert acc. induction cols as [|k cols IH]; intros acc; simpl;
    auto with raises.
Qed.

Lemma no_validation_select_rows cols items :
  no_validation (select_rows cols items).
Proof.
  induction items as [|v items IH]; simpl;
    auto 6 using no_validation_select_keys with raises.
Qed.

Lemma no_validation_raw_frame records columns :
  no_validation (raw_frame records columns).
Proof.
  unfold raw_frame, Pd.DataFrame_of. destruct columns as [cols|].
  - auto 6 using no_validation_select_rows with raises.
  - destruct records; auto with raises.
    destruct (Pd.as_dicts items); auto with raises.
Qed.

Lemma no_validation_records_to_dataframe_raw fields records columns :
  no_validation (records_to_dataframe_raw fields records columns).
Proof.
  unfold records_to_dataframe_raw, records_to_dataframe_raw_with, field_dict_of.
  auto 10 using no_validation_field_entries, no_validation_raw_frame,
    no_validation_coerce_columns with raises.
Qed.

Lemma no_validation_records_to_dataframe column_dict fields records :
  no_validation (records_to_dataframe column_dict fields records).
Proof.
  unfold records_to_dataframe.
  auto using no_validation_records_to_dataframe_raw with raises.
Qed.

Lemma no_validation_reshape df : no_validation (reshape df).
Proof. unfold reshape. auto with raises. Qed.

Lemma no_validation_sql_frame fieldmap index_col envelope :
  no_validation (sql_frame_of_envelope fieldmap index_col envelope).
Proof.
  unfold sql_frame_of_envelope.
  apply no_validation_bind; [auto with raises|]. intros success.
  destruct (negb (Py.truthy success)); [auto with raises|].
  apply no_validation_bind; [auto with raises|]. intros res.
  destruct (negb (Py.truthy res)); [auto with raises|].
  apply no_validation_bind; [auto with raises|]. intros records.
  destruct (negb (Py.truthy records)); [auto with raises|].
  apply no_validation_bind; [auto with raises|]. intros _.
  apply no_validation_bind; [auto with raises|]. intros fields.
  apply no_validation_bind.
  - destruct fieldmap;
      auto using no_validation_records_to_dataframe,
        no_validation_records_to_dataframe_raw.
  - intros df. destruct index_col; auto with raises.
Qed.

End RaisesOfNormaliser.

(** ** Transport *)

Lemma transport_except_wraps {A} (e : exn) (w : world) (tr : list request) :
  exists msg, @transport_except A e w tr = (Raise (Exn APIError msg (Some e)), tr).
Proof.
  unfold transport_except. destruct (exn_cls e); io_unfold; eauto.
Qed.

(** An empty SQL string is refused with no request sent. *)
Lemma transport_rejects_empty_sql (w : world) (use_curl : bool) (path : string) :
  Io.run (get_response_from_lv_data "" use_curl path) w
  = (Raise (Exn ValidationError "SQL query cannot be empty" None), []).
Proof. reflexivity. Qed.

(** A non-empty SQL string is sent, once; whatever goes wrong from then
    on leaves the transport as an [APIError] raised from its cause. *)
Lemma transport_sends_one_request
    (w : world) (sql : string) (use_curl : bool) (path : string) :
  sql <> "" ->
  exists r,
    Io.run (get_response_from_lv_data sql use_curl path) w
    = (r, [request_for sql use_curl path])
    /\ forall e, r = Raise e ->
         exists msg cause, e = Exn APIError msg (Some cause).
Proof.
  intros Hsql. apply is_empty_false in Hsql.
  unfold get_response_from_lv_data, request_for. rewrite Hsql.
  assert (Hwrapped : forall e tr,
             exists r, @transport_except pyval e w tr = (r, tr)
                       /\ forall e', r = Raise e' ->
                            exists msg cause, e' = Exn APIError msg (Some cause)).
  { intros e tr. destruct (transport_except_wraps (A := pyval) e w tr) as [msg ->].
    eexists; split; [reflexivity|]. intros e' H. injection H as <-. eauto. }
  destruct use_curl; io_unfold; cbn [app].
  - destruct (curl_run w _ _) as [out [v|e]|e]; [|apply Hwrapped..].
    eexists; split; [reflexivity|]. discriminate.
  - destruct (http_get w _ _ _) as [status text json|e]; [|apply Hwrapped].
    destruct (response_ok status); [|apply Hwrapped].
    destruct json as [v|e]; [|apply Hwrapped].
    eexists; split; [reflexivity|]. discriminate.
Qed.

(** ** Error policy of the public operations *)

Lemma public_except_passes {A} (prefix : string) (e : exn)
    (w : world) (tr : list request) :
  is_lvmeteo_error e = true ->
  @public_except A prefix e w tr = (Raise e, tr).
Proof. intros H. unfold public_except. now rewrite H. Qed.

Lemma public_except_wraps {A} (prefix : string) (e : exn)
    (w : world) (tr : list request) :
  is_lvmeteo_error e = false ->
  @public_except A prefix e w tr
  = (Raise (Exn APIError (prefix ++ exn_str e) (Some e)), tr).
Proof. intros H. unfold public_except. now rewrite H. Qed.

Lemma public_except_no_new_validation {A} (prefix : string) (e e' : exn)
    (w : world) (tr tr' : list request) :
  exn_cls e <> ValidationError ->
  @public_except A prefix e w tr = (Raise e', tr') ->
  exn_cls e' <> ValidationError.
Proof.
  intros He. unfold public_except. destruct (is_lvmeteo_error e); io_unfold;
    intros H; injection H as <- _; [exact He | discriminate].
Qed.

(** In the direct-call mode a status that is not a success one always
    leaves the transport wrapped: the [APIError] raised for it is the
    cause of the [APIError] the caller sees. *)
Lemma transport_wraps_its_own_status_error
    (w : world) (sql text : string) (status : Z) (json : result pyval)
    (path : string) :
  sql <> "" ->
  http_get w API_BASE_URL sql DEFAULT_TIMEOUT = HttpResponse status text json ->
  response_ok status = false ->
  Io.run (get_response_from_lv_data sql false path) w
  = (Raise (Exn APIError
              ("Unexpected error during API request: "
               ++ "API request failed with status " ++ Text.of_Z status
               ++ ": " ++ text)
              (Some (Exn APIError
                       ("API request failed with status " ++ Text.of_Z status
                        ++ ": " ++ text) None))),
     [HttpGet API_BASE_URL sql DEFAULT_TIMEOUT]).
Proof.
  intros Hsql Hreply Hok. apply is_empty_false in Hsql.
  unfold get_response_from_lv_data. rewrite Hsql. io_unfold. cbn [app].
  rewrite Hreply, Hok. reflexivity.
Qed.

(** C3, evaluated where the code departs from it. The endpoint answers
    the request with status 500 and the body [boom]: the [APIError] that
    [get_response_from_lv_data] raises for the status is caught by the
    [except Exception] clause of the same function and raised again
    inside a second [APIError], and this wrapped exception is the one
    that [get_fromsql] hands to its caller. *)
Theorem http_status_error_is_wrapped_again :
  let w := mk_world
             (fun _ _ _ => HttpResponse 500 "boom" (Ok PNone))
             (fun _ _ => CurlOutput "" (Ok PNone)) in
  let raised := Exn APIError "API request failed with status 500: boom" None in
  let seen :=
    Exn APIError
      "Unexpected error during API request: API request failed with status 500: boom"
      (Some raised) in
  Io.run (get_response_from_lv_data "SELECT 1" false "curl") w
  = (Raise seen, [HttpGet API_BASE_URL "SELECT 1" DEFAULT_TIMEOUT])
  /\ Io.run (get_fromsql (lib := Sample.lib) "SELECT 1" None None false "curl") w
     = (Raise seen, [HttpGet API_BASE_URL "SELECT 1" DEFAULT_TIMEOUT])
  /\ seen <> raised.
Proof.
  cbv zeta. split; [reflexivity|]. split; [reflexivity|]. discriminate.
Qed.

(** C10. For every table identifier, the empty one included, the SQL
    string of [get_table] is not empty, so the request is sent, once, and
    [get_table] raises no [ValidationError]. *)
Theorem get_table_always_reaches_network
    {lib : PandasLib} (w : world) (table : string)
    (fieldmap : list (string * string)) (index_col : option string)
    (use_curl : bool) (curlExePath : string) :
  table_sql table <> ""
  /\ table_sql "" = "SELECT * from " ++ dq ++ dq ++ " "
  /\ exists r,
       Io.run (get_table table fieldmap index_col use_curl curlExePath) w
       = (r, [request_for (table_sql table) use_curl curlExePath])
       /\ forall e, r = Raise e -> exn_cls e <> ValidationError.
Proof.
  assert (Hne : table_sql table <> "") by (unfold table_sql; discriminate).
  split; [exact Hne|]. split; [reflexivity|].
  destruct (transport_sends_one_request w use_curl curlExePath Hne)
    as (r & Hrun & Hr).
  unfold get_table, get_fromsql. io_unfold. rewrite Hrun.
  destruct r as [envelope|e].
  - destruct (sql_frame_of_envelope (Some fieldmap) index_col envelope)
      as [df|e] eqn:Hframe.
    + eexists; split; [reflexivity|]. discriminate.
    + pose proof (no_validation_sql_frame _ _ _ Hframe) as Hcls.
      destruct (public_except (A := DataFrame)
                  "Unexpected error executing SQL query: " e w
                  [request_for (table_sql table) use_curl curlExePath])
        as [r' tr'] eqn:Hpub.
      assert (tr' = [request_for (table_sql table) use_curl curlExePath]) as ->.
      { unfold public_except in Hpub. destruct (is_lvmeteo_error e);
          io_unfold; now injection Hpub as _ <-. }
      eexists; split; [reflexivity|].
      intros e' ->. exact (public_except_no_new_validation _ _ _ _ Hcls Hpub).
  - destruct (Hr e eq_refl) as (msg & cause & ->).
    rewrite public_except_passes by reflexivity.
    eexists; split; [reflexivity|]. intros e' H. injection H as <-. discriminate.
Qed.

(** ** Envelopes *)

Section Envelopes.
Context {lib : PandasLib}.

Lemma empty_records_truthy_result (res : pyval) :
  has_empty_records res = true ->
  Py.truthy res = true /\ Py.get res "records" (PList []) = Ok (PList []).
Proof.
  destruct res as [ | | | | | |r]; try discriminate. simpl.
  destruct r as [|kv r]; [discriminate|]. intros H. split; [reflexivity|].
  destruct (Py.lookup "records" (kv :: r)) as [[ | | | | |[|]| ]|];
    try discriminate. reflexivity.
Qed.

Lemma success_get (envelope : pyval) :
  envelope_success envelope = true ->
  Py.get envelope "success" (PBool false) = Ok (PBool true).
Proof.
  destruct envelope as [ | | | | | |d]; try discriminate. simpl.
  destruct (Py.lookup "success" d) as [[ |[|]| | | | | ]|]; try discriminate.
  reflexivity.
Qed.

Lemma result_get (envelope : pyval) :
  envelope_success envelope = true ->
  Py.get envelope "result" PNone
  = Ok (match envelope_result envelope with Some res => res | None => PNone end).
Proof. destruct envelope; try discriminate. reflexivity. Qed.

Lemma sql_frame_empty_records fieldmap index_col envelope res :
  envelope_success envelope = true ->
  envelope_result envelope = Some res ->
  has_empty_records res = true ->
  sql_frame_of_envelope fieldmap index_col envelope = Ok Pd.empty_frame.
Proof.
  intros Hs Hr He. unfold sql_frame_of_envelope.
  rewrite (success_get _ Hs). simpl.
  rewrite (result_get _ Hs), Hr. simpl.
  destruct (empty_records_truthy_result _ He) as [-> ->]. reflexivity.
Qed.

Lemma meteo_frame_empty_records envelope res :
  envelope_success envelope = true ->
  envelope_result envelope = Some res ->
  has_empty_records res = true ->
  meteo_frame_of_envelope envelope = Ok Pd.empty_frame.
Proof.
  intros Hs Hr He. unfold meteo_frame_of_envelope.
  rewrite (success_get _ Hs). simpl.
  rewrite (result_get _ Hs), Hr. simpl.
  destruct (empty_records_truthy_result _ He) as [-> ->]. reflexivity.
Qed.

Lemma sql_frame_absent_result fieldmap index_col envelope :
  envelope_success envelope = true ->
  envelope_result envelope = None ->
  sql_frame_of_envelope fieldmap index_col envelope
  = raise_new DataNotFoundError "No result data returned from SQL query".
Proof.
  intros Hs Hr. unfold sql_frame_of_envelope.
  rewrite (success_get _ Hs). simpl.
  rewrite (result_get _ Hs), Hr. reflexivity.
Qed.

Lemma meteo_frame_absent_result envelope :
  envelope_success envelope = true ->
  envelope_result envelope = None ->
  meteo_frame_of_envelope envelope
  = raise_new DataNotFoundError "No result data returned from API".
Proof.
  intros Hs Hr. unfold meteo_frame_of_envelope.
  rewrite (success_get _ Hs). simpl.
  rewrite (result_get _ Hs), Hr. reflexivity.
Qed.

(** What [get_fromsql] returns once the transport has returned an
    envelope. *)
Lemma get_fromsql_after_transport
    w sql fieldmap index_col use_curl path envelope tr :
  Io.run (get_response_from_lv_data sql use_curl path) w = (Ok envelope, tr) ->
  Io.run (get_fromsql sql fieldmap index_col use_curl path) w
  = match sql_frame_of_envelope fieldmap index_col envelope with
    | Ok df => (Ok df, tr)
    | Raise e =>
        public_except "Unexpected error executing SQL query: " e w tr
    end.
Proof.
  intros Hrun. unfold get_fromsql. io_unfold. rewrite Hrun.
  destruct (sql_frame_of_envelope fieldmap index_col envelope); reflexivity.
Qed.

Lemma get_lv_meteo_data_after_transport
    w table stations parameters startdate enddate use_curl path sql envelope tr :
  create_lv_meteo_data_sql table stations parameters startdate enddate = Ok sql ->
  Io.run (get_response_from_lv_data sql use_curl path) w = (Ok envelope, tr) ->
  Io.run (get_lv_meteo_data table stations parameters startdate enddate
            use_curl path) w
  = match meteo_frame_of_envelope envelope with
    | Ok df => (Ok df, tr)
    | Raise e =>
        public_except "Unexpected error processing meteorological data: " e w tr
    end.
Proof.
  intros Hsql Hrun. unfold get_lv_meteo_data. io_unfold. rewrite Hsql, Hrun.
  destruct (meteo_frame_of_envelope envelope); reflexivity.
Qed.

End Envelopes.

(** C2. Let the transport return an envelope whose [success] is [true].
    If its result object is present with an empty [records] list,
    [get_fromsql] and [get_lv_meteo_data] return the empty table (no
    column, zero rows) and raise nothing; if the [result] key is absent,
    both raise [DataNotFoundError]. *)
Theorem empty_records_is_empty_table_absent_result_is_error
    {lib : PandasLib} (w : world) (sql : string)
    (use_curl : bool) (path : string) (envelope : pyval) (tr : list request) :
  Io.run (get_response_from_lv_data sql use_curl path) w = (Ok envelope, tr) ->
  envelope_success envelope = true ->
  (forall res,
      envelope_result envelope = Some res -> has_empty_records res = true ->
      Pd.empty Pd.empty_frame = true /\ nrows Pd.empty_frame = 0%nat
      /\ (forall fieldmap index_col,
             Io.run (get_fromsql sql fieldmap index_col use_curl path) w
             = (Ok Pd.empty_frame, tr))
      /\ (forall table stations parameters startdate enddate,
             create_lv_meteo_data_sql table stations parameters startdate enddate
             = Ok sql ->
             Io.run (get_lv_meteo_data table stations parameters
                       startdate enddate use_curl path) w
             = (Ok Pd.empty_frame, tr)))
  /\ (envelope_result envelope = None ->
      (forall fieldmap index_col,
          Io.run (get_fromsql sql fieldmap index_col use_curl path) w
          = (Raise (Exn DataNotFoundError
                      "No result data returned from SQL query" None), tr))
      /\ (forall table stations parameters startdate enddate,
             create_lv_meteo_data_sql table stations parameters startdate enddate
             = Ok sql ->
             Io.run (get_lv_meteo_data table stations parameters
                       startdate enddate use_curl path) w
             = (Raise (Exn DataNotFoundError
                         "No result data returned from API" None), tr))).
Proof.
  intros Hrun Hs. split.
  - intros res Hr He. repeat split.
    + intros fieldmap index_col.
      erewrite get_fromsql_after_transport by eassumption.
      now erewrite sql_frame_empty_records by eassumption.
    + intros table stations parameters startdate enddate Hsql.
      erewrite get_lv_meteo_data_after_transport by eassumption.
      now erewrite meteo_frame_empty_records by eassumption.
  - intros Hr. split.
    + intros fieldmap index_col.
      erewrite get_fromsql_after_transport by eassumption.
      now erewrite sql_frame_absent_result by eassumption.
    + intros table stations parameters startdate enddate Hsql.
      erewrite get_lv_meteo_data_after_transport by eassumption.
      now erewrite meteo_frame_absent_result by eassumption.
Qed.

(** ** Response normaliser *)

Section NormaliserFacts.
Context {lib : PandasLib}.

Lemma to_numeric_cells_coerce (col : list cell) :
  Pd.to_numeric_cells ErrorsCoerce col = Ok (map numeric_or_nan col).
Proof.
  induction col as [|c col IH]; simpl; [reflexivity|].
  rewrite IH. unfold numeric_or_nan.
  destruct (Pd.numeric_value c); reflexivity.
Qed.

Lemma to_numeric_coerce (col : list cell) :
  Pd.to_numeric ErrorsCoerce col
  = Ok (numeric_column (map numeric_or_nan col)).
Proof. unfold Pd.to_numeric. now rewrite to_numeric_cells_coerce. Qed.

Lemma to_datetime_cells_coerce (column col : list cell) :
  Pd.to_datetime_cells ErrorsCoerce column col
  = Ok (map (datetime_or_nat column) col).
Proof.
  induction col as [|c col IH]; simpl; [reflexivity|].
  rewrite IH. unfold datetime_or_nat.
  destruct (Pd.datetime_value column c); reflexivity.
Qed.

Lemma to_datetime_coerce (col : list cell) :
  Pd.to_datetime ErrorsCoerce col = Ok (map (datetime_or_nat col) col).
Proof. apply to_datetime_cells_coerce. Qed.

(** With [errors='raise'] the same column can raise: the mode the code
    passes is what keeps the coercion total. *)
Lemma to_numeric_raise_can_raise (c : cell) (col : list cell) :
  Pd.numeric_value c = None ->
  is_ok (Pd.to_numeric ErrorsRaise (c :: col)) = false
  /\ is_ok (Pd.to_numeric ErrorsCoerce (c :: col)) = true.
Proof.
  intros H. split.
  - unfold Pd.to_numeric. simpl. rewrite H.
    destruct c as [[ | | | | | | ]| |]; reflexivity.
  - now rewrite to_numeric_coerce.
Qed.

Lemma coerce_series_total (vtype : pyval) (col : list cell) :
  exists col', coerce_series vtype col = Ok col'
               /\ List.length col' = List.length col.
Proof.
  unfold coerce_series_with. cbn [pandas pd_to_numeric pd_to_datetime].
  destruct vtype; eauto.
  destruct (s =? "text")%string.
  { eexists; split; [reflexivity|]. unfold Pd.astype_str. apply length_map. }
  destruct (s =? "numeric")%string.
  { rewrite to_numeric_coerce. eexists; split; [reflexivity|].
    rewrite numeric_column_length. apply length_map. }
  destruct (s =? "timestamp")%string.
  { rewrite to_datetime_coerce. eexists; split; [reflexivity|]. apply length_map. }
  eauto.
Qed.

Lemma coerce_columns_total fd (cols : list (string * list cell)) :
  exists cols', coerce_columns fd cols = Ok cols'.
Proof.
  induction cols as [|[c col] cols [cols' IH]]; simpl; [eauto|].
  destruct (coerce_series_total (field_type fd c) col) as (col' & -> & _).
  simpl. rewrite IH. simpl. eauto.
Qed.

(** The loop replaces the column under each label by its coercion. *)
Lemma coerce_columns_lookup fd (cols cols' : list (string * list cell))
    (c : string) (col : list cell) :
  coerce_columns fd cols = Ok cols' ->
  Py.lookup c cols = Some col ->
  exists col', Py.lookup c cols' = Some col'
               /\ coerce_series (field_type fd c) col = Ok col'.
Proof.
  revert cols'. induction cols as [|[c0 col0] cols IH]; intros cols' Hc Hl.
  - discriminate Hl.
  - simpl in Hc.
    destruct (coerce_series (field_type fd c0) col0) as [col0'|] eqn:H0;
      [|discriminate Hc].
    simpl in Hc.
    destruct (coerce_columns fd cols) as [rest'|] eqn:Hrest; [|discriminate Hc].
    simpl in Hc. injection Hc as <-.
    simpl in Hl |- *. destruct (c =? c0)%string eqn:Ecc.
    + apply String.eqb_eq in Ecc. subst c0. injection Hl as <-. eauto.
    + eauto.
Qed.

Lemma raw_dataframe_inv fields records columns df :
  records_to_dataframe_raw fields records columns = Ok df ->
  exists fd df0,
    field_dict_of fields = Ok fd
    /\ raw_frame records columns = Ok df0
    /\ coerce_columns fd (data df0) = Ok (data df)
    /\ nrows df = nrows df0 /\ index df = index df0.
Proof.
  unfold records_to_dataframe_raw, records_to_dataframe_raw_with. intros H.
  destruct (field_dict_of fields) as [fd|]; [|discriminate H]. simpl in H.
  destruct (raw_frame records columns) as [df0|]; [|discriminate H]. simpl in H.
  destruct (coerce_columns fd (data df0)) as [cols|] eqn:Hc; [|discriminate H].
  simpl in H. injection H as <-. exists fd, df0. simpl. auto.
Qed.

(** The column of the returned frame under a label of the frame built
    from the records. *)
Lemma raw_dataframe_column fields records columns fd df0 df c col :
  field_dict_of fields = Ok fd ->
  raw_frame records columns = Ok df0 ->
  records_to_dataframe_raw fields records columns = Ok df ->
  Pd.column c df0 = Some col ->
  exists col', Pd.column c df = Some col'
               /\ coerce_series (field_type fd c) col = Ok col'.
Proof.
  intros Hfd Hraw Hdf Hcol.
  destruct (raw_dataframe_inv _ _ _ Hdf) as (fd' & df0' & Hfd' & Hraw' & Hc & _).
  rewrite Hfd in Hfd'. injection Hfd' as <-.
  rewrite Hraw in Hraw'. injection Hraw' as <-.
  exact (coerce_columns_lookup _ _ _ Hc Hcol).
Qed.

Lemma field_type_default fd (c : string) :
  (forall entry, In entry fd -> fst entry <> PStr c) ->
  field_type fd c = PStr "text".
Proof.
  unfold field_type. generalize (PStr "text") as found.
  induction fd as [|[k t] fd IH]; intros found Hno; simpl; [reflexivity|].
  rewrite IH by (intros entry Hin; apply Hno; now right).
  destruct k; try reflexivity.
  destruct (s =? c)%string eqn:E; [|reflexivity].
  apply String.eqb_eq in E. subst s.
  exfalso. apply (Hno (PStr c, t)); [now left | reflexivity].
Qed.

Lemma coerce_series_other (vtype : pyval) (col : list cell) :
  vtype <> PStr "text" -> vtype <> PStr "numeric" ->
  vtype <> PStr "timestamp" ->
  coerce_series vtype col = Ok col.
Proof.
  intros H1 H2 H3. unfold coerce_series. destruct vtype; try reflexivity.
  destruct (s =? "text")%string eqn:E1;
    [apply String.eqb_eq in E1; subst; now elim H1|].
  destruct (s =? "numeric")%string eqn:E2;
    [apply String.eqb_eq in E2; subst; now elim H2|].
  destruct (s =? "timestamp")%string eqn:E3;
    [apply String.eqb_eq in E3; subst; now elim H3|].
  reflexivity.
Qed.

End NormaliserFacts.

Section NormaliserTotality.
Context {lib : PandasLib}.

Lemma field_entries_total (items : list pyval) :
  forallb field_ok items = true ->
  exists fd, field_entries items = Ok fd.
Proof.
  induction items as [|v items IH]; simpl; [eauto|].
  intros H. apply andb_prop in H as [Hv Hrest].
  destruct (IH Hrest) as [fd Hfd].
  destruct v as [ | | | | | |d]; try discriminate Hv. simpl in Hv |- *.
  destruct (Py.lookup "id" d) as [id|]; [|discriminate Hv].
  destruct (Py.lookup "type" d) as [ty|]; [|discriminate Hv].
  simpl. rewrite Hv. simpl. rewrite Hfd. simpl. eauto.
Qed.


Lemma select_keys_dict (cols : list string) (d acc : pydict) :
  exists row, select_keys cols (PDict d) acc = Ok row.
Proof.
  revert acc. induction cols as [|k cols IH]; intros acc; simpl; eauto.
Qed.

Lemma select_rows_dicts (cols : list string) (items : list pyval) :
  forallb is_dict items = true ->
  exists rows, select_rows cols items = Ok rows.
Proof.
  induction items as [|v items IH]; simpl; [eauto|].
  intros H. apply andb_prop in H as [Hv Hrest].
  destruct v as [ | | | | | |d]; try discriminate Hv.
  destruct (select_keys_dict cols d []) as [row ->].
  destruct (IH Hrest) as [rows ->]. simpl. eauto.
Qed.

Lemma as_dicts_dicts (items : list pyval) :
  forallb is_dict items = true -> exists rows, Pd.as_dicts items = Some rows.
Proof.
  induction items as [|v items IH]; simpl; [eauto|].
  intros H. apply andb_prop in H as [Hv Hrest].
  destruct v as [ | | | | | |d]; try discriminate Hv.
  destruct (IH Hrest) as [rows ->]. simpl. eauto.
Qed.

Lemma raw_frame_total (records : pyval) (columns : option (list string)) :
  is_list_of_dicts records = true ->
  exists df0, raw_frame records columns = Ok df0.
Proof.
  destruct records as [ | | | | |items| ]; try discriminate. simpl. intros H.
  destruct columns as [cols|]; simpl.
  - destruct (select_rows_dicts cols items H) as [rows ->]. simpl. eauto.
  - destruct (as_dicts_dicts items H) as [rows ->]. eauto.
Qed.

Lemma raw_dataframe_total fields records columns :
  fields_well_formed fields = true ->
  is_list_of_dicts records = true ->
  exists fd df0 df,
    field_dict_of fields = Ok fd
    /\ raw_frame records columns = Ok df0
    /\ records_to_dataframe_raw fields records columns = Ok df.
Proof.
  intros Hf Hr.
  destruct fields as [ | | | | |items| ]; try discriminate Hf. simpl in Hf.
  destruct (field_entries_total items Hf) as [fd Hfd].
  destruct (raw_frame_total records columns Hr) as [df0 Hraw].
  destruct (coerce_columns_total fd (data df0)) as [cols Hc].
  exists fd, df0. eexists.
  unfold records_to_dataframe_raw, records_to_dataframe_raw_with, field_dict_of. simpl.
  rewrite Hfd, Hraw. simpl. rewrite Hc. simpl. auto.
Qed.

(** The cell of the returned frame, from the cell of the frame built
    from the records and the coercion of its column. *)
Lemma raw_dataframe_cell fields records columns fd df0 df c i x f :
  field_dict_of fields = Ok fd ->
  raw_frame records columns = Ok df0 ->
  records_to_dataframe_raw fields records columns = Ok df ->
  (forall col, coerce_series (field_type fd c) col = Ok (map f col)) ->
  Pd.at_ df0 c i = Some x ->
  Pd.at_ df c i = Some (f x).
Proof.
  intros Hfd Hraw Hdf Hf Hx. unfold Pd.at_ in *.
  destruct (Pd.column c df0) as [col|] eqn:Hcol; [|discriminate Hx].
  edestruct raw_dataframe_column as (col' & Hc' & Hco);
    [exact Hfd | exact Hraw | exact Hdf | exact Hcol |].
  rewrite Hc'. rewrite Hf in Hco. injection Hco as <-.
  now apply map_nth_error.
Qed.

End NormaliserTotality.

(** C4, as the code has it. In [records_to_dataframe_raw], for every
    column whose field type is text, each cell that is not null is
    replaced by the text [str] gives for the value the column holds (in
    a column of numbers with a missing value that is a float: [5] is
    held as [5.0]). A null cell remains null exactly when [astype('str')]
    keeps missing values, as pandas 3 does; with pandas 1.x and 2.x it
    becomes a text, [None] or [nan], which is not null. *)
Theorem text_column_cells_become_text
    {lib : PandasLib} (fields records : pyval) (columns : option (list string))
    (fd : list (pyval * pyval)) (df0 df : DataFrame)
    (c : string) (i : nat) (x : cell) :
  field_dict_of fields = Ok fd ->
  raw_frame records columns = Ok df0 ->
  records_to_dataframe_raw fields records columns = Ok df ->
  field_type fd c = PStr "text" ->
  Pd.at_ df0 c i = Some x ->
  (Pd.isna x = false ->
   Pd.at_ df c i = Some (CVal (PStr (Pd.cell_str x))))
  /\ (Pd.isna x = true ->
      Pd.at_ df c i
      = Some (if astype_str_keeps_missing then CVal NaN
              else CVal (PStr (Pd.cell_str x))))
  /\ (Pd.isna x = true ->
      forall y, Pd.at_ df c i = Some y ->
                Pd.isna y = astype_str_keeps_missing).
Proof.
  intros Hfd Hraw Hdf Ht Hx.
  assert (Hcell : Pd.at_ df c i = Some (Pd.astype_str_cell x)).
  { eapply raw_dataframe_cell with (f := Pd.astype_str_cell);
      [exact Hfd | exact Hraw | exact Hdf | | exact Hx].
    intros col. rewrite Ht. reflexivity. }
  unfold Pd.astype_str_cell in Hcell.
  split; [|split].
  - intros Hna. rewrite Hna, andb_false_r in Hcell. exact Hcell.
  - intros Hna. rewrite Hna, andb_true_r in Hcell. exact Hcell.
  - intros Hna y Hy. rewrite Hna, andb_true_r, Hy in Hcell.
    injection Hcell as ->. now destruct astype_str_keeps_missing.
Qed.

Lemma text_column_cells_become_text_witness :
  let df := mk_frame [("NAME", [CVal (PStr "5.0"); CVal (PStr "nan")])] 2 None in
  records_to_dataframe_raw (lib := Sample.lib)
    Sample.name_fields Sample.number_and_null_records None = Ok df
  /\ Pd.at_ df "NAME" 0 = Some (CVal (PStr "5.0"))
  /\ Pd.at_ df "NAME" 1 = Some (CVal (PStr "nan"))
  /\ Pd.isna (CVal (PStr "nan")) = false.
Proof.
  pose (fd := [(PStr "NAME", PStr "text")]).
  pose (df0 := mk_frame [("NAME", [CVal (PFloat "5.0"); CVal NaN])] 2 None).
  split; [reflexivity|]. split; [|split].
  - destruct (@text_column_cells_become_text Sample.lib
                Sample.name_fields Sample.number_and_null_records None fd df0
                (mk_frame [("NAME", [CVal (PStr "5.0"); CVal (PStr "nan")])]
                   2 None)
                "NAME" 0%nat (CVal (PFloat "5.0"))
                eq_refl eq_refl eq_refl eq_refl eq_refl) as [Hvalue _].
    exact (Hvalue eq_refl).
  - destruct (@text_column_cells_become_text Sample.lib
                Sample.name_fields Sample.number_and_null_records None fd df0
                (mk_frame [("NAME", [CVal (PStr "5.0"); CVal (PStr "nan")])]
                   2 None)
                "NAME" 1%nat (CVal NaN)
                eq_refl eq_refl eq_refl eq_refl eq_refl) as [_ [Hnull _]].
    exact (Hnull eq_refl).
  - destruct (@text_column_cells_become_text Sample.lib
                Sample.name_fields Sample.number_and_null_records None fd df0
                (mk_frame [("NAME", [CVal (PStr "5.0"); CVal (PStr "nan")])]
                   2 None)
                "NAME" 1%nat (CVal NaN)
                eq_refl eq_refl eq_refl eq_refl eq_refl) as [_ [_ Hstays]].
    exact (Hstays eq_refl (CVal (PStr "nan")) eq_refl).
Defined.

(** C4, counterexample, with pandas 1.x and 2.x ([astype('str')] writes
    the [str] of a missing value): a text column holding a null. The
    cell built from the record is [None], which is null; the cell of the
    returned frame is the text [None], which is not. *)
Lemma null_in_text_column_does_not_remain_null :
  astype_str_keeps_missing (PandasLib := Sample.lib) = false
  /\ field_dict_of Sample.name_fields = Ok [(PStr "NAME", PStr "text")]
  /\ raw_frame (lib := Sample.lib) Sample.null_name_records None
     = Ok (mk_frame [("NAME", [CVal PNone])] 1 None)
  /\ Pd.isna (CVal PNone) = true
  /\ records_to_dataframe_raw (lib := Sample.lib)
       Sample.name_fields Sample.null_name_records None
     = Ok (mk_frame [("NAME", [CVal (PStr "None")])] 1 None)
  /\ Pd.isna (CVal (PStr "None")) = false.
Proof. repeat split. Qed.

(** The same records with pandas 3, where [astype('str')] keeps a
    missing value: the null stays null. *)
Example null_in_text_column_remains_null_with_pandas_3 :
  astype_str_keeps_missing (PandasLib := Sample.lib3) = true
  /\ records_to_dataframe_raw (lib := Sample.lib3)
       Sample.name_fields Sample.null_name_records None
     = Ok (mk_frame [("NAME", [CVal NaN])] 1 None)
  /\ Pd.isna (CVal NaN) = true.
Proof. repeat split. Qed.

(** C5, as the code has it. In [records_to_dataframe_raw] a column with
    no field metadata at all is coerced as a text column is; a column
    whose metadata carries a type tag other than text, numeric or
    timestamp is not coerced: it keeps the values built from the
    records. *)
Theorem no_metadata_is_text_unknown_tag_is_kept
    {lib : PandasLib} (fields records : pyval) (columns : option (list string))
    (fd : list (pyval * pyval)) (df0 df : DataFrame)
    (c : string) (col : list cell) :
  field_dict_of fields = Ok fd ->
  raw_frame records columns = Ok df0 ->
  records_to_dataframe_raw fields records columns = Ok df ->
  Pd.column c df0 = Some col ->
  ((forall entry, In entry fd -> fst entry <> PStr c) ->
   Pd.column c df = Some (Pd.astype_str col))
  /\ (field_type fd c <> PStr "text" ->
      field_type fd c <> PStr "numeric" ->
      field_type fd c <> PStr "timestamp" ->
      Pd.column c df = Some col).
Proof.
  intros Hfd Hraw Hdf Hcol.
  edestruct raw_dataframe_column as (col' & Hc' & Hco);
    [exact Hfd | exact Hraw | exact Hdf | exact Hcol |].
  split.
  - intros Hno. rewrite field_type_default in Hco by exact Hno.
    simpl in Hco. injection Hco as <-. exact Hc'.
  - intros H1 H2 H3. rewrite coerce_series_other in Hco by assumption.
    injection Hco as <-. exact Hc'.
Qed.

Lemma no_metadata_is_text_unknown_tag_is_kept_witness :
  let df := mk_frame [("N", [CVal (PInt 5)]); ("M", [CVal (PStr "6")])] 1 None in
  Pd.column "M" df = Some (Pd.astype_str (lib := Sample.lib) [CVal (PInt 6)])
  /\ Pd.column "N" df = Some [CVal (PInt 5)].
Proof.
  pose (fd := [(PStr "N", PStr "int4")]).
  pose (df0 := mk_frame [("N", [CVal (PInt 5)]); ("M", [CVal (PInt 6)])] 1 None).
  pose (df := mk_frame [("N", [CVal (PInt 5)]); ("M", [CVal (PStr "6")])] 1 None).
  split.
  - destruct (@no_metadata_is_text_unknown_tag_is_kept Sample.lib
                Sample.int4_fields Sample.int_records None fd df0 df
                "M" [CVal (PInt 6)] eq_refl eq_refl eq_refl eq_refl)
      as [Hno _].
    apply Hno. intros entry [<-|[]]. discriminate.
  - destruct (@no_metadata_is_text_unknown_tag_is_kept Sample.lib
                Sample.int4_fields Sample.int_records None fd df0 df
                "N" [CVal (PInt 5)] eq_refl eq_refl eq_refl eq_refl)
      as [_ Hother].
    apply Hother; discriminate.
Defined.

(** C5, counterexample: a column tagged [int4]. Its cell stays the
    integer 5, while the same column tagged [text], or left without
    metadata, holds the text [5]. *)
Lemma unknown_tag_is_not_coerced_as_text :
  records_to_dataframe_raw (lib := Sample.lib)
    Sample.int4_fields (PList [PDict [("N", PInt 5)]]) None
  = Ok (mk_frame [("N", [CVal (PInt 5)])] 1 None)
  /\ records_to_dataframe_raw (lib := Sample.lib)
       (PList [PDict [("id", PStr "N"); ("type", PStr "text")]])
       (PList [PDict [("N", PInt 5)]]) None
     = Ok (mk_frame [("N", [CVal (PStr "5")])] 1 None)
  /\ records_to_dataframe_raw (lib := Sample.lib)
       (PList []) (PList [PDict [("N", PInt 5)]]) None
     = Ok (mk_frame [("N", [CVal (PStr "5")])] 1 None)
  /\ CVal (PInt 5) <> CVal (PStr "5").
Proof. repeat split. discriminate. Qed.

Section AnyConversions.
Context {lib : PandasLib}.
Variable pd : conversions.





End AnyConversions.






(** A conversion that raises in spite of [errors='coerce'], as
    [pd.to_datetime] of pandas 3 does for texts with different UTC
    offsets: its exception is what [records_to_dataframe_raw] raises, on
    fields and records of the expected form. *)
Example conversion_error_reaches_the_caller (e : exn) :
  let refusing :=
    mk_conversions (Pd.to_numeric (lib := Sample.lib)) (fun _ _ => Raise e) in
  fields_well_formed Sample.typed_fields = true
  /\ is_list_of_dicts Sample.unparseable_records = true
  /\ records_to_dataframe_raw_with (lib := Sample.lib) refusing
       Sample.typed_fields Sample.unparseable_records None
     = Raise e.
Proof. repeat split. Qed.

(** On the sample, with the conversions of pandas 1.x and 2.x: the
    unparseable texts become [nan] and [NaT]. *)
Lemma unparseable_cells_become_missing :
  records_to_dataframe_raw (lib := Sample.lib)
    Sample.typed_fields Sample.unparseable_records None
  = Ok (mk_frame [("VALUE", [CVal NaN]); ("DATETIME", [CNaT])] 1 None).
Proof. reflexivity. Qed.

(** ** Reshaper *)

(** C9. In [get_lv_meteo_data], a typed table with zero rows, or without
    the [date] column, skips the reshaping steps: it is returned as it
    is. *)
Theorem reshape_skipped_without_rows_or_date
    {lib : PandasLib} (df : DataFrame) :
  nrows df = 0%nat \/ Pd.has_column "date" df = false ->
  reshape df = Ok df.
Proof.
  intros [H0|Hd]; unfold reshape.
  - assert (He : Pd.empty df = true).
    { unfold Pd.empty. rewrite H0. destruct (data df); reflexivity. }
    rewrite He. now rewrite andb_false_r.
  - now rewrite Hd.
Qed.

Lemma reshape_skipped_without_rows_or_date_witness :
  reshape (lib := Sample.lib)
    (mk_frame [("station_id", []); ("param", []); ("date", []); ("value", [])]
       0 None)
  = Ok (mk_frame [("station_id", []); ("param", []); ("date", []); ("value", [])]
          0 None)
  /\ reshape (lib := Sample.lib)
       (mk_frame [("station_id", [CVal (PStr "A")]); ("value", [CVal (PInt 5)])]
          1 None)
     = Ok (mk_frame [("station_id", [CVal (PStr "A")]); ("value", [CVal (PInt 5)])]
             1 None).
Proof.
  split.
  - apply (@reshape_skipped_without_rows_or_date Sample.lib). left. reflexivity.
  - apply (@reshape_skipped_without_rows_or_date Sample.lib). right. reflexivity.
Defined.

Lemma empty_records_is_empty_table_absent_result_is_error_witness :
  Io.run (get_fromsql (lib := Sample.lib) "SELECT 1" None None false "curl")
    (Sample.answering Sample.envelope_without_records)
  = (Ok Pd.empty_frame, [HttpGet API_BASE_URL "SELECT 1" DEFAULT_TIMEOUT])
  /\ Io.run (get_lv_meteo_data (lib := Sample.lib)
               "T1" (Seq ["A"]) (Seq ["P1"])
               (ADatetime Sample.d1) (ADatetime Sample.d2) false "curl")
       (Sample.answering Sample.envelope_without_records)
     = (Ok Pd.empty_frame,
        [HttpGet API_BASE_URL Sample.scenario_sql DEFAULT_TIMEOUT])
  /\ Io.run (get_fromsql (lib := Sample.lib) "SELECT 1" None None false "curl")
       (Sample.answering Sample.envelope_without_result)
     = (Raise (Exn DataNotFoundError
                 "No result data returned from SQL query" None),
        [HttpGet API_BASE_URL "SELECT 1" DEFAULT_TIMEOUT])
  /\ Io.run (get_lv_meteo_data (lib := Sample.lib)
               "T1" (Seq ["A"]) (Seq ["P1"])
               (ADatetime Sample.d1) (ADatetime Sample.d2) false "curl")
       (Sample.answering Sample.envelope_without_result)
     = (Raise (Exn DataNotFoundError "No result data returned from API" None),
        [HttpGet API_BASE_URL Sample.scenario_sql DEFAULT_TIMEOUT]).
Proof.
  pose (res := PDict [("fields", PList []); ("records", PList [])]).
  split; [|split; [|split]].
  - apply (@empty_records_is_empty_table_absent_result_is_error Sample.lib
             (Sample.answering Sample.envelope_without_records) "SELECT 1"
             false "curl" Sample.envelope_without_records
             [HttpGet API_BASE_URL "SELECT 1" DEFAULT_TIMEOUT]
             eq_refl eq_refl) with (res := res); reflexivity.
  - apply (@empty_records_is_empty_table_absent_result_is_error Sample.lib
             (Sample.answering Sample.envelope_without_records)
             Sample.scenario_sql
             false "curl" Sample.envelope_without_records
             [HttpGet API_BASE_URL Sample.scenario_sql DEFAULT_TIMEOUT]
             eq_refl eq_refl) with (res := res); reflexivity.
  - apply (@empty_records_is_empty_table_absent_result_is_error Sample.lib
             (Sample.answering Sample.envelope_without_result) "SELECT 1"
             false "curl" Sample.envelope_without_result
             [HttpGet API_BASE_URL "SELECT 1" DEFAULT_TIMEOUT]
             eq_refl eq_refl); reflexivity.
  - apply (@empty_records_is_empty_table_absent_result_is_error Sample.lib
             (Sample.answering Sample.envelope_without_result)
             Sample.scenario_sql
             false "curl" Sample.envelope_without_result
             [HttpGet API_BASE_URL Sample.scenario_sql DEFAULT_TIMEOUT]
             eq_refl eq_refl); reflexivity.
Defined.

(** ** The frame that reaches the reshaping guard *)

Section GuardOfReshape.
Context {lib : PandasLib}.

Lemma select_keys_data_columns (v : pyval) (row : pydict) :
  select_keys (dict_values DATA_COLUMNS) v [] = Ok row -> data_row row.
Proof.
  destruct v; try discriminate. simpl. intros H. injection H as <-.
  unfold data_row. eauto 6.
Qed.

Lemma select_rows_data_columns (items : list pyval) (rows : list pydict) :
  select_rows (dict_values DATA_COLUMNS) items = Ok rows ->
  Forall data_row rows /\ List.length rows = List.length items.
Proof.
  revert rows. induction items as [|v items IH]; intros rows H.
  - injection H as <-. split; [constructor | reflexivity].
  - cbn [select_rows] in H.
    destruct (select_keys (dict_values DATA_COLUMNS) v []) as [row|] eqn:Hrow;
      [|discriminate H].
    cbn [rbind] in H.
    destruct (select_rows (dict_values DATA_COLUMNS) items) as [rest|];
      [|discriminate H].
    injection H as <-. destruct (IH rest eq_refl) as [Hall Hlen].
    split.
    + constructor; [exact (select_keys_data_columns _ Hrow) | exact Hall].
    + simpl. now rewrite Hlen.
Qed.

Lemma union_keys_data_rows (rows : list pydict) :
  rows <> [] -> Forall data_row rows ->
  Pd.union_keys rows = dict_values DATA_COLUMNS.
Proof.
  unfold Pd.union_keys. destruct rows as [|row rows]; [congruence|].
  intros _ Hall. inversion Hall as [|? ? (a & b & c & d & ->) Hrest]; subst.
  cbn [fold_left]. change (fold_left _ [_; _; _; _] [])
    with (dict_values DATA_COLUMNS).
  clear Hall. induction Hrest as [|row' rows' (a' & b' & c' & d' & ->) _ IH];
    [reflexivity|].
  cbn [fold_left].
  change (fold_left _ [_; _; _; _] (dict_values DATA_COLUMNS))
    with (dict_values DATA_COLUMNS).
  exact IH.
Qed.

Lemma coerce_columns_labels fd (cols cols' : list (string * list cell)) :
  coerce_columns fd cols = Ok cols' -> map fst cols' = map fst cols.
Proof.
  revert cols'. induction cols as [|[c col] cols IH]; intros cols' H.
  - injection H as <-. reflexivity.
  - simpl in H.
    destruct (coerce_series (field_type fd c) col); [|discriminate H].
    simpl in H. destruct (coerce_columns fd cols) as [rest|]; [|discriminate H].
    injection H as <-. simpl. now rewrite (IH rest eq_refl).
Qed.

Lemma truthy_iter_nonempty (records : pyval) (items : list pyval) :
  Py.truthy records = true -> Py.iter records = Ok items -> items <> [].
Proof.
  destruct records as [ | | | |s|l|d]; try discriminate; simpl; intros Ht H;
    injection H as <-.
  - destruct s; [discriminate Ht | discriminate].
  - destruct l; [discriminate Ht | discriminate].
  - destruct d; [discriminate Ht | discriminate].
Qed.

(** In [get_lv_meteo_data] the frame built by [records_to_dataframe] from
    a non-empty [records] always has the [date] column and at least one
    row: the guard of the reshaping steps holds whenever it is reached. *)
Lemma frame_before_reshape_has_date_and_rows
    (fields records : pyval) (df : DataFrame) :
  Py.truthy records = true ->
  records_to_dataframe DATA_COLUMNS fields records = Ok df ->
  Pd.has_column "date" df = true /\ Pd.empty df = false.
Proof.
  intros Ht H. unfold records_to_dataframe in H.
  destruct (records_to_dataframe_raw fields records
              (Some (dict_values DATA_COLUMNS))) as [raw|] eqn:Hraw;
    [|discriminate H].
  injection H as <-.
  destruct (raw_dataframe_inv _ _ _ Hraw) as (fd & df0 & _ & Hdf0 & Hc & Hn & _).
  unfold raw_frame in Hdf0.
  destruct (Py.iter records) as [items|] eqn:Hitems; [|discriminate Hdf0].
  cbn [rbind] in Hdf0.
  destruct (select_rows (dict_values DATA_COLUMNS) items) as [rows|] eqn:Hrows;
    [|discriminate Hdf0].
  injection Hdf0 as <-.
  destruct (select_rows_data_columns _ Hrows) as [Hall Hlen].
  assert (Hne : rows <> []).
  { pose proof (truthy_iter_nonempty _ Ht Hitems) as Hi.
    destruct rows; [|discriminate]. destruct items; [congruence | discriminate]. }
  apply coerce_columns_labels in Hc.
  cbn [data Pd.frame_of_dicts] in Hc. rewrite map_map in Hc. cbn [fst] in Hc.
  rewrite map_id in Hc. rewrite (union_keys_data_rows Hne Hall) in Hc.
  unfold Pd.has_column, Pd.empty, Pd.columns, Pd.rename.
  cbn [data nrows]. rewrite map_map. cbn [fst].
  destruct (data raw) as [|[l0 c0] [|[l1 c1] [|[l2 c2] [|[l3 c3] [|]]]]];
    try discriminate Hc.
  injection Hc as -> -> -> ->. split; [reflexivity|].
  rewrite Hn. cbn [nrows Pd.frame_of_dicts].
  destruct rows; [congruence | reflexivity].
Qed.

End GuardOfReshape.

(** ** Failure kinds of a public operation *)

(** Whatever [get_lv_meteo_data] raises is one of the three library
    classes. *)
Lemma get_lv_meteo_data_raises_library_errors
    {lib : PandasLib} (w : world) (table : string)
    (stations parameters : str_or_list) (startdate enddate : date_arg)
    (use_curl : bool) (path : string) (e : exn) (tr : list request) :
  Io.run (get_lv_meteo_data table stations parameters startdate enddate
            use_curl path) w = (Raise e, tr) ->
  is_lvmeteo_error e = true.
Proof.
  unfold get_lv_meteo_data. io_unfold.
  destruct (create_lv_meteo_data_sql table stations parameters startdate enddate)
    as [sql|e0].
  - destruct (get_response_from_lv_data sql use_curl path w []) as [[env|e1] tr0].
    + destruct (meteo_frame_of_envelope env) as [df|e2]; [discriminate|].
      unfold public_except. destruct (is_lvmeteo_error e2) eqn:E; io_unfold;
        intros H; injection H as <- _; [exact E | reflexivity].
    + unfold public_except. destruct (is_lvmeteo_error e1) eqn:E; io_unfold;
        intros H; injection H as <- _; [exact E | reflexivity].
  - unfold public_except. destruct (is_lvmeteo_error e0) eqn:E; io_unfold;
      intros H; injection H as <- _; [exact E | reflexivity].
Qed.

(** Whatever [get_fromsql] raises is one of the three library classes. *)
Lemma get_fromsql_raises_library_errors
    {lib : PandasLib} (w : world) (sql : string)
    (fieldmap : option (list (string * string))) (index_col : option string)
    (use_curl : bool) (path : string) (e : exn) (tr : list request) :
  Io.run (get_fromsql sql fieldmap index_col use_curl path) w = (Raise e, tr) ->
  is_lvmeteo_error e = true.
Proof.
  unfold get_fromsql. io_unfold.
  destruct (get_response_from_lv_data sql use_curl path w []) as [[env|e0] tr0].
  - destruct (sql_frame_of_envelope fieldmap index_col env) as [df|e1];
      [discriminate|].
    unfold public_except. destruct (is_lvmeteo_error e1) eqn:E; io_unfold;
      intros H; injection H as <- _; [exact E | reflexivity].
  - unfold public_except. destruct (is_lvmeteo_error e0) eqn:E; io_unfold;
      intros H; injection H as <- _; [exact E | reflexivity].
Qed.

(** * Further properties of the code *)

(** ** Query builder *)

Lemma string_app_assoc (a b c : string) : (a ++ b) ++ c = a ++ (b ++ c).
Proof. induction a as [|x a IH]; simpl; [reflexivity | now rewrite IH]. Qed.

Lemma ge_false_lt_true (a b : datetime) :
  Datetime.ge a b = Some false -> Datetime.lt a b = Some true.
Proof. apply lt_true_ge_false. Qed.

(** X1. [create_lv_meteo_data_sql] returns a SQL string only for a valid
    input: both dates are datetimes, start is before end, the table and
    both arguments are non-empty, and the string is the formatted
    template. *)
Theorem sql_returned_only_for_valid_input
    (table : string) (stations parameters : str_or_list)
    (startdate enddate : date_arg) (sql : string) :
  create_lv_meteo_data_sql table stations parameters startdate enddate = Ok sql ->
  exists sd ed,
    startdate = ADatetime sd /\ enddate = ADatetime ed
    /\ valid_input table stations parameters sd ed
    /\ sql = base_sql table
               (quoted_list (normalize_arg stations))
               (quoted_list (normalize_arg parameters))
               (Datetime.isoformat sd) (Datetime.isoformat ed).
Proof.
  unfold create_lv_meteo_data_sql, raise_new. intros H.
  destruct (Text.is_empty table) eqn:Et; [discriminate H|].
  destruct (arg_truthy stations) eqn:Es; [|discriminate H].
  destruct (arg_truthy parameters) eqn:Ep; [|discriminate H].
  simpl in H.
  destruct startdate as [sd|v]; [|discriminate H].
  destruct enddate as [ed|v]; [|discriminate H].
  destruct (Datetime.ge sd ed) as [[|]|] eqn:Hge; try discriminate H.
  injection H as <-. exists sd, ed. repeat split; try assumption.
  - now apply is_empty_false.
  - now apply ge_false_lt_true.
Qed.

Lemma sql_returned_only_for_valid_input_witness :
  exists sd ed,
    ADatetime Sample.d1 = ADatetime sd /\ ADatetime Sample.d2 = ADatetime ed
    /\ valid_input "T1" (Seq ["A"]) (Seq ["P1"]) sd ed
    /\ Sample.scenario_sql
       = base_sql "T1"
           (quoted_list (normalize_arg (Seq ["A"])))
           (quoted_list (normalize_arg (Seq ["P1"])))
           (Datetime.isoformat sd) (Datetime.isoformat ed).
Proof.
  apply (@sql_returned_only_for_valid_input
           "T1" (Seq ["A"]) (Seq ["P1"])
           (ADatetime Sample.d1) (ADatetime Sample.d2)).
  reflexivity.
Defined.

(** X2. With the other arguments valid, a naive start against an aware
    end (or the reverse) is not a validation failure: the comparison
    raises [TypeError], [create_lv_meteo_data_sql] lets it through, and
    [get_lv_meteo_data] raises an [APIError] from it without sending a
    request. *)
Theorem naive_against_aware_is_not_a_validation_error
    {lib : PandasLib} (table : string) (stations parameters : str_or_list)
    (sd ed : datetime) :
  table <> "" -> arg_truthy stations = true -> arg_truthy parameters = true ->
  (utcoffset sd = None /\ utcoffset ed <> None)
  \/ (utcoffset sd <> None /\ utcoffset ed = None) ->
  let type_error :=
    Exn (Builtin "TypeError")
      "can't compare offset-naive and offset-aware datetimes" None in
  create_lv_meteo_data_sql table stations parameters
    (ADatetime sd) (ADatetime ed) = Raise type_error
  /\ forall (w : world) (use_curl : bool) (path : string),
       Io.run (get_lv_meteo_data table stations parameters
                 (ADatetime sd) (ADatetime ed) use_curl path) w
       = (Raise (Exn APIError
                   ("Unexpected error processing meteorological data: "
                    ++ "can't compare offset-naive and offset-aware datetimes")
                   (Some type_error)), []).
Proof.
  intros Ht Hs Hp Hmix type_error.
  assert (Hcmp : Datetime.ge sd ed = None).
  { unfold Datetime.ge, Datetime.cmp.
    destruct Hmix as [[Ha Hb]|[Ha Hb]].
    - unfold utcoffset in Ha, Hb.
      destruct (tzinfo_of sd); [discriminate Ha|].
      destruct (tzinfo_of ed); [reflexivity | congruence].
    - unfold utcoffset in Ha, Hb.
      destruct (tzinfo_of ed); [discriminate Hb|].
      destruct (tzinfo_of sd); [reflexivity | congruence]. }
  assert (Hsql : create_lv_meteo_data_sql table stations parameters
                   (ADatetime sd) (ADatetime ed) = Raise type_error).
  { unfold create_lv_meteo_data_sql. apply is_empty_false in Ht.
    rewrite Ht, Hs, Hp, Hcmp. reflexivity. }
  split; [exact Hsql|].
  intros w use_curl path. unfold get_lv_meteo_data. io_unfold.
  rewrite Hsql. reflexivity.
Qed.

Lemma naive_against_aware_is_not_a_validation_error_witness :
  let aware := mk_datetime 2024 1 2 0 0 0 0 (Some (mk_tzinfo 1 0)) in
  let type_error :=
    Exn (Builtin "TypeError")
      "can't compare offset-naive and offset-aware datetimes" None in
  create_lv_meteo_data_sql "T1" (Seq ["A"]) (Seq ["P1"])
    (ADatetime Sample.d1) (ADatetime aware) = Raise type_error
  /\ forall (w : world) (use_curl : bool) (path : string),
       Io.run (get_lv_meteo_data (lib := Sample.lib)
                 "T1" (Seq ["A"]) (Seq ["P1"])
                 (ADatetime Sample.d1) (ADatetime aware) use_curl path) w
       = (Raise (Exn APIError
                   ("Unexpected error processing meteorological data: "
                    ++ "can't compare offset-naive and offset-aware datetimes")
                   (Some type_error)), []).
Proof.
  apply (@naive_against_aware_is_not_a_validation_error Sample.lib
           "T1" (Seq ["A"]) (Seq ["P1"]) Sample.d1
           (mk_datetime 2024 1 2 0 0 0 0 (Some (mk_tzinfo 1 0)))).
  - discriminate.
  - reflexivity.
  - reflexivity.
  - left. split; [reflexivity | discriminate].
Defined.

Lemma quoted_list_embedded_separator (x y : string) (rest : list string) :
  quoted_list ((x ++ "','" ++ y) :: rest) = quoted_list (x :: y :: rest).
Proof.
  unfold quoted_list. cbn [map Text.join].
  assert (H : quote_item (x ++ "','" ++ y)
              = quote_item x ++ "," ++ quote_item y).
  { unfold quote_item. rewrite !string_app_assoc. reflexivity. }
  destruct rest as [|z rest].
  - exact H.
  - cbn [map]. rewrite H. rewrite !string_app_assoc. reflexivity.
Qed.

(** X3. Nothing in a list element is escaped: one station (or parameter)
    whose text holds a quote, a comma and a quote gives, whatever the
    other arguments are, the very result of the two stations it reads
    as. *)
Theorem embedded_separator_reads_as_two_elements
    (table x y : string) (rest : list string) (other : str_or_list)
    (a b : date_arg) :
  create_lv_meteo_data_sql table (Seq ((x ++ "','" ++ y) :: rest)) other a b
  = create_lv_meteo_data_sql table (Seq (x :: y :: rest)) other a b
  /\ create_lv_meteo_data_sql table other (Seq ((x ++ "','" ++ y) :: rest)) a b
     = create_lv_meteo_data_sql table other (Seq (x :: y :: rest)) a b.
Proof.
  unfold create_lv_meteo_data_sql. cbn [arg_truthy normalize_arg].
  rewrite quoted_list_embedded_separator. split; reflexivity.
Qed.

(** ** Transport *)

Lemma transport_except_run {A} (e : exn) (w : world) (tr : list request) :
  @transport_except A e w tr
  = (Raise (Exn APIError (transport_prefix (exn_cls e) ++ exn_str e) (Some e)),
     tr).
Proof. unfold transport_except. destruct (exn_cls e); reflexivity. Qed.

Lemma request_for_curl (sql path : string) :
  request_for sql true path = CurlExec (curl_argv sql path) 400.
Proof. reflexivity. Qed.

(** X4. Every exception raised inside the [try] block of
    [get_response_from_lv_data], in either mode, leaves the function as
    an [APIError] raised from it, after the one request: the text is
    [Request timed out: ] for a [TimeoutExpired], [Curl command failed: ]
    for a [CalledProcessError] and [Unexpected error during API request: ]
    for anything else, followed by [str(e)]. *)
Theorem transport_failure_becomes_api_error
    (w : world) (sql path : string) (use_curl : bool) (e : exn) :
  sql <> "" ->
  raised_in_transport w sql path use_curl e ->
  Io.run (get_response_from_lv_data sql use_curl path) w
  = (Raise (Exn APIError (transport_prefix (exn_cls e) ++ exn_str e) (Some e)),
     [request_for sql use_curl path]).
Proof.
  intros Hsql Hin. apply is_empty_false in Hsql.
  unfold get_response_from_lv_data. rewrite Hsql.
  destruct Hin as [e H|out e H|e H|status text e H Hok|status text json H Hok];
    io_unfold; cbn [app]; fold (curl_argv sql path); rewrite H;
    try rewrite Hok; apply transport_except_run.
Qed.

Lemma transport_failure_becomes_api_error_witness :
  let timeout :=
    Exn TimeoutExpired "Command 'curl' timed out after 400 seconds" None in
  let w := mk_world (fun _ _ _ => HttpRaises timeout)
                    (fun _ _ => CurlRaises timeout) in
  Io.run (get_response_from_lv_data "SELECT 1" true "curl") w
  = (Raise (Exn APIError
              (transport_prefix (exn_cls timeout) ++ exn_str timeout)
              (Some timeout)),
     [request_for "SELECT 1" true "curl"]).
Proof.
  apply transport_failure_becomes_api_error.
  - discriminate.
  - apply process_raises. reflexivity.
Defined.

(** X5. [get_response_from_lv_data] returns data in exactly two
    situations, each after one request for a non-empty SQL string: in
    the process mode the output decodes to it, in the direct mode the
    status is a success one and the body decodes to it. *)
Theorem transport_returns_data_iff
    (w : world) (sql path : string) (use_curl : bool)
    (envelope : pyval) (tr : list request) :
  Io.run (get_response_from_lv_data sql use_curl path) w = (Ok envelope, tr)
  <-> sql <> "" /\ tr = [request_for sql use_curl path]
      /\ if use_curl
         then exists out,
                curl_run w (curl_argv sql path) 400 = CurlOutput out (Ok envelope)
         else exists status text,
                http_get w API_BASE_URL sql DEFAULT_TIMEOUT
                = HttpResponse status text (Ok envelope)
                /\ response_ok status = true.
Proof.
  unfold get_response_from_lv_data, request_for. split.
  - destruct (Text.is_empty sql) eqn:Hsql; [io_unfold; discriminate|].
    apply is_empty_false in Hsql.
    destruct use_curl; io_unfold; cbn [app]; fold (curl_argv sql path).
    + destruct (curl_run w (curl_argv sql path) 400) as [out [v|e]|e];
        try (rewrite transport_except_run; discriminate).
      intros H. injection H as <- <-. eauto.
    + destruct (http_get w API_BASE_URL sql DEFAULT_TIMEOUT)
        as [status text json|e];
        try (rewrite transport_except_run; discriminate).
      destruct (response_ok status) eqn:Hok;
        try (rewrite transport_except_run; discriminate).
      destruct json as [v|e];
        try (rewrite transport_except_run; discriminate).
      intros H. injection H as <- <-. eauto 6.
  - intros (Hsql & -> & H). apply is_empty_false in Hsql. rewrite Hsql.
    destruct use_curl; io_unfold; cbn [app]; fold (curl_argv sql path).
    + destruct H as [out ->]. reflexivity.
    + destruct H as (status & text & -> & ->). reflexivity.
Qed.

(** ** Requests and failure kinds of the public operations *)

Lemma public_except_log {A} (prefix : string) (e : exn)
    (w : world) (tr : list request) :
  snd (@public_except A prefix e w tr) = tr.
Proof. unfold public_except. destruct (is_lvmeteo_error e); reflexivity. Qed.

Lemma transport_log (w : world) (sql path : string) (use_curl : bool) :
  snd (Io.run (get_response_from_lv_data sql use_curl path) w)
  = if Text.is_empty sql then [] else [request_for sql use_curl path].
Proof.
  destruct (Text.is_empty sql) eqn:Hsql.
  - unfold get_response_from_lv_data. rewrite Hsql. reflexivity.
  - apply is_empty_false in Hsql.
    destruct (transport_sends_one_request w use_curl path Hsql) as (r & -> & _).
    reflexivity.
Qed.

Lemma create_sql_not_empty table stations parameters startdate enddate sql :
  create_lv_meteo_data_sql table stations parameters startdate enddate = Ok sql ->
  Text.is_empty sql = false.
Proof.
  unfold create_lv_meteo_data_sql, raise_new. intros H.
  destruct (Text.is_empty table); [discriminate H|].
  destruct (arg_truthy stations); [|discriminate H].
  destruct (arg_truthy parameters); [|discriminate H]. simpl in H.
  destruct startdate as [sd|v]; [|discriminate H].
  destruct enddate as [ed|v]; [|discriminate H].
  destruct (Datetime.ge sd ed) as [[|]|]; try discriminate H.
  injection H as <-. reflexivity.
Qed.

(** X6. [get_fromsql] sends no request for the empty SQL string, which
    it refuses with the [ValidationError] of the transport, unchanged;
    for any other string it sends exactly one request, whatever happens
    afterwards: nothing is retried. *)
Theorem requests_of_get_fromsql
    {lib : PandasLib} (w : world) (sql : string)
    (fieldmap : option (list (string * string))) (index_col : option string)
    (use_curl : bool) (path : string) :
  snd (Io.run (get_fromsql sql fieldmap index_col use_curl path) w)
  = (if Text.is_empty sql then [] else [request_for sql use_curl path])
  /\ (Text.is_empty sql = true ->
      fst (Io.run (get_fromsql sql fieldmap index_col use_curl path) w)
      = Raise (Exn ValidationError "SQL query cannot be empty" None)).
Proof.
  split.
  - rewrite <- (transport_log w sql path use_curl).
    unfold get_fromsql. io_unfold.
    destruct (get_response_from_lv_data sql use_curl path w [])
      as [[envelope|e] tr]; cbn [snd].
    + destruct (sql_frame_of_envelope fieldmap index_col envelope);
        [reflexivity | apply public_except_log].
    + apply public_except_log.
  - intros Hsql. unfold get_fromsql, get_response_from_lv_data.
    rewrite Hsql. reflexivity.
Qed.

(** X7. [get_lv_meteo_data] sends no request when the query builder
    raises, and otherwise exactly one, which carries the SQL string the
    builder returned. *)
Theorem requests_of_get_lv_meteo_data
    {lib : PandasLib} (w : world) (table : string)
    (stations parameters : str_or_list) (startdate enddate : date_arg)
    (use_curl : bool) (path : string) :
  snd (Io.run (get_lv_meteo_data table stations parameters startdate enddate
                 use_curl path) w)
  = match create_lv_meteo_data_sql table stations parameters
            startdate enddate with
    | Ok sql => [request_for sql use_curl path]
    | Raise _ => []
    end.
Proof.
  unfold get_lv_meteo_data. io_unfold.
  destruct (create_lv_meteo_data_sql table stations parameters startdate enddate)
    as [sql|e] eqn:Hsql.
  - pose proof (transport_log w sql path use_curl) as Hlog.
    rewrite (create_sql_not_empty _ _ _ _ _ Hsql) in Hlog.
    unfold Io.run in Hlog.
    destruct (get_response_from_lv_data sql use_curl path w [])
      as [[envelope|e] tr]; cbn [snd] in *.
    + destruct (meteo_frame_of_envelope envelope); cbn [snd];
        [exact Hlog | now rewrite public_except_log].
    + now rewrite public_except_log.
  - apply public_except_log.
Qed.

(** X8. Whatever [get_fromsql] or [get_lv_meteo_data] raises is a
    [ValidationError], an [APIError] or a [DataNotFoundError]: no other
    exception leaves a public operation. *)
Theorem public_operations_raise_only_library_errors
    {lib : PandasLib} (w : world) (use_curl : bool) (path : string) :
  (forall sql fieldmap index_col,
      match fst (Io.run (get_fromsql sql fieldmap index_col use_curl path) w) with
      | Ok _ => True
      | Raise e => is_lvmeteo_error e = true
      end)
  /\ (forall table stations parameters startdate enddate,
         match fst (Io.run (get_lv_meteo_data table stations parameters
                              startdate enddate use_curl path) w) with
         | Ok _ => True
         | Raise e => is_lvmeteo_error e = true
         end).
Proof.
  split.
  - intros sql fieldmap index_col.
    destruct (Io.run (get_fromsql sql fieldmap index_col use_curl path) w)
      as [[df|e] tr] eqn:Hrun; cbn [fst]; [exact I|].
    exact (get_fromsql_raises_library_errors _ _ _ _ _ _ Hrun).
  - intros table stations parameters startdate enddate.
    destruct (Io.run (get_lv_meteo_data table stations parameters
                        startdate enddate use_curl path) w)
      as [[df|e] tr] eqn:Hrun; cbn [fst]; [exact I|].
    exact (get_lv_meteo_data_raises_library_errors _ _ _ _ _ _ _ _ Hrun).
Qed.

(** ** Envelopes the operations refuse or return empty *)

Section EnvelopeEdges.
Context {lib : PandasLib}.

Lemma get_fromsql_frame w sql fieldmap index_col use_curl path envelope tr r :
  Io.run (get_response_from_lv_data sql use_curl path) w = (Ok envelope, tr) ->
  sql_frame_of_envelope fieldmap index_col envelope = r ->
  Io.run (get_fromsql sql fieldmap index_col use_curl path) w
  = match r with
    | Ok df => (Ok df, tr)
    | Raise e => public_except "Unexpected error executing SQL query: " e w tr
    end.
Proof. intros Hrun <-. now apply get_fromsql_after_transport. Qed.

Lemma get_lv_meteo_data_frame
    w table stations parameters startdate enddate use_curl path sql envelope tr r :
  create_lv_meteo_data_sql table stations parameters startdate enddate = Ok sql ->
  Io.run (get_response_from_lv_data sql use_curl path) w = (Ok envelope, tr) ->
  meteo_frame_of_envelope envelope = r ->
  Io.run (get_lv_meteo_data table stations parameters startdate enddate
            use_curl path) w
  = match r with
    | Ok df => (Ok df, tr)
    | Raise e =>
        public_except "Unexpected error processing meteorological data: " e w tr
    end.
Proof.
  intros Hsql Hrun <-. now apply get_lv_meteo_data_after_transport with sql.
Qed.

End EnvelopeEdges.

(** X9. An envelope whose [success] member is absent or falsy makes both
    operations raise an [APIError] that carries the [error] member, or
    the text [Unknown error] when there is none; it has no cause, and it
    is not wrapped. *)
Theorem unsuccessful_envelope_is_api_error
    {lib : PandasLib} (w : world) (sql : string) (use_curl : bool)
    (path : string) (envelope success err : pyval) (tr : list request) :
  Io.run (get_response_from_lv_data sql use_curl path) w = (Ok envelope, tr) ->
  Py.get envelope "success" (PBool false) = Ok success ->
  Py.truthy success = false ->
  Py.get envelope "error" (PStr "Unknown error") = Ok err ->
  (forall fieldmap index_col,
      Io.run (get_fromsql sql fieldmap index_col use_curl path) w
      = (Raise (Exn APIError ("SQL query failed: " ++ Pd.py_str err) None), tr))
  /\ (forall table stations parameters startdate enddate,
         create_lv_meteo_data_sql table stations parameters startdate enddate
         = Ok sql ->
         Io.run (get_lv_meteo_data table stations parameters
                   startdate enddate use_curl path) w
         = (Raise (Exn APIError
                     ("API returned unsuccessful response: " ++ Pd.py_str err)
                     None), tr)).
Proof.
  intros Hrun Hs Hf He. split.
  - intros fieldmap index_col.
    erewrite get_fromsql_frame; [|exact Hrun|reflexivity].
    unfold sql_frame_of_envelope. rewrite Hs. cbn [rbind]. rewrite Hf.
    cbn [negb]. rewrite He. reflexivity.
  - intros table stations parameters startdate enddate Hsql.
    erewrite get_lv_meteo_data_frame; [|exact Hsql|exact Hrun|reflexivity].
    unfold meteo_frame_of_envelope. rewrite Hs. cbn [rbind]. rewrite Hf.
    cbn [negb]. rewrite He. reflexivity.
Qed.

Lemma unsuccessful_envelope_is_api_error_witness :
  let envelope := PDict [("error", PStr "syntax error at SELEC")] in
  Io.run (get_fromsql (lib := Sample.lib) "SELEC 1" None None false "curl")
    (Sample.answering envelope)
  = (Raise (Exn APIError
              ("SQL query failed: "
               ++ Pd.py_str (lib := Sample.lib) (PStr "syntax error at SELEC"))
              None),
     [HttpGet API_BASE_URL "SELEC 1" DEFAULT_TIMEOUT]).
Proof.
  pose (envelope := PDict [("error", PStr "syntax error at SELEC")]).
  destruct (@unsuccessful_envelope_is_api_error Sample.lib
              (Sample.answering envelope) "SELEC 1" false "curl"
              envelope (PBool false) (PStr "syntax error at SELEC")
              [HttpGet API_BASE_URL "SELEC 1" DEFAULT_TIMEOUT]
              eq_refl eq_refl eq_refl eq_refl) as [Hsql _].
  exact (Hsql None None).
Defined.

(** X10. [DataNotFoundError] is decided by the truth value of [result]:
    a successful envelope whose [result] is present but falsy, such as
    [null] or the empty object, raises it as an absent one does. *)
Theorem falsy_result_is_not_found
    {lib : PandasLib} (w : world) (sql : string) (use_curl : bool)
    (path : string) (envelope success res : pyval) (tr : list request) :
  Io.run (get_response_from_lv_data sql use_curl path) w = (Ok envelope, tr) ->
  Py.get envelope "success" (PBool false) = Ok success ->
  Py.truthy success = true ->
  Py.get envelope "result" PNone = Ok res ->
  Py.truthy res = false ->
  (forall fieldmap index_col,
      Io.run (get_fromsql sql fieldmap index_col use_curl path) w
      = (Raise (Exn DataNotFoundError
                  "No result data returned from SQL query" None), tr))
  /\ (forall table stations parameters startdate enddate,
         create_lv_meteo_data_sql table stations parameters startdate enddate
         = Ok sql ->
         Io.run (get_lv_meteo_data table stations parameters
                   startdate enddate use_curl path) w
         = (Raise (Exn DataNotFoundError
                     "No result data returned from API" None), tr)).
Proof.
  intros Hrun Hs Ht Hr Hf. split.
  - intros fieldmap index_col.
    erewrite get_fromsql_frame; [|exact Hrun|reflexivity].
    unfold sql_frame_of_envelope. rewrite Hs. cbn [rbind]. rewrite Ht.
    cbn [negb]. rewrite Hr. cbn [rbind]. rewrite Hf. reflexivity.
  - intros table stations parameters startdate enddate Hsql.
    erewrite get_lv_meteo_data_frame; [|exact Hsql|exact Hrun|reflexivity].
    unfold meteo_frame_of_envelope. rewrite Hs. cbn [rbind]. rewrite Ht.
    cbn [negb]. rewrite Hr. cbn [rbind]. rewrite Hf. reflexivity.
Qed.

Lemma falsy_result_is_not_found_witness :
  let envelope := PDict [("success", PBool true); ("result", PDict [])] in
  Io.run (get_fromsql (lib := Sample.lib) "SELECT 1" None None false "curl")
    (Sample.answering envelope)
  = (Raise (Exn DataNotFoundError
              "No result data returned from SQL query" None),
     [HttpGet API_BASE_URL "SELECT 1" DEFAULT_TIMEOUT]).
Proof.
  pose (envelope := PDict [("success", PBool true); ("result", PDict [])]).
  destruct (@falsy_result_is_not_found Sample.lib
              (Sample.answering envelope) "SELECT 1" false "curl"
              envelope (PBool true) (PDict [])
              [HttpGet API_BASE_URL "SELECT 1" DEFAULT_TIMEOUT]
              eq_refl eq_refl eq_refl eq_refl eq_refl) as [Hsql _].
  exact (Hsql None None).
Defined.

(** X11. The empty table is decided by the truth value of [records]: a
    successful envelope with a result object that has no [records]
    member, or a falsy one such as [null], gives the empty table from
    both operations, and [fields] is not looked at. *)
Theorem falsy_records_is_empty_table
    {lib : PandasLib} (w : world) (sql : string) (use_curl : bool)
    (path : string) (envelope success res records : pyval)
    (tr : list request) :
  Io.run (get_response_from_lv_data sql use_curl path) w = (Ok envelope, tr) ->
  Py.get envelope "success" (PBool false) = Ok success ->
  Py.truthy success = true ->
  Py.get envelope "result" PNone = Ok res ->
  Py.truthy res = true ->
  Py.get res "records" (PList []) = Ok records ->
  Py.truthy records = false ->
  (forall fieldmap index_col,
      Io.run (get_fromsql sql fieldmap index_col use_curl path) w
      = (Ok Pd.empty_frame, tr))
  /\ (forall table stations parameters startdate enddate,
         create_lv_meteo_data_sql table stations parameters startdate enddate
         = Ok sql ->
         Io.run (get_lv_meteo_data table stations parameters
                   startdate enddate use_curl path) w
         = (Ok Pd.empty_frame, tr)).
Proof.
  intros Hrun Hs Ht Hr Hrt Hrec Hf. split.
  - intros fieldmap index_col.
    erewrite get_fromsql_frame; [|exact Hrun|reflexivity].
    unfold sql_frame_of_envelope. rewrite Hs. cbn [rbind]. rewrite Ht.
    cbn [negb]. rewrite Hr. cbn [rbind]. rewrite Hrt. cbn [negb].
    rewrite Hrec. cbn [rbind]. rewrite Hf. reflexivity.
  - intros table stations parameters startdate enddate Hsql.
    erewrite get_lv_meteo_data_frame; [|exact Hsql|exact Hrun|reflexivity].
    unfold meteo_frame_of_envelope. rewrite Hs. cbn [rbind]. rewrite Ht.
    cbn [negb]. rewrite Hr. cbn [rbind]. rewrite Hrt. cbn [negb].
    rewrite Hrec. cbn [rbind]. rewrite Hf. reflexivity.
Qed.

Lemma falsy_records_is_empty_table_witness :
  let envelope :=
    PDict [("success", PBool true); ("result", PDict [("total", PInt 0)])] in
  Io.run (get_fromsql (lib := Sample.lib) "SELECT 1" None None false "curl")
    (Sample.answering envelope)
  = (Ok Pd.empty_frame, [HttpGet API_BASE_URL "SELECT 1" DEFAULT_TIMEOUT]).
Proof.
  pose (envelope :=
          PDict [("success", PBool true); ("result", PDict [("total", PInt 0)])]).
  destruct (@falsy_records_is_empty_table Sample.lib
              (Sample.answering envelope) "SELECT 1" false "curl"
              envelope (PBool true) (PDict [("total", PInt 0)]) (PList [])
              [HttpGet API_BASE_URL "SELECT 1" DEFAULT_TIMEOUT]
              eq_refl eq_refl eq_refl eq_refl eq_refl eq_refl eq_refl)
    as [Hsql _].
  exact (Hsql None None).
Defined.

(** X12. A decoded answer that is not a JSON object has no [get]: both
    operations raise an [APIError] from the [AttributeError]. *)
Theorem non_object_envelope_is_api_error
    {lib : PandasLib} (w : world) (sql : string) (use_curl : bool)
    (path : string) (envelope : pyval) (tr : list request) :
  Io.run (get_response_from_lv_data sql use_curl path) w = (Ok envelope, tr) ->
  is_dict envelope = false ->
  let attribute_error :=
    Exn (Builtin "AttributeError")
      ("'" ++ Py.type_name envelope ++ "' object has no attribute 'get'") None in
  (forall fieldmap index_col,
      Io.run (get_fromsql sql fieldmap index_col use_curl path) w
      = (Raise (Exn APIError
                  ("Unexpected error executing SQL query: "
                   ++ exn_str attribute_error)
                  (Some attribute_error)), tr))
  /\ (forall table stations parameters startdate enddate,
         create_lv_meteo_data_sql table stations parameters startdate enddate
         = Ok sql ->
         Io.run (get_lv_meteo_data table stations parameters
                   startdate enddate use_curl path) w
         = (Raise (Exn APIError
                     ("Unexpected error processing meteorological data: "
                      ++ exn_str attribute_error)
                     (Some attribute_error)), tr)).
Proof.
  intros Hrun Hd attribute_error.
  assert (Hget : Py.get envelope "success" (PBool false) = Raise attribute_error).
  { destruct envelope; try discriminate Hd; reflexivity. }
  split.
  - intros fieldmap index_col.
    erewrite get_fromsql_frame; [|exact Hrun|reflexivity].
    unfold sql_frame_of_envelope. rewrite Hget. reflexivity.
  - intros table stations parameters startdate enddate Hsql.
    erewrite get_lv_meteo_data_frame; [|exact Hsql|exact Hrun|reflexivity].
    unfold meteo_frame_of_envelope. rewrite Hget. reflexivity.
Qed.

Lemma non_object_envelope_is_api_error_witness :
  let attribute_error :=
    Exn (Builtin "AttributeError")
      ("'" ++ Py.type_name (PList []) ++ "' object has no attribute 'get'") None in
  Io.run (get_fromsql (lib := Sample.lib) "SELECT 1" None None false "curl")
    (Sample.answering (PList []))
  = (Raise (Exn APIError
              ("Unexpected error executing SQL query: "
               ++ exn_str attribute_error)
              (Some attribute_error)),
     [HttpGet API_BASE_URL "SELECT 1" DEFAULT_TIMEOUT]).
Proof.
  destruct (@non_object_envelope_is_api_error Sample.lib
              (Sample.answering (PList [])) "SELECT 1" false "curl"
              (PList []) [HttpGet API_BASE_URL "SELECT 1" DEFAULT_TIMEOUT]
              eq_refl eq_refl) as [Hsql _].
  exact (Hsql None None).
Defined.

(** X13. A successful envelope with a non-empty list of records but no
    [fields] member fails on [result['fields']]: both operations raise an
    [APIError] from the [KeyError], whatever the records are. *)
Theorem missing_fields_is_api_error
    {lib : PandasLib} (w : world) (sql : string) (use_curl : bool)
    (path : string) (envelope : pyval) (r : pydict)
    (first : pyval) (others : list pyval) (tr : list request) :
  Io.run (get_response_from_lv_data sql use_curl path) w = (Ok envelope, tr) ->
  envelope_success envelope = true ->
  envelope_result envelope = Some (PDict r) ->
  Py.lookup "records" r = Some (PList (first :: others)) ->
  Py.lookup "fields" r = None ->
  let key_error := Exn (Builtin "KeyError") "'fields'" None in
  (forall fieldmap index_col,
      Io.run (get_fromsql sql fieldmap index_col use_curl path) w
      = (Raise (Exn APIError
                  ("Unexpected error executing SQL query: " ++ "'fields'")
                  (Some key_error)), tr))
  /\ (forall table stations parameters startdate enddate,
         create_lv_meteo_data_sql table stations parameters startdate enddate
         = Ok sql ->
         Io.run (get_lv_meteo_data table stations parameters
                   startdate enddate use_curl path) w
         = (Raise (Exn APIError
                     ("Unexpected error processing meteorological data: "
                      ++ "'fields'")
                     (Some key_error)), tr)).
Proof.
  intros Hrun Hs Hr Hrec Hfields key_error.
  assert (Htruthy : Py.truthy (PDict r) = true).
  { destruct r; [discriminate Hrec | reflexivity]. }
  split.
  - intros fieldmap index_col.
    erewrite get_fromsql_frame; [|exact Hrun|reflexivity].
    unfold sql_frame_of_envelope.
    rewrite (success_get _ Hs). cbn [rbind Py.truthy negb].
    rewrite (result_get _ Hs), Hr. cbn [rbind]. rewrite Htruthy.
    cbn [negb Py.get]. rewrite Hrec. cbn [rbind Py.truthy negb Py.len Py.getitem].
    rewrite Hfields. reflexivity.
  - intros table stations parameters startdate enddate Hsql.
    erewrite get_lv_meteo_data_frame; [|exact Hsql|exact Hrun|reflexivity].
    unfold meteo_frame_of_envelope.
    rewrite (success_get _ Hs). cbn [rbind Py.truthy negb].
    rewrite (result_get _ Hs), Hr. cbn [rbind]. rewrite Htruthy.
    cbn [negb Py.get]. rewrite Hrec. cbn [rbind Py.truthy negb Py.len Py.getitem].
    rewrite Hfields. reflexivity.
Qed.

Lemma missing_fields_is_api_error_witness :
  let envelope :=
    PDict [("success", PBool true);
           ("result", PDict [("records", PList [PDict [("VALUE", PStr "1")]])])] in
  let key_error := Exn (Builtin "KeyError") "'fields'" None in
  Io.run (get_fromsql (lib := Sample.lib) "SELECT 1" None None false "curl")
    (Sample.answering envelope)
  = (Raise (Exn APIError
              ("Unexpected error executing SQL query: " ++ "'fields'")
              (Some key_error)),
     [HttpGet API_BASE_URL "SELECT 1" DEFAULT_TIMEOUT]).
Proof.
  pose (r := [("records", PList [PDict [("VALUE", PStr "1")]])]).
  pose (envelope := PDict [("success", PBool true); ("result", PDict r)]).
  destruct (@missing_fields_is_api_error Sample.lib
              (Sample.answering envelope) "SELECT 1" false "curl"
              envelope r (PDict [("VALUE", PStr "1")]) []
              [HttpGet API_BASE_URL "SELECT 1" DEFAULT_TIMEOUT]
              eq_refl eq_refl eq_refl eq_refl eq_refl) as [Hsql _].
  exact (Hsql None None).
Defined.

(** ** Dicts as association lists *)

Lemma lookup_app_none {A} (k : string) (d1 d2 : list (string * A)) :
  Py.lookup k d1 = None -> Py.lookup k (d1 ++ d2)%list = Py.lookup k d2.
Proof.
  induction d1 as [|[k' v'] d1 IH]; simpl; [reflexivity|].
  destruct (k =? k')%string; [discriminate | exact IH].
Qed.

Lemma store_fresh {A} (k : string) (v : A) (d : list (string * A)) :
  Py.lookup k d = None -> Py.store k v d = (d ++ [(k, v)])%list.
Proof.
  induction d as [|[k' v'] d IH]; simpl; [reflexivity|].
  destruct (k =? k')%string; [discriminate|]. intros H. now rewrite IH.
Qed.

Lemma lookup_none_not_in {A} (k : string) (d : list (string * A)) :
  Py.lookup k d = None <-> ~ In k (map fst d).
Proof.
  induction d as [|[k' v'] d IH]; simpl.
  - split; [intros _ [] | reflexivity].
  - destruct (k =? k')%string eqn:E.
    + apply String.eqb_eq in E. subst. split; [discriminate | intros H].
      exfalso. apply H. now left.
    + apply String.eqb_neq in E. rewrite IH. split.
      * intros H [H'|H']; [congruence | contradiction].
      * intros H H'. apply H. now right.
Qed.

Lemma lookup_in_nodup {A} (k : string) (v : A) (d : list (string * A)) :
  NoDup (map fst d) -> In (k, v) d -> Py.lookup k d = Some v.
Proof.
  induction d as [|[k' v'] d IH]; simpl; [intros _ []|].
  intros Hnd [Heq|Hin].
  - injection Heq as -> ->. now rewrite String.eqb_refl.
  - inversion Hnd as [|? ? Hnot Hnd']; subst.
    destruct (k =? k')%string eqn:E.
    + apply String.eqb_eq in E. subst. exfalso. apply Hnot.
      change k' with (fst (k', v)). now apply in_map.
    + now apply IH.
Qed.

Lemma lookup_some_in {A} (k : string) (v : A) (d : list (string * A)) :
  Py.lookup k d = Some v -> In (k, v) d.
Proof.
  induction d as [|[k' v'] d IH]; simpl; [discriminate|].
  destruct (k =? k')%string eqn:E.
  - apply String.eqb_eq in E. subst. intros H. injection H as ->. now left.
  - intros H. right. now apply IH.
Qed.

Lemma lookup_map_key {A} (f : string -> A) (c : string) (keys : list string) :
  In c keys -> Py.lookup c (map (fun k => (k, f k)) keys) = Some (f c).
Proof.
  induction keys as [|k keys IH]; simpl; [intros []|].
  destruct (c =? k)%string eqn:E.
  - apply String.eqb_eq in E. now subst.
  - apply String.eqb_neq in E. intros [H|H]; [congruence | now apply IH].
Qed.

Lemma existsb_eqb_in (c : string) (l : list string) :
  existsb (String.eqb c) l = true <-> In c l.
Proof.
  rewrite existsb_exists. split.
  - intros (x & Hin & E). apply String.eqb_eq in E. now subst.
  - intros H. exists c. split; [exact H | apply String.eqb_refl].
Qed.

(** ** The column map and its inverse *)

Lemma inv_dict_from (column_dict acc : list (string * string)) :
  NoDup (map snd column_dict) ->
  (forall v, In v (map snd column_dict) -> Py.lookup v acc = None) ->
  fold_left (fun d kv => Py.store (snd kv) (fst kv) d) column_dict acc
  = (acc ++ swap_pairs column_dict)%list.
Proof.
  revert acc. induction column_dict as [|[k v] cd IH]; intros acc Hnd Hfresh.
  - simpl. now rewrite app_nil_r.
  - inversion Hnd as [|? ? Hnot Hnd']; subst. cbn [fold_left fst snd].
    rewrite store_fresh by (apply Hfresh; now left).
    rewrite IH; [now rewrite <- app_assoc | exact Hnd' |].
    intros v' Hv'. rewrite lookup_app_none by (apply Hfresh; now right).
    simpl. destruct (v' =? v)%string eqn:E; [|reflexivity].
    apply String.eqb_eq in E. subst. contradiction.
Qed.

Lemma inv_dict_swap (column_dict : list (string * string)) :
  NoDup (map snd column_dict) ->
  inv_dict column_dict = swap_pairs column_dict.
Proof.
  intros Hnd. unfold inv_dict. now rewrite inv_dict_from.
Qed.

Lemma swap_pairs_keys (column_dict : list (string * string)) :
  map fst (swap_pairs column_dict) = map snd column_dict.
Proof. unfold swap_pairs. rewrite map_map. reflexivity. Qed.

(** X14. For a column map with distinct friendly names and distinct API
    names, the dict that [records_to_dataframe] renames with is its
    inverse: it sends an API name to a friendly name exactly when the
    map sends the friendly name to the API name. *)
Theorem inv_dict_inverts_column_map
    (column_dict : list (string * string)) (friendly api : string) :
  NoDup (map fst column_dict) ->
  NoDup (map snd column_dict) ->
  Py.lookup friendly column_dict = Some api
  <-> Py.lookup api (inv_dict column_dict) = Some friendly.
Proof.
  intros Hk Hv. rewrite (inv_dict_swap _ Hv). split; intros H.
  - apply lookup_in_nodup; [now rewrite swap_pairs_keys|].
    apply lookup_some_in in H. unfold swap_pairs.
    change (api, friendly) with ((fun kv : string * string => (snd kv, fst kv))
                                   (friendly, api)).
    now apply in_map.
  - apply lookup_some_in in H. unfold swap_pairs in H.
    apply in_map_iff in H as ([k v] & Heq & Hin). injection Heq as <- <-.
    now apply lookup_in_nodup.
Qed.

Ltac nodup_strings :=
  repeat (constructor; [simpl; intuition discriminate|]); constructor.

Lemma config_column_maps_are_one_to_one :
  (NoDup (map fst STATION_COLUMNS) /\ NoDup (map snd STATION_COLUMNS))
  /\ (NoDup (map fst DATA_COLUMNS) /\ NoDup (map snd DATA_COLUMNS))
  /\ (NoDup (map fst PARAM_COLUMNS) /\ NoDup (map snd PARAM_COLUMNS)).
Proof. repeat split; nodup_strings. Qed.

Lemma inv_dict_inverts_column_map_witness :
  (Py.lookup "longitude" STATION_COLUMNS = Some "GEOGR1"
   <-> Py.lookup "GEOGR1" (inv_dict STATION_COLUMNS) = Some "longitude")
  /\ (Py.lookup "date" DATA_COLUMNS = Some "DATETIME"
      <-> Py.lookup "DATETIME" (inv_dict DATA_COLUMNS) = Some "date")
  /\ (Py.lookup "param_id" PARAM_COLUMNS = Some "ABBREVIATION"
      <-> Py.lookup "ABBREVIATION" (inv_dict PARAM_COLUMNS) = Some "param_id").
Proof.
  split; [|split].
  - apply (@inv_dict_inverts_column_map STATION_COLUMNS "longitude" "GEOGR1");
      nodup_strings.
  - apply (@inv_dict_inverts_column_map DATA_COLUMNS "date" "DATETIME");
      nodup_strings.
  - apply (@inv_dict_inverts_column_map PARAM_COLUMNS "param_id" "ABBREVIATION");
      nodup_strings.
Defined.

(** ** Column selection *)

(** The row that the dict comprehension builds from a record. *)
Lemma select_keys_from (cols : list string) (d acc : pydict) :
  NoDup cols ->
  (forall k, In k cols -> Py.lookup k acc = None) ->
  select_keys cols (PDict d) acc
  = Ok (acc ++ map (fun k => (k, get_or_None d k)) cols)%list.
Proof.
  revert acc. induction cols as [|k cols IH]; intros acc Hnd Hfresh.
  - simpl. now rewrite app_nil_r.
  - inversion Hnd as [|? ? Hnot Hnd']; subst.
    cbn [select_keys Py.get rbind]. fold (get_or_None d k).
    rewrite store_fresh by (apply Hfresh; now left).
    rewrite IH; [cbn [map]; now rewrite <- app_assoc | exact Hnd' |].
    intros k' Hk'. rewrite lookup_app_none by (apply Hfresh; now right).
    simpl. destruct (k' =? k)%string eqn:E; [|reflexivity].
    apply String.eqb_eq in E. subst. contradiction.
Qed.

Lemma select_rows_dicts_are (cols : list string) (ds : list pydict) :
  NoDup cols ->
  select_rows cols (map PDict ds)
  = Ok (map (fun d => map (fun k => (k, get_or_None d k)) cols) ds).
Proof.
  intros Hnd. induction ds as [|d ds IH]; [reflexivity|].
  cbn [map select_rows]. rewrite select_keys_from by (auto; reflexivity).
  cbn [rbind app]. rewrite IH. reflexivity.
Qed.





Section Selection.
Context {lib : PandasLib}.



End Selection.



(** ** Keys a record lacks *)

Lemma add_keys_in {A} (c : string) (row : list (string * A)) (seen : list string) :
  In c (fold_left
          (fun seen' kv =>
             if existsb (String.eqb (fst kv)) seen' then seen'
             else (seen' ++ [fst kv])%list)
          row seen)
  <-> In c seen \/ In c (map fst row).
Proof.
  revert seen. induction row as [|[k v] row IH]; intros seen; cbn [fold_left map fst].
  - simpl. tauto.
  - rewrite IH. destruct (existsb (String.eqb k) seen) eqn:Hk.
    + apply existsb_eqb_in in Hk. simpl. split; [tauto|].
      intros [H|[<-|H]]; tauto.
    + rewrite in_app_iff. simpl. tauto.
Qed.

Lemma union_keys_in (c : string) (rows : list pydict) :
  In c (Pd.union_keys rows) <-> exists row, In row rows /\ In c (map fst row).
Proof.
  unfold Pd.union_keys.
  assert (H : forall seen,
             In c (fold_left
                     (fun seen0 row =>
                        fold_left
                          (fun seen' kv =>
                             if existsb (String.eqb (fst kv)) seen' then seen'
                             else (seen' ++ [fst kv])%list)
                          row seen0)
                     rows seen)
             <-> In c seen \/ exists row, In row rows /\ In c (map fst row)).
  { induction rows as [|row rows IH]; intros seen; cbn [fold_left].
    - split; [tauto | intros [H|(row & [] & _)]; exact H].
    - rewrite IH, add_keys_in. split.
      + intros [[H|H]|(row' & Hin & Hc)]; [tauto | right | right].
        * exists row. split; [now left | exact H].
        * exists row'. split; [now right | exact Hc].
      + intros [H|(row' & [<-|Hin] & Hc)]; [tauto | tauto | right].
        exists row'. tauto. }
  rewrite H. split; [intros [[]|H']; exact H' | tauto].
Qed.

Lemma as_dicts_of_dicts (ds : list pydict) :
  Pd.as_dicts (map PDict ds) = Some ds.
Proof. induction ds as [|d ds IH]; simpl; [reflexivity | now rewrite IH]. Qed.

(** X16. A key that a record lacks. When the columns are selected
    ([columns] given, as [records_to_dataframe] does) the row that the
    dict comprehension builds for the record has the selected keys, in
    their order, and the key under the value [None], the default of
    [v.get(k)]. When the frame is built from the records as they are,
    the record is passed without the key, and the frame has the column,
    with one cell for each record, because another record has the key.
    How the column holds the cell ([None] or [nan]) is for the dtype
    that pandas infers. *)
Theorem missing_key_is_None_in_selected_row
    {lib : PandasLib} (cols : list string) (ds : list pydict)
    (c : string) (i : nat) (d other : pydict) :
  nth_error ds i = Some d ->
  Py.lookup c d = None ->
  (NoDup cols -> In c cols ->
   exists rows row,
     select_rows cols (map PDict ds) = Ok rows
     /\ nth_error rows i = Some row
     /\ map fst row = cols
     /\ Py.lookup c row = Some PNone)
  /\ (In other ds -> Py.has_key c other = true ->
      exists df0 col,
        raw_frame (PList (map PDict ds)) None = Ok df0
        /\ Pd.column c df0 = Some col
        /\ List.length col = List.length ds).
Proof.
  intros Hi Hc. split.
  - intros Hnd Hin. rewrite select_rows_dicts_are by exact Hnd.
    exists (map (fun d => map (fun k => (k, get_or_None d k)) cols) ds),
           (map (fun k => (k, get_or_None d k)) cols).
    split; [reflexivity|].
    split; [now erewrite map_nth_error by exact Hi|]. split.
    + rewrite map_map. cbn [fst]. apply map_id.
    + rewrite (lookup_map_key (get_or_None d) c cols Hin).
      unfold get_or_None. now rewrite Hc.
  - intros Hother Hkey. unfold raw_frame, Pd.DataFrame_of.
    rewrite as_dicts_of_dicts.
    assert (Hin : In c (Pd.union_keys ds)).
    { apply union_keys_in. exists other. split; [exact Hother|].
      unfold Py.has_key in Hkey.
      destruct (Py.lookup c other) as [v|] eqn:Hl; [|discriminate Hkey].
      apply lookup_some_in in Hl. change c with (fst (c, v)). now apply in_map. }
    eexists. eexists. split; [reflexivity|].
    unfold Pd.column, Pd.frame_of_dicts. cbn [data].
    rewrite (lookup_map_key
               (fun c => infer_column
                           (map (fun row => match Py.lookup c row with
                                            | Some v => CVal v
                                            | None => CVal NaN
                                            end) ds))
               c (Pd.union_keys ds) Hin).
    split; [reflexivity|]. rewrite infer_column_length. apply length_map.
Qed.

Lemma missing_key_is_None_in_selected_row_witness :
  let ds := [[("VALUE", PStr "1"); ("NOTE", PStr "ok")]; [("VALUE", PStr "2")]] in
  (exists rows row,
      select_rows ["VALUE"; "NOTE"] (map PDict ds) = Ok rows
      /\ nth_error rows 1 = Some row
      /\ map fst row = ["VALUE"; "NOTE"]
      /\ Py.lookup "NOTE" row = Some PNone)
  /\ (exists df0 col,
         raw_frame (lib := Sample.lib) (PList (map PDict ds)) None = Ok df0
         /\ Pd.column "NOTE" df0 = Some col
         /\ List.length col = List.length ds).
Proof.
  pose (ds := [[("VALUE", PStr "1"); ("NOTE", PStr "ok")]; [("VALUE", PStr "2")]]).
  destruct (@missing_key_is_None_in_selected_row Sample.lib
              ["VALUE"; "NOTE"] ds "NOTE" 1 [("VALUE", PStr "2")]
              [("VALUE", PStr "1"); ("NOTE", PStr "ok")] eq_refl eq_refl)
    as [Hsel Hraw].
  split.
  - apply Hsel; [nodup_strings | simpl; tauto].
  - apply Hraw; [simpl; tauto | reflexivity].
Defined.

(** ** Shape of the normalised table *)

(** X17. The coercion loop of [records_to_dataframe_raw] changes cell
    values only: the returned table has the labels, in the same order,
    the number of rows and the index of the frame built from the
    records, and each column keeps its length. *)
Theorem coercion_keeps_shape
    {lib : PandasLib} (fields records : pyval) (columns : option (list string))
    (df0 df : DataFrame) :
  raw_frame records columns = Ok df0 ->
  records_to_dataframe_raw fields records columns = Ok df ->
  Pd.columns df = Pd.columns df0
  /\ nrows df = nrows df0
  /\ index df = index df0
  /\ forall c col,
       Pd.column c df0 = Some col ->
       exists col', Pd.column c df = Some col'
                    /\ List.length col' = List.length col.
Proof.
  intros Hraw Hdf.
  destruct (raw_dataframe_inv _ _ _ Hdf) as (fd & df0' & _ & Hraw' & Hc & Hn & Hi).
  rewrite Hraw in Hraw'. injection Hraw' as <-.
  repeat split; try assumption.
  - exact (coerce_columns_labels _ _ Hc).
  - intros c col Hcol.
    destruct (coerce_columns_lookup _ _ _ Hc Hcol) as (col' & Hcol' & Hco).
    exists col'. split; [exact Hcol'|].
    destruct (coerce_series_total (field_type fd c) col) as (col'' & Hco' & Hlen).
    rewrite Hco in Hco'. injection Hco' as <-. exact Hlen.
Qed.

Lemma coercion_keeps_shape_witness :
  let df0 := mk_frame [("VALUE", [CVal (PStr "n/a")]);
                       ("DATETIME", [CVal (PStr "soon")])] 1 None in
  let df := mk_frame [("VALUE", [CVal NaN]); ("DATETIME", [CNaT])] 1 None in
  Pd.columns df = Pd.columns df0
  /\ nrows df = nrows df0
  /\ index df = index df0
  /\ forall c col,
       Pd.column c df0 = Some col ->
       exists col', Pd.column c df = Some col'
                    /\ List.length col' = List.length col.
Proof.
  apply (@coercion_keeps_shape Sample.lib
           Sample.typed_fields Sample.unparseable_records None);
    reflexivity.
Defined.

(** ** Envelopes with records *)

Section EnvelopesWithRecords.
Context {lib : PandasLib}.

Lemma records_of_envelope_inv (envelope fields records : pyval) :
  records_of_envelope envelope = Some (fields, records) ->
  envelope_success envelope = true
  /\ exists r first others,
       envelope_result envelope = Some (PDict r)
       /\ Py.lookup "fields" r = Some fields
       /\ Py.lookup "records" r = Some records
       /\ records = PList (first :: others).
Proof.
  unfold records_of_envelope.
  destruct (envelope_success envelope); [|discriminate].
  destruct (envelope_result envelope) as [[ | | | | | |r]|]; try discriminate.
  destruct (Py.lookup "fields" r) as [f|] eqn:Hf; [|discriminate].
  destruct (Py.lookup "records" r) as [[ | | | | |[|x l]| ]|] eqn:Hrec;
    try discriminate.
  intros H. injection H as <- <-. split; [reflexivity|].
  exists r, x, l. repeat split; [exact Hf | exact Hrec].
Qed.

Lemma sql_frame_with_records fieldmap index_col envelope fields records :
  records_of_envelope envelope = Some (fields, records) ->
  sql_frame_of_envelope fieldmap index_col envelope
  = rbind (match fieldmap with
           | Some fm => records_to_dataframe fm fields records
           | None => records_to_dataframe_raw fields records None
           end)
      (fun df =>
         match index_col with
         | Some ic =>
             if negb (Pd.empty df) && Pd.has_column ic df
             then Ok (Pd.set_index ic df)
             else Ok df
         | None => Ok df
         end).
Proof.
  intros H. apply records_of_envelope_inv in H
    as (Hs & r & x & l & Hr & Hf & Hrec & ->).
  unfold sql_frame_of_envelope.
  rewrite (success_get _ Hs). cbn [rbind Py.truthy negb].
  rewrite (result_get _ Hs), Hr. cbn [rbind].
  assert (Ht : Py.truthy (PDict r) = true)
    by (destruct r; [discriminate Hrec | reflexivity]).
  rewrite Ht. cbn [negb Py.get]. rewrite Hrec.
  cbn [rbind Py.truthy negb Py.len Py.getitem]. rewrite Hf. reflexivity.
Qed.

Lemma meteo_frame_with_records envelope fields records :
  records_of_envelope envelope = Some (fields, records) ->
  meteo_frame_of_envelope envelope
  = rbind (records_to_dataframe DATA_COLUMNS fields records) reshape.
Proof.
  intros H. apply records_of_envelope_inv in H
    as (Hs & r & x & l & Hr & Hf & Hrec & ->).
  unfold meteo_frame_of_envelope.
  rewrite (success_get _ Hs). cbn [rbind Py.truthy negb].
  rewrite (result_get _ Hs), Hr. cbn [rbind].
  assert (Ht : Py.truthy (PDict r) = true)
    by (destruct r; [discriminate Hrec | reflexivity]).
  rewrite Ht. cbn [negb Py.get]. rewrite Hrec.
  cbn [rbind Py.truthy negb Py.len Py.getitem]. rewrite Hf. reflexivity.
Qed.

End EnvelopesWithRecords.

Lemma lookup_filter_other {A} (c ic : string) (l : list (string * A)) :
  c <> ic ->
  Py.lookup c (filter (fun kv => negb (fst kv =? ic)%string) l) = Py.lookup c l.
Proof.
  intros Hne. induction l as [|[k v] l IH]; [reflexivity|]. cbn [filter fst].
  destruct (k =? ic)%string eqn:E; cbn [negb Py.lookup].
  - apply String.eqb_eq in E. subst k.
    destruct (c =? ic)%string eqn:E'; [|exact IH].
    apply String.eqb_eq in E'. contradiction.
  - now rewrite IH.
Qed.

Lemma filter_drops_label {A} (ic : string) (l : list (string * A)) :
  existsb (String.eqb ic)
    (map fst (filter (fun kv => negb (fst kv =? ic)%string) l)) = false.
Proof.
  induction l as [|[k v] l IH]; [reflexivity|]. cbn [filter fst].
  destruct (k =? ic)%string eqn:E; cbn [negb map existsb fst]; [exact IH|].
  rewrite String.eqb_sym, E. exact IH.
Qed.

Lemma column_has_column (c : string) (df : DataFrame) (col : list cell) :
  Pd.column c df = Some col -> Pd.has_column c df = true.
Proof.
  unfold Pd.column, Pd.has_column, Pd.columns. intros H.
  apply existsb_eqb_in. apply lookup_some_in in H.
  change c with (fst (c, col)). now apply in_map.
Qed.

(** X18. When [get_fromsql] has normalised the records into a table and
    an index column is asked for: a name that is not a column is ignored,
    the table is returned as it is and nothing is raised; a name that is
    a column of a non-empty table is moved to the index, so it is no
    longer a column, while the number of rows and every other column
    stay. *)
Theorem index_column_is_moved_or_ignored
    {lib : PandasLib} (w : world) (sql : string)
    (fieldmap : option (list (string * string))) (ic : string)
    (use_curl : bool) (path : string)
    (envelope fields records : pyval) (df : DataFrame) (tr : list request) :
  Io.run (get_response_from_lv_data sql use_curl path) w = (Ok envelope, tr) ->
  records_of_envelope envelope = Some (fields, records) ->
  match fieldmap with
  | Some fm => records_to_dataframe fm fields records
  | None => records_to_dataframe_raw fields records None
  end = Ok df ->
  (Pd.has_column ic df = false ->
   Io.run (get_fromsql sql fieldmap (Some ic) use_curl path) w = (Ok df, tr))
  /\ (forall col,
         Pd.column ic df = Some col -> Pd.empty df = false ->
         exists df',
           Io.run (get_fromsql sql fieldmap (Some ic) use_curl path) w
           = (Ok df', tr)
           /\ index df' = Some (ic, col)
           /\ nrows df' = nrows df
           /\ Pd.has_column ic df' = false
           /\ forall c, c <> ic -> Pd.column c df' = Pd.column c df).
Proof.
  intros Hrun Henv Hdf. split.
  - intros Hno.
    erewrite get_fromsql_frame; [|exact Hrun|reflexivity].
    rewrite (sql_frame_with_records _ _ _ Henv), Hdf. cbn [rbind].
    rewrite Hno, andb_false_r. reflexivity.
  - intros col Hcol Hne. exists (Pd.set_index ic df). split.
    + erewrite get_fromsql_frame; [|exact Hrun|reflexivity].
      rewrite (sql_frame_with_records _ _ _ Henv), Hdf. cbn [rbind].
      rewrite Hne, (column_has_column _ _ Hcol). reflexivity.
    + unfold Pd.set_index. rewrite Hcol. cbn [index nrows].
      repeat split.
      * unfold Pd.has_column, Pd.columns. cbn [data]. apply filter_drops_label.
      * intros c Hc. unfold Pd.column. cbn [data].
        now apply lookup_filter_other.
Qed.

Lemma index_column_is_moved_or_ignored_witness :
  let records := PList [PDict [("NAME", PStr "Riga"); ("ELEVATION", PInt 7)]] in
  let envelope :=
    PDict [("success", PBool true);
           ("result", PDict [("fields", Sample.name_fields);
                             ("records", records)])] in
  let df := mk_frame [("NAME", [CVal (PStr "Riga")]);
                      ("ELEVATION", [CVal (PStr "7")])] 1 None in
  let log := [HttpGet API_BASE_URL "SELECT 1" DEFAULT_TIMEOUT] in
  Io.run (get_fromsql (lib := Sample.lib) "SELECT 1" None (Some "station_id")
            false "curl") (Sample.answering envelope) = (Ok df, log)
  /\ exists df',
       Io.run (get_fromsql (lib := Sample.lib) "SELECT 1" None (Some "NAME")
                 false "curl") (Sample.answering envelope) = (Ok df', log)
       /\ index df' = Some ("NAME", [CVal (PStr "Riga")])
       /\ nrows df' = nrows df
       /\ Pd.has_column "NAME" df' = false
       /\ forall c, c <> "NAME" -> Pd.column c df' = Pd.column c df.
Proof.
  pose (records := PList [PDict [("NAME", PStr "Riga"); ("ELEVATION", PInt 7)]]).
  pose (envelope :=
          PDict [("success", PBool true);
                 ("result", PDict [("fields", Sample.name_fields);
                                   ("records", records)])]).
  pose (df := mk_frame [("NAME", [CVal (PStr "Riga")]);
                        ("ELEVATION", [CVal (PStr "7")])] 1 None).
  pose (log := [HttpGet API_BASE_URL "SELECT 1" DEFAULT_TIMEOUT]).
  split.
  - destruct (@index_column_is_moved_or_ignored Sample.lib
                (Sample.answering envelope) "SELECT 1" None "station_id"
                false "curl" envelope Sample.name_fields records df log
                eq_refl eq_refl eq_refl) as [Hignored _].
    apply Hignored. reflexivity.
  - destruct (@index_column_is_moved_or_ignored Sample.lib
                (Sample.answering envelope) "SELECT 1" None "NAME"
                false "curl" envelope Sample.name_fields records df log
                eq_refl eq_refl eq_refl) as [_ Hmoved].
    apply Hmoved; reflexivity.
Defined.

(** X19. In [get_lv_meteo_data] the guard of the reshaping steps holds
    whenever it is reached: the table normalised from a non-empty list of
    records has the [date] column and at least one row, so the reshaping
    chain always runs. The operation returns what the chain returns, and
    an exception of the chain leaves it as an [APIError] raised from
    it. *)
Theorem meteo_table_is_always_reshaped
    {lib : PandasLib} (w : world) (table : string)
    (stations parameters : str_or_list) (startdate enddate : date_arg)
    (use_curl : bool) (path sql : string)
    (envelope fields records : pyval) (df : DataFrame) (tr : list request) :
  create_lv_meteo_data_sql table stations parameters startdate enddate = Ok sql ->
  Io.run (get_response_from_lv_data sql use_curl path) w = (Ok envelope, tr) ->
  records_of_envelope envelope = Some (fields, records) ->
  records_to_dataframe DATA_COLUMNS fields records = Ok df ->
  Pd.has_column "date" df = true
  /\ Pd.empty df = false
  /\ Io.run (get_lv_meteo_data table stations parameters startdate enddate
               use_curl path) w
     = match unstack_by_station_param df with
       | LibOk wide => (Ok wide, tr)
       | LibRaise name msg =>
           (Raise (Exn APIError
                     ("Unexpected error processing meteorological data: " ++ msg)
                     (Some (Exn (Builtin name) msg None))), tr)
       end.
Proof.
  intros Hsql Hrun Henv Hdf.
  assert (Ht : Py.truthy records = true).
  { apply records_of_envelope_inv in Henv
      as (_ & r & x & l & _ & _ & _ & ->). reflexivity. }
  destruct (frame_before_reshape_has_date_and_rows _ _ Ht Hdf) as [Hdate Hrows].
  split; [exact Hdate|]. split; [exact Hrows|].
  erewrite get_lv_meteo_data_frame; [|exact Hsql|exact Hrun|reflexivity].
  rewrite (meteo_frame_with_records _ Henv), Hdf. cbn [rbind].
  unfold reshape. rewrite Hdate, Hrows. cbn [negb andb].
  destruct (unstack_by_station_param df); reflexivity.
Qed.

Lemma meteo_table_is_always_reshaped_witness :
  let records :=
    PList [PDict [("STATION_ID", PStr "A"); ("ABBREVIATION", PStr "P1");
                  ("DATETIME", PStr "2024-01-01T00:00:00");
                  ("VALUE", PStr "5")]] in
  let envelope :=
    PDict [("success", PBool true);
           ("result", PDict [("fields", Sample.typed_fields);
                             ("records", records)])] in
  let df := mk_frame [("station_id", [CVal (PStr "A")]);
                      ("param", [CVal (PStr "P1")]);
                      ("date", [CNaT]);
                      ("value", [CVal (PInt 5)])] 1 None in
  Pd.has_column "date" df = true
  /\ Pd.empty df = false
  /\ Io.run (get_lv_meteo_data (lib := Sample.lib) "T1" (Seq ["A"]) (Seq ["P1"])
               (ADatetime Sample.d1) (ADatetime Sample.d2) false "curl")
       (Sample.answering envelope)
     = match unstack_by_station_param (PandasLib := Sample.lib) df with
       | LibOk wide =>
           (Ok wide, [HttpGet API_BASE_URL Sample.scenario_sql DEFAULT_TIMEOUT])
       | LibRaise name msg =>
           (Raise (Exn APIError
                     ("Unexpected error processing meteorological data: " ++ msg)
                     (Some (Exn (Builtin name) msg None))),
            [HttpGet API_BASE_URL Sample.scenario_sql DEFAULT_TIMEOUT])
       end.
Proof.
  pose (records :=
          PList [PDict [("STATION_ID", PStr "A"); ("ABBREVIATION", PStr "P1");
                        ("DATETIME", PStr "2024-01-01T00:00:00");
                        ("VALUE", PStr "5")]]).
  pose (envelope :=
          PDict [("success", PBool true);
                 ("result", PDict [("fields", Sample.typed_fields);
                                   ("records", records)])]).
  apply (@meteo_table_is_always_reshaped Sample.lib
           (Sample.answering envelope) "T1" (Seq ["A"]) (Seq ["P1"])
           (ADatetime Sample.d1) (ADatetime Sample.d2) false "curl"
           Sample.scenario_sql envelope Sample.typed_fields records);
    reflexivity.
Defined.

(** ** Errors of the transport seen from the public operations *)

(** X20. An exception that [get_response_from_lv_data] raises reaches the
    caller of [get_fromsql] and of [get_lv_meteo_data] as the very same
    exception, with the same requests sent: the public operations add no
    wrapping of their own to a failure of the transport. *)
Theorem transport_error_reaches_caller_unchanged
    {lib : PandasLib} (w : world) (sql : string) (use_curl : bool)
    (path : string) (e : exn) (tr : list request) :
  Io.run (get_response_from_lv_data sql use_curl path) w = (Raise e, tr) ->
  (forall fieldmap index_col,
      Io.run (get_fromsql sql fieldmap index_col use_curl path) w
      = (Raise e, tr))
  /\ (forall table stations parameters startdate enddate,
         create_lv_meteo_data_sql table stations parameters startdate enddate
         = Ok sql ->
         Io.run (get_lv_meteo_data table stations parameters
                   startdate enddate use_curl path) w
         = (Raise e, tr)).
Proof.
  intros Hrun.
  assert (Hlib : is_lvmeteo_error e = true).
  { destruct (Text.is_empty sql) eqn:Hsql.
    - unfold get_response_from_lv_data in Hrun. rewrite Hsql in Hrun.
      injection Hrun as <- _. reflexivity.
    - apply is_empty_false in Hsql.
      destruct (transport_sends_one_request w use_curl path Hsql)
        as (r & Hr & Hcls).
      rewrite Hrun in Hr. injection Hr as <- _.
      destruct (Hcls e eq_refl) as (msg & cause & ->). reflexivity. }
  unfold Io.run in Hrun. split.
  - intros fieldmap index_col. unfold get_fromsql. io_unfold.
    rewrite Hrun. now apply public_except_passes.
  - intros table stations parameters startdate enddate Hsql.
    unfold get_lv_meteo_data. io_unfold. rewrite Hsql, Hrun.
    now apply public_except_passes.
Qed.

Lemma transport_error_reaches_caller_unchanged_witness :
  let refused := Exn (Builtin "ConnectionError") "connection refused" None in
  let w := mk_world (fun _ _ _ => HttpRaises refused)
                    (fun _ _ => CurlRaises refused) in
  let seen :=
    Exn APIError "Unexpected error during API request: connection refused"
      (Some refused) in
  Io.run (get_fromsql (lib := Sample.lib) "SELECT 1" None None false "curl") w
  = (Raise seen, [HttpGet API_BASE_URL "SELECT 1" DEFAULT_TIMEOUT]).
Proof.
  pose (refused := Exn (Builtin "ConnectionError") "connection refused" None).
  pose (w := mk_world (fun _ _ _ => HttpRaises refused)
                      (fun _ _ => CurlRaises refused)).
  destruct (@transport_error_reaches_caller_unchanged Sample.lib w "SELECT 1"
              false "curl"
              (Exn APIError
                 "Unexpected error during API request: connection refused"
                 (Some refused))
              [HttpGet API_BASE_URL "SELECT 1" DEFAULT_TIMEOUT] eq_refl)
    as [Hsql _].
  exact (Hsql None None).
Defined.

(** ** The normalised table is rectangular *)

Lemma nodup_snoc {A} (l : list A) (a : A) :
  NoDup l -> ~ In a l -> NoDup (l ++ [a]).
Proof.
  induction l as [|x l IH]; intros Hnd Hnot; simpl.
  - constructor; [intros [] | constructor].
  - inversion Hnd as [|? ? Hx Hl]; subst. constructor.
    + rewrite in_app_iff. simpl. intros [H|[H|[]]]; [contradiction|].
      apply Hnot. now left.
    + apply IH; [exact Hl|]. intros H. apply Hnot. now right.
Qed.

Lemma add_keys_nodup {A} (row : list (string * A)) (seen : list string) :
  NoDup seen ->
  NoDup (fold_left
           (fun seen' kv =>
              if existsb (String.eqb (fst kv)) seen' then seen'
              else (seen' ++ [fst kv])%list)
           row seen).
Proof.
  revert seen. induction row as [|[k v] row IH]; intros seen Hnd; [exact Hnd|].
  cbn [fold_left fst]. apply IH.
  destruct (existsb (String.eqb k) seen) eqn:Hk; [exact Hnd|].
  apply nodup_snoc; [exact Hnd|]. intros Hin.
  apply existsb_eqb_in in Hin. congruence.
Qed.

Lemma union_keys_nodup (rows : list pydict) : NoDup (Pd.union_keys rows).
Proof.
  unfold Pd.union_keys.
  assert (H : forall seen,
             NoDup seen ->
             NoDup (fold_left
                      (fun seen0 (row : pydict) =>
                         fold_left
                           (fun seen' kv =>
                              if existsb (String.eqb (fst kv)) seen' then seen'
                              else (seen' ++ [fst kv])%list)
                           row seen0)
                      rows seen)).
  { induction rows as [|row rows IH]; intros seen Hnd; [exact Hnd|].
    cbn [fold_left]. apply IH. now apply add_keys_nodup. }
  apply H. constructor.
Qed.

Section Rectangular.
Context {lib : PandasLib}.

Lemma frame_of_dicts_rectangular (rows : list pydict) :
  NoDup (Pd.columns (Pd.frame_of_dicts rows))
  /\ forall c col,
       Pd.column c (Pd.frame_of_dicts rows) = Some col ->
       List.length col = List.length rows.
Proof.
  unfold Pd.columns, Pd.column, Pd.frame_of_dicts. cbn [data]. split.
  - rewrite map_map. cbn [fst]. rewrite map_id. apply union_keys_nodup.
  - intros c col H. apply lookup_some_in in H.
    apply in_map_iff in H as (c' & Heq & _). injection Heq as _ <-.
    rewrite infer_column_length. apply length_map.
Qed.

Lemma select_rows_length (cols : list string) (items : list pyval)
    (rows : list pydict) :
  select_rows cols items = Ok rows -> List.length rows = List.length items.
Proof.
  revert rows. induction items as [|v items IH]; intros rows H.
  - injection H as <-. reflexivity.
  - cbn [select_rows] in H.
    destruct (select_keys cols v []); [|discriminate H]. cbn [rbind] in H.
    destruct (select_rows cols items) as [rest|]; [|discriminate H].
    injection H as <-. simpl. now rewrite (IH rest eq_refl).
Qed.

Lemma raw_frame_of_dicts (ds : list pydict) (columns : option (list string))
    (df0 : DataFrame) :
  raw_frame (PList (map PDict ds)) columns = Ok df0 ->
  exists rows, df0 = Pd.frame_of_dicts rows /\ List.length rows = List.length ds.
Proof.
  unfold raw_frame. destruct columns as [cols|].
  - cbn [Py.iter rbind].
    destruct (select_rows cols (map PDict ds)) as [rows|] eqn:Hrows;
      [|discriminate].
    intros H. injection H as <-. exists rows. split; [reflexivity|].
    rewrite (select_rows_length _ _ Hrows). apply length_map.
  - unfold Pd.DataFrame_of. rewrite as_dicts_of_dicts.
    intros H. injection H as <-. exists ds. auto.
Qed.

End Rectangular.

(** X21. The table that [records_to_dataframe_raw] returns for records
    that are dicts is rectangular: it has one row per record, its column
    labels are distinct, and every column holds exactly one cell per
    row, with or without a column selection. *)
Theorem normalised_table_is_rectangular
    {lib : PandasLib} (fields : pyval) (ds : list pydict)
    (columns : option (list string)) (df : DataFrame) :
  records_to_dataframe_raw fields (PList (map PDict ds)) columns = Ok df ->
  nrows df = List.length ds
  /\ NoDup (Pd.columns df)
  /\ forall c col, Pd.column c df = Some col -> List.length col = nrows df.
Proof.
  intros Hdf.
  destruct (raw_dataframe_inv _ _ _ Hdf) as (fd & df0 & _ & Hraw & Hc & Hn & _).
  destruct (raw_frame_of_dicts _ _ Hraw) as (rows & -> & Hlen).
  destruct (frame_of_dicts_rectangular rows) as [Hnd Hcols].
  pose proof (coerce_columns_labels _ _ Hc) as Hlabels.
  assert (Hrows : nrows df = List.length ds).
  { rewrite Hn. cbn [nrows Pd.frame_of_dicts]. exact Hlen. }
  split; [exact Hrows|]. split.
  - unfold Pd.columns in *. now rewrite Hlabels.
  - intros c col' Hcol'.
    assert (Hin : In c (map fst (data (Pd.frame_of_dicts rows)))).
    { rewrite <- Hlabels. apply lookup_some_in in Hcol'.
      change c with (fst (c, col')). now apply in_map. }
    destruct (Py.lookup c (data (Pd.frame_of_dicts rows))) as [col|] eqn:Hcol;
      [|apply lookup_none_not_in in Hcol; contradiction].
    destruct (coerce_columns_lookup _ _ _ Hc Hcol) as (col'' & Hcol'' & Hco).
    unfold Pd.column in Hcol'. rewrite Hcol' in Hcol''. injection Hcol'' as <-.
    destruct (coerce_series_total (field_type fd c) col) as (x & Hx & Hxlen).
    rewrite Hco in Hx. injection Hx as <-.
    rewrite Hxlen, Hrows, <- Hlen. exact (Hcols c col Hcol).
Qed.

Lemma normalised_table_is_rectangular_witness :
  let df := mk_frame [("VALUE", [CVal (PInt 1); CVal (PInt 2)]);
                      ("NOTE", [CVal (PStr "ok"); CVal (PStr "nan")])] 2 None in
  nrows df = 2%nat
  /\ NoDup (Pd.columns df)
  /\ forall c col, Pd.column c df = Some col -> List.length col = nrows df.
Proof.
  apply (@normalised_table_is_rectangular Sample.lib
           Sample.typed_fields
           [[("VALUE", PStr "1"); ("NOTE", PStr "ok")]; [("VALUE", PStr "2")]]
           None).
  reflexivity.
Defined.

(** ** Field metadata *)

Section FieldMetadata.
Context {lib : PandasLib}.

Lemma field_entries_app (a b : list pyval) (fa fb : list (pyval * pyval)) :
  field_entries a = Ok fa -> field_entries b = Ok fb ->
  field_entries (a ++ b) = Ok (fa ++ fb)%list.
Proof.
  revert fa. induction a as [|v a IH]; intros fa Ha Hb.
  - injection Ha as <-. exact Hb.
  - cbn [app field_entries] in *.
    destruct (Py.getitem v "id") as [id|]; [|discriminate Ha]. cbn [rbind] in *.
    destruct (Py.getitem v "type") as [ty|]; [|discriminate Ha]. cbn [rbind] in *.
    destruct (Py.hashable id); [|discriminate Ha]. cbn [rbind] in *.
    destruct (field_entries a) as [more|]; [|discriminate Ha]. cbn [rbind] in *.
    injection Ha as <-. rewrite (IH more eq_refl Hb). reflexivity.
Qed.

End FieldMetadata.

(** X22. When several field entries carry the same [id], the last one
    decides: after well-formed entries, a final entry for a column gives
    that column its type, whatever the earlier entries said. *)
Theorem last_field_entry_decides_type
    (earlier : list pyval) (c : string) (ty : pyval) :
  forallb field_ok earlier = true ->
  exists fd,
    field_dict_of (PList (earlier ++ [PDict [("id", PStr c); ("type", ty)]]))
    = Ok fd
    /\ field_type fd c = ty.
Proof.
  intros Hok. destruct (field_entries_total earlier Hok) as [fa Hfa].
  exists (fa ++ [(PStr c, ty)])%list. split.
  - unfold field_dict_of. cbn [Py.iter rbind].
    now apply field_entries_app.
  - unfold field_type. rewrite fold_left_app. cbn [fold_left fst snd].
    now rewrite String.eqb_refl.
Qed.

Lemma last_field_entry_decides_type_witness :
  exists fd,
    field_dict_of
      (PList ([PDict [("id", PStr "VALUE"); ("type", PStr "text")]]
              ++ [PDict [("id", PStr "VALUE"); ("type", PStr "numeric")]]))
    = Ok fd
    /\ field_type fd "VALUE" = PStr "numeric".
Proof.
  apply (@last_field_entry_decides_type
           [PDict [("id", PStr "VALUE"); ("type", PStr "text")]]
           "VALUE" (PStr "numeric")).
  reflexivity.
Defined.
